(** * The moby image build: trust policy, kernel splitting, initrd assembly

    A shallow embedding of [src/cmd/moby/build.go] and the properties of
    its assembly pipeline.

    - Go strings and byte slices are [string] (a sequence of 8-bit
      characters); [int] and [int64] values that are list positions are
      [nat], header fields are [Z].
    - [strings.Split] is modelled by the loop of the Go library (find the
      first occurrence of the separator, cut, repeat).
    - A tar stream being read is the sequence of results that
      [tar.Reader.Next] and the reads of the entry bodies deliver; a
      [tar.Writer] is the sequence of entries written so far together with
      the number of body bytes the current entry still expects.
    - Calls to the other files of the program ([dockerPull],
      [ImageExtract], [ConfigToOCI], [ImageBundle], [filesystem]) are
      events of a program tree; a handler answers them, and the calls made
      are recorded in a trace.
    - [log.Fatal] ends the process: the outcome [Fatal], after which the
      program tree makes no further call. *)

From Stdlib Require Import String Ascii List Bool Arith ZArith Lia.
From Stdlib Require Import DecimalString.
Import ListNotations.

Open Scope list_scope.
Open Scope string_scope.

(* ================================================================= *)
(** ** Strings *)

Module Strings.

(** [s[n:]] *)
Fixpoint drop (n : nat) (s : string) : string :=
  match n, s with
  | O, _ => s
  | S _, EmptyString => EmptyString
  | S n', String _ s' => drop n' s'
  end.

(** [s[:n]] *)
Definition take (n : nat) (s : string) : string := substring 0 n s.

(** [strings.Index(s, substr)]: the position of the first occurrence of
    [substr] in [s]; [None] stands for -1. *)
Fixpoint Index (s substr : string) : option nat :=
  if prefix substr s then Some O
  else match s with
       | EmptyString => None
       | String _ s' => option_map S (Index s' substr)
       end.

(** The loop of [strings.genSplit]: cut at the first occurrence of [sep]
    as long as there is one.  The Go library bounds the loop by
    [Count(s, sep)], the number of times [Index] succeeds; here the bound
    is a fuel [n]. *)
Fixpoint genSplit (n : nat) (s sep : string) : list string :=
  match n with
  | O => [s]
  | S n' =>
      match Index s sep with
      | None => [s]
      | Some m => take m s :: genSplit n' (drop (m + String.length sep) s) sep
      end
  end.

(** [strings.Split(s, sep)] for a non-empty [sep] (every call in
    build.go passes a non-empty literal).  Each cut removes at least one
    character, so [length s] iterations exhaust the occurrences. *)
Definition Split (s sep : string) : list string := genSplit (String.length s) s sep.

(** Membership of a character in a string. *)
Fixpoint occurs (c : ascii) (s : string) : bool :=
  match s with
  | EmptyString => false
  | String d s' => Ascii.eqb c d || occurs c s'
  end.

End Strings.

Import Strings.

(* ================================================================= *)
(** ** Configuration (config.go) *)

(** Modelled from the spec: the [TrustConfig] struct is declared in
    config.go; the trust policy holds the image patterns and the
    organization names. *)
Module TrustConfig.
Record t : Type := mk {
  Image : list string;
  Org : list string
}.
End TrustConfig.

(* ================================================================= *)
(** ** Trust policy evaluation: [enforceContentTrust] *)

(** The second test of the first loop: the name before a possible tag. *)
Definition matchesWithoutTag (img fullImageName : string) : bool :=
  let imgAndTag := Split fullImageName ":" in
  (2 <=? List.length imgAndTag)%nat && String.eqb img (hd "" imgAndTag).

(** The third test of the first loop: the name before a possible digest. *)
Definition matchesWithoutDigest (img fullImageName : string) : bool :=
  let imgAndDigest := Split fullImageName "@sha256:" in
  (2 <=? List.length imgAndDigest)%nat && String.eqb img (hd "" imgAndDigest).

(** [for _, img := range config.Image { ... }] *)
Fixpoint imageLoop (imgs : list string) (fullImageName : string) : bool :=
  match imgs with
  | [] => false
  | img :: rest =>
      if String.eqb img fullImageName then true
      else if matchesWithoutTag img fullImageName then true
      else if matchesWithoutDigest img fullImageName then true
      else imageLoop rest fullImageName
  end.

(** The [switch len(splitName)] of the second loop: the organization
    [imgOrg], or [None] for the case that returns false. *)
Definition imgOrgOf (splitName : list string) : option string :=
  match List.length splitName with
  | 0 => None
  | 1 => Some "library"
  | 2 => Some (nth 0 splitName "")
  | _ => Some (nth 1 splitName "")
  end.

(** [for _, org := range config.Org { ... }] *)
Fixpoint orgLoop (orgs : list string) (fullImageName : string) : bool :=
  match orgs with
  | [] => false
  | org :: rest =>
      let splitName := Split fullImageName "/" in
      match imgOrgOf splitName with
      | None => false
      | Some imgOrg =>
          if String.eqb imgOrg org then true else orgLoop rest fullImageName
      end
  end.

Definition enforceContentTrust (fullImageName : string) (config : TrustConfig.t) : bool :=
  if imageLoop (TrustConfig.Image config) fullImageName then true
  else orgLoop (TrustConfig.Org config) fullImageName.

(* ================================================================= *)
(** ** The name match after removing a tag *)

(** The second name-matching step over the whole pattern list. *)
Definition tagStep (imgs : list string) (fullImageName : string) : bool :=
  existsb (fun img => matchesWithoutTag img fullImageName) imgs.

(** The reading of the specification: the tag separator is the last ':'
    of the reference that lies neither inside a digest (no '@' before it)
    nor in a registry port (no '/' after it); the reference without its
    tag is what precedes that ':'.  [seen] is the part already passed. *)
Fixpoint specTagCut (seen s : string) : option string :=
  match s with
  | EmptyString => None
  | String c s' =>
      match specTagCut (seen ++ String c "") s' with
      | Some name => Some name
      | None =>
          if Ascii.eqb c ":" && negb (occurs "@" seen) && negb (occurs "/" s')
          then Some seen else None
      end
  end.

Definition specStripTag (fullImageName : string) : option string :=
  specTagCut "" fullImageName.

Definition specTagStep (imgs : list string) (fullImageName : string) : bool :=
  match specStripTag fullImageName with
  | Some name => existsb (fun img => String.eqb img name) imgs
  | None => false
  end.


(* ================================================================= *)
(** ** Errors and results *)

(** A Go [error], identified by its message. *)
Definition error : Type := string.

(** A Go result pair [(value, err)]. *)
Inductive result (A : Type) : Type :=
| Ok (a : A)
| Err (e : error).
Arguments Ok {A} a.
Arguments Err {A} e.

(** What a call of a function that may end the process gives: it returns,
    or [log.Fatal] printed a message and the process exited. *)
Inductive outcome (A : Type) : Type :=
| Returns (a : A)
| Fatal (msg : string).
Arguments Returns {A} a.
Arguments Fatal {A} msg.

(* ================================================================= *)
(** ** archive/tar *)

Module tar.

Definition TypeReg : ascii := "0".
Definition TypeDir : ascii := "5".
(** The zero value of the [Typeflag] field: a regular file, too. *)
Definition TypeRegA : ascii := "000".

(** The fields of [tar.Header] that build.go sets or relies on. *)
Record Header : Type := mkHeader {
  Name : string;
  Mode : Z;
  Size : Z;
  Typeflag : ascii
}.

(** An archive entry: its header and its content. *)
Definition Entry : Type := (Header * string)%type.

(** A tar stream as a [tar.Reader] delivers it: [Next] returns [io.EOF],
    or an error, or a header; reading the entry then gives its content,
    and possibly an error after it. *)
Inductive Stream : Type :=
| EOF
| NextError (err : error)
| Next (hdr : Header) (content : string) (readErr : option error) (rest : Stream).

(** A stream without errors that delivers the given entries. *)
Fixpoint streamOf (es : list Entry) : Stream :=
  match es with
  | [] => EOF
  | (hdr, content) :: rest => Next hdr content None (streamOf rest)
  end.

(** The entries a stream delivers before its end or its first error. *)
Fixpoint entriesOf (tr : Stream) : list Entry :=
  match tr with
  | EOF => []
  | NextError _ => []
  | Next hdr content _ rest => (hdr, content) :: entriesOf rest
  end.

(** A [tar.Writer]: the entries written so far (the last one may still be
    growing) and [nb], the number of content bytes the current entry still
    expects. *)
Record Writer : Type := mkWriter {
  entries : list Entry;
  nb : Z
}.

Definition NewWriter : Writer := mkWriter [] 0.

Definition ErrWriteTooLong : error := "archive/tar: write too long".

Definition errMissed (n : Z) : error :=
  "archive/tar: missed writing " ++ NilZero.string_of_int (Z.to_int n) ++ " bytes".

(** [tw.WriteHeader(hdr)]: refuses when the previous entry is short of
    content, otherwise starts a new entry of [hdr.Size] bytes. *)
Definition WriteHeader (tw : Writer) (hdr : Header) : result Writer :=
  if (0 <? nb tw)%Z then Err (errMissed (nb tw))
  else Ok (mkWriter (entries tw ++ [(hdr, "")])%list (Size hdr)).

(** Content appended to the entry being written. *)
Definition appendContent (es : list Entry) (b : string) : list Entry :=
  match rev es with
  | [] => []
  | (hdr, content) :: before => (rev before ++ [(hdr, (content ++ b)%string)])%list
  end.

(** [tw.Write(b)]: refuses more bytes than the header announced. *)
Definition Write (tw : Writer) (b : string) : result Writer :=
  if (nb tw <? Z.of_nat (String.length b))%Z then Err ErrWriteTooLong
  else Ok (mkWriter (appendContent (entries tw) b) (nb tw - Z.of_nat (String.length b))).

(** [io.Copy(tw, src)] where reading [src] gives [content] and then
    [readErr]: nothing is written when there is no content; an error of
    the write comes before the error of the read. *)
Definition Copy (tw : Writer) (content : string) (readErr : option error) : result Writer :=
  match (if String.eqb content "" then Ok tw else Write tw content) with
  | Err e => Err e
  | Ok tw' =>
      match readErr with
      | Some e => Err e
      | None => Ok tw'
      end
  end.

(** [tw.Close()]: refuses when the last entry is short of content; gives
    the finished archive. *)
Definition Close (tw : Writer) : result (list Entry) :=
  if (0 <? nb tw)%Z then Err (errMissed (nb tw))
  else Ok (entries tw).

End tar.

(** The bytes of a buffer.  Bytes that came out of a [tar.Writer] of this
    program are kept as the entries they encode; reading them back with a
    [tar.Reader] delivers these entries.  Other bytes are raw. *)
Inductive Buffer : Type :=
| Raw (b : string)
| Archive (es : list tar.Entry).

(* ================================================================= *)
(** ** The declarative configuration (config.go) *)

(** Modelled from the spec: the struct of a named container is declared
    in config.go; of its fields build.go reads [Name] and [Image]. *)
Module MobyImage.
Record t : Type := mk {
  Name : string;
  Image : string
}.
End MobyImage.

(** Modelled from the spec: the kernel part of the configuration. *)
Module KernelConfig.
Record t : Type := mk {
  Image : string;
  Cmdline : string
}.
End KernelConfig.

(** Modelled from the spec: the configuration struct [Moby] is declared
    in config.go.  [Files] stands for the overlay entries, which only
    [filesystem] reads. *)
Record Moby : Type := mkMoby {
  Kernel : KernelConfig.t;
  Init : list string;
  Onboot : list MobyImage.t;
  Services : list MobyImage.t;
  Trust : TrustConfig.t;
  Files : list string
}.

(* ================================================================= *)
(** ** Calls into the rest of the program *)

(** The functions of the other files that [buildInternal] calls, each
    with the type of what it returns. *)
Inductive call : Type -> Type :=
| dockerPull (image : string) (trustedPull : bool) : call (option error)
| ImageExtract (image prefix : string) (trust pull : bool) : call (result string)
| ConfigToOCI (image : MobyImage.t) : call (result string)
| ImageBundle (path image config : string) (trust pull : bool) : call (result string)
| filesystem (m : Moby) : call (result string).

(** A program that makes such calls. *)
Inductive prog (A : Type) : Type :=
| Ret (a : A)
| Vis (X : Type) (c : call X) (k : X -> prog A).
Arguments Ret {A} a.
Arguments Vis {A X} c k.

Fixpoint bindProg {A B : Type} (p : prog A) (f : A -> prog B) : prog B :=
  match p with
  | Ret a => f a
  | Vis c k => Vis c (fun x => bindProg (k x) f)
  end.

(** Programs that may end the process. *)
Definition M (A : Type) : Type := prog (outcome A).

Definition ret {A : Type} (a : A) : M A := Ret (Returns a).

(** [log.Fatalf]/[log.Fatalln]: nothing after it runs. *)
Definition fatal {A : Type} (msg : string) : M A := Ret (Fatal msg).

Definition bind {A B : Type} (m : M A) (f : A -> M B) : M B :=
  bindProg m (fun o => match o with
                       | Returns a => f a
                       | Fatal msg => Ret (Fatal msg)
                       end).

Definition perform {X : Type} (c : call X) : M X := Vis c (fun x => ret x).

(** A function without calls, used inside a program. *)
Definition lift {A : Type} (o : outcome A) : M A := Ret o.

Notation "x <- m ;; k" := (bind m (fun x => k))
  (at level 61, m at next level, right associativity).

(** One call with its answer. *)
Inductive event : Type :=
| Event (X : Type) (c : call X) (x : X).
Arguments Event {X} c x.

(** The other files of the program: an answer to every call. *)
Definition handler : Type := forall X : Type, call X -> X.

(** Running a program: the calls made, in order, and the result. *)
Fixpoint run {A : Type} (h : handler) (p : prog A) : list event * A :=
  match p with
  | Ret a => ([], a)
  | Vis c k =>
      let x := h _ c in
      let (t, a) := run h (k x) in
      (Event c x :: t, a)
  end.

Definition trace {A : Type} (h : handler) (p : prog A) : list event := fst (run h p).
Definition outcomeOf {A : Type} (h : handler) (p : prog A) : A := snd (run h p).

(* ================================================================= *)
(** ** build.go *)

(** [fmt.Sprintf("%03d", i)] for a list position [i]: the decimal digits
    of [i], padded with zeros on the left to a width of three. *)
Fixpoint zeros (n : nat) : string :=
  match n with
  | O => ""
  | S n' => String "0" (zeros n')
  end.

Definition Itoa (i : nat) : string := NilZero.string_of_uint (Nat.to_uint i).

Definition Sprintf03d (i : nat) : string :=
  let digits := Itoa i in
  zeros (3 - String.length digits) ++ digits.

Definition errDuplicateKernel : error := "found more than one possible kernel image".
Definition errMissingKernel : error := "did not find kernel in kernel image".
Definition errMissingKtar : error := "did not find kernel.tar in kernel image".

Definition kernelName : string := "kernel".
Definition kernelAltName : string := "bzImage".
Definition ktarName : string := "kernel.tar".

Notation "x <-? r ;; k" :=
  (match r with
   | Err e => Err e
   | Ok x => k
   end)
  (at level 61, r at next level, right associativity, only parsing).

Section Build.

(** [tar.NewReader] over raw bytes: decoding the tar format is the work
    of archive/tar, a parameter here. *)
Variable decode : string -> tar.Stream.

Definition NewReader (r : Buffer) : tar.Stream :=
  match r with
  | Raw b => decode b
  | Archive es => tar.streamOf es
  end.

(** The loop of [initrdAppend]. *)
Fixpoint appendLoop (iw : tar.Writer) (tr : tar.Stream) : outcome tar.Writer :=
  match tr with
  | tar.EOF => Returns iw
  | tar.NextError err => Fatal err
  | tar.Next hdr content readErr rest =>
      match tar.WriteHeader iw hdr with
      | Err err => Fatal err
      | Ok iw1 =>
          match tar.Copy iw1 content readErr with
          | Err err => Fatal err
          | Ok iw2 => appendLoop iw2 rest
          end
      end
  end.

Definition initrdAppend (iw : tar.Writer) (r : Buffer) : outcome tar.Writer :=
  appendLoop iw (NewReader r).

(** The case of a kernel entry in [untarKernel]: a new tarball with the
    kernel in boot/kernel and the command line in boot/cmdline. *)
Definition bootTarball (hdr : tar.Header) (content : string)
    (readErr : option error) (cmdline : string) : result Buffer :=
  let tw := tar.NewWriter in
  let whdr := tar.mkHeader "boot" 448 (* 0700 *) 0 tar.TypeDir in
  tw <-? tar.WriteHeader tw whdr ;;
  let whdr := tar.mkHeader "boot/kernel" (tar.Mode hdr) (tar.Size hdr) tar.TypeRegA in
  tw <-? tar.WriteHeader tw whdr ;;
  tw <-? tar.Copy tw content readErr ;;
  let whdr := tar.mkHeader "boot/cmdline" 448 (* 0700 *)
                (Z.of_nat (String.length cmdline)) tar.TypeRegA in
  tw <-? tar.WriteHeader tw whdr ;;
  tw <-? tar.Copy tw cmdline None ;;
  es <-? tar.Close tw ;;
  Ok (Archive es).

(** The loop of [untarKernel] with its variables [kernel], [ktar] ([None]
    for nil) and [foundKernel], and what follows the loop. *)
Fixpoint untarLoop (kernelName kernelAltName ktarName cmdline : string)
    (tr : tar.Stream) (kernel ktar : option Buffer) (foundKernel : bool)
    : outcome (result (Buffer * Buffer)) :=
  match tr with
  | tar.EOF =>
      match kernel with
      | None => Returns (Err errMissingKernel)
      | Some kernel =>
          match ktar with
          | None => Returns (Err errMissingKtar)
          | Some ktar => Returns (Ok (kernel, ktar))
          end
      end
  | tar.NextError err => Fatal err
  | tar.Next hdr content readErr rest =>
      if String.eqb (tar.Name hdr) kernelName || String.eqb (tar.Name hdr) kernelAltName
      then
        if foundKernel then Returns (Err errDuplicateKernel)
        else
          match bootTarball hdr content readErr cmdline with
          | Err err => Returns (Err err)
          | Ok kernel =>
              untarLoop kernelName kernelAltName ktarName cmdline rest
                (Some kernel) ktar true
          end
      else if String.eqb (tar.Name hdr) ktarName
      then
        match readErr with
        | Some err => Returns (Err err)
        | None =>
            untarLoop kernelName kernelAltName ktarName cmdline rest
              kernel (Some (Raw content)) foundKernel
        end
      else
        untarLoop kernelName kernelAltName ktarName cmdline rest
          kernel ktar foundKernel
  end.

Definition untarKernel (buf : Buffer) (kernelName kernelAltName ktarName : string)
    (cmdline : string) : outcome (result (Buffer * Buffer)) :=
  untarLoop kernelName kernelAltName ktarName cmdline (NewReader buf) None None false.

(** [for _, ii := range m.Init { ... }] *)
Fixpoint initLoop (m : Moby) (pull : bool) (inits : list string)
    (iw : tar.Writer) : M tar.Writer :=
  match inits with
  | [] => ret iw
  | ii :: rest =>
      init <- perform (ImageExtract ii "" (enforceContentTrust ii (Trust m)) pull) ;;
      match init with
      | Err err => fatal ("Failed to build init tarball from " ++ ii ++ ": " ++ err)
      | Ok init =>
          iw <- lift (initrdAppend iw (Raw init)) ;;
          initLoop m pull rest iw
      end
  end.

Definition onbootPath (i : nat) (image : MobyImage.t) : string :=
  let so := Sprintf03d i in
  "containers/onboot/" ++ so ++ "-" ++ MobyImage.Name image.

(** [for i, image := range m.Onboot { ... }], from position [i] on. *)
Fixpoint onbootLoop (m : Moby) (pull : bool) (i : nat) (images : list MobyImage.t)
    (iw : tar.Writer) : M tar.Writer :=
  match images with
  | [] => ret iw
  | image :: rest =>
      config <- perform (ConfigToOCI image) ;;
      match config with
      | Err err =>
          fatal ("Failed to create config.json for " ++ MobyImage.Image image ++ ": " ++ err)
      | Ok config =>
          let path := onbootPath i image in
          out <- perform (ImageBundle path (MobyImage.Image image) config
                            (enforceContentTrust (MobyImage.Image image) (Trust m)) pull) ;;
          match out with
          | Err err =>
              fatal ("Failed to extract root filesystem for "
                       ++ MobyImage.Image image ++ ": " ++ err)
          | Ok out =>
              iw <- lift (initrdAppend iw (Raw out)) ;;
              onbootLoop m pull (S i) rest iw
          end
      end
  end.

Definition servicePath (image : MobyImage.t) : string :=
  "containers/services/" ++ MobyImage.Name image.

(** [for _, image := range m.Services { ... }] *)
Fixpoint servicesLoop (m : Moby) (pull : bool) (images : list MobyImage.t)
    (iw : tar.Writer) : M tar.Writer :=
  match images with
  | [] => ret iw
  | image :: rest =>
      config <- perform (ConfigToOCI image) ;;
      match config with
      | Err err =>
          fatal ("Failed to create config.json for " ++ MobyImage.Image image ++ ": " ++ err)
      | Ok config =>
          let path := servicePath image in
          out <- perform (ImageBundle path (MobyImage.Image image) config
                            (enforceContentTrust (MobyImage.Image image) (Trust m)) pull) ;;
          match out with
          | Err err =>
              fatal ("Failed to extract root filesystem for "
                       ++ MobyImage.Image image ++ ": " ++ err)
          | Ok out =>
              iw <- lift (initrdAppend iw (Raw out)) ;;
              servicesLoop m pull rest iw
          end
      end
  end.

(** The pull of the kernel image at the start of [buildInternal]. *)
Definition pullKernel (m : Moby) (pull : bool) : M unit :=
  let image := KernelConfig.Image (Kernel m) in
  if pull || enforceContentTrust image (Trust m) then
    err <- perform (dockerPull image (enforceContentTrust image (Trust m))) ;;
    match err with
    | Some err => fatal ("Could not pull image " ++ image ++ ": " ++ err)
    | None => ret tt
    end
  else ret tt.

(** The block [if m.Kernel.Image != "" { ... }]. *)
Definition addKernel (m : Moby) (pull : bool) (iw : tar.Writer) : M tar.Writer :=
  let image := KernelConfig.Image (Kernel m) in
  if negb (String.eqb image "") then
    out <- perform (ImageExtract image "" (enforceContentTrust image (Trust m)) pull) ;;
    match out with
    | Err err => fatal ("Failed to extract kernel image and tarball: " ++ err)
    | Ok out =>
        let buf := Raw out in
        split <- lift (untarKernel buf kernelName kernelAltName ktarName
                         (KernelConfig.Cmdline (Kernel m))) ;;
        match split with
        | Err err =>
            fatal ("Could not extract kernel image and filesystem from tarball. " ++ err)
        | Ok (kernel, ktar) =>
            iw <- lift (initrdAppend iw kernel) ;;
            lift (initrdAppend iw ktar)
        end
    end
  else ret iw.

(** The end of [buildInternal]: the files, then the close of the archive. *)
Definition addFiles (m : Moby) (iw : tar.Writer) : M Buffer :=
  buffer <- perform (filesystem m) ;;
  match buffer with
  | Err err => fatal ("failed to add filesystem parts: " ++ err)
  | Ok buffer =>
      iw <- lift (initrdAppend iw (Raw buffer)) ;;
      match tar.Close iw with
      | Err err => fatal ("initrd close error: " ++ err)
      | Ok es => ret (Archive es)
      end
  end.

Definition buildInternal (m : Moby) (pull : bool) : M Buffer :=
  let iw := tar.NewWriter in
  _ <- pullKernel m pull ;;
  iw <- addKernel m pull iw ;;
  iw <- initLoop m pull (Init m) iw ;;
  iw <- onbootLoop m pull 0 (Onboot m) iw ;;
  iw <- servicesLoop m pull (Services m) iw ;;
  addFiles m iw.

End Build.

(* ================================================================= *)
(** ** A concrete build, for evaluation *)

Module Demo.

Definition file (name : string) (mode : Z) (content : string) : tar.Entry :=
  (tar.mkHeader name mode (Z.of_nat (String.length content)) tar.TypeReg, content).

Definition dir (name : string) : tar.Entry :=
  (tar.mkHeader name 493 (* 0755 *) 0 tar.TypeDir, "").

(** A decoder that knows the byte strings of this example by name. *)
Definition decode (b : string) : tar.Stream :=
  if String.eqb b "<kernel image>" then
    tar.streamOf [dir "etc"; file "kernel" 420 (* 0644 *) "X"; file "kernel.tar" 420 "<modules>"]
  else if String.eqb b "<two kernels>" then
    tar.streamOf [file "kernel" 420 "X"; file "bzImage" 420 "Y"; file "kernel.tar" 420 "<modules>"]
  else if String.eqb b "<modules>" then
    tar.streamOf [dir "lib"; file "lib/modules.dep" 420 "dep"]
  else if String.eqb b "<init>" then
    tar.streamOf [file "init" 493 "#!"]
  else if String.eqb b "<runc>" then
    tar.streamOf [file "usr/bin/runc" 493 "ELF"]
  else if String.eqb b "<overlay>" then
    tar.streamOf [file "etc/hostname" 420 "moby"]
  else if String.eqb b "<broken>" then
    tar.NextError "unexpected EOF"
  else if prefix "bundle " b then
    tar.streamOf [dir (drop 7 b); file (drop 7 b ++ "/config.json") 420 "{}"]
  else tar.EOF.

(** Other files of the program that answer every call successfully. *)
Definition answers : handler :=
  fun X c =>
    match c in call X return X with
    | dockerPull _ _ => None
    | ImageExtract image _ _ _ =>
        if String.eqb image "linuxkit/kernel:4.9.x" then Ok "<kernel image>"
        else if String.eqb image "linuxkit/init:1" then Ok "<init>"
        else if String.eqb image "linuxkit/runc:1" then Ok "<runc>"
        else Ok ""
    | ConfigToOCI image => Ok ("{" ++ MobyImage.Name image ++ "}")
    | ImageBundle path _ _ _ _ => Ok ("bundle " ++ path)
    | filesystem _ => Ok "<overlay>"
    end.

(** The same, except that the bundle of the image [bad] fails. *)
Definition failingBundle (bad : string) : handler :=
  fun X c =>
    match c in call X return X with
    | ImageBundle path image config trust pull =>
        if String.eqb image bad then Err "no such image"
        else answers _ (ImageBundle path image config trust pull)
    | dockerPull image trustedPull => answers _ (dockerPull image trustedPull)
    | ImageExtract image prefix trust pull =>
        answers _ (ImageExtract image prefix trust pull)
    | ConfigToOCI image => answers _ (ConfigToOCI image)
    | filesystem m => answers _ (filesystem m)
    end.

Definition spec : Moby :=
  mkMoby (KernelConfig.mk "linuxkit/kernel:4.9.x" "console=ttyS0")
         ["linuxkit/init:1"; "linuxkit/runc:1"]
         [MobyImage.mk "sysctl" "linuxkit/sysctl:1";
          MobyImage.mk "dhcpcd" "linuxkit/dhcpcd:1";
          MobyImage.mk "rngd" "linuxkit/rngd:1"]
         [MobyImage.mk "sshd" "linuxkit/sshd:1"]
         (TrustConfig.mk [] ["linuxkit"])
         ["etc/hostname"].

(** A configuration without a kernel image. *)
Definition noKernel : Moby :=
  mkMoby (KernelConfig.mk "" "") [] [] [] (TrustConfig.mk [] []) [].

End Demo.

(* ================================================================= *)
(** ** Notions used in the properties *)

(** The entries [es], then whatever [rest] delivers. *)
Fixpoint prepend (es : list tar.Entry) (rest : tar.Stream) : tar.Stream :=
  match es with
  | [] => rest
  | (hdr, content) :: es' => tar.Next hdr content None (prepend es' rest)
  end.

(** The header announces the size of the content (what a [tar.Reader]
    delivers for a regular file). *)
Definition consistent (e : tar.Entry) : Prop :=
  tar.Size (fst e) = Z.of_nat (String.length (snd e)).

(** The first case of the switch of [untarKernel]. *)
Definition isKernelEntry (kernelName kernelAltName : string) (e : tar.Entry) : bool :=
  String.eqb (tar.Name (fst e)) kernelName || String.eqb (tar.Name (fst e)) kernelAltName.

(** The second case of the switch. *)
Definition isKtarEntry (ktarName : string) (e : tar.Entry) : bool :=
  String.eqb (tar.Name (fst e)) ktarName.

(** The value of the variable [ktar] of [untarKernel] after entries that
    are no kernel. *)
Fixpoint ktarAfterEntries (ktarName : string) (es : list tar.Entry)
    (ktar : option Buffer) : option Buffer :=
  match es with
  | [] => ktar
  | e :: es' =>
      ktarAfterEntries ktarName es'
        (if isKtarEntry ktarName e then Some (Raw (snd e)) else ktar)
  end.


(** The tarball that [untarKernel] makes of a kernel entry. *)
Definition bootEntries (hdr : tar.Header) (content cmdline : string) : list tar.Entry :=
  [ (tar.mkHeader "boot" 448 0 tar.TypeDir, "");
    (tar.mkHeader "boot/kernel" (tar.Mode hdr) (tar.Size hdr) tar.TypeRegA, content);
    (tar.mkHeader "boot/cmdline" 448 (Z.of_nat (String.length cmdline)) tar.TypeRegA,
     cmdline) ].

(** The tarball as the specification words it: the directory entry is
    named with a trailing slash. *)
Definition specBootEntries (hdr : tar.Header) (content cmdline : string) : list tar.Entry :=
  [ (tar.mkHeader "boot/" 448 0 tar.TypeDir, "");
    (tar.mkHeader "boot/kernel" (tar.Mode hdr) (tar.Size hdr) tar.TypeRegA, content);
    (tar.mkHeader "boot/cmdline" 448 (Z.of_nat (String.length cmdline)) tar.TypeRegA,
     cmdline) ].

(** Whether the answer to a call is an error. *)
Definition failedAnswer {X : Type} (c : call X) : X -> bool :=
  match c in call X return X -> bool with
  | dockerPull _ _ => fun x => match x with Some _ => true | None => false end
  | ImageExtract _ _ _ _ => fun x => match x with Err _ => true | Ok _ => false end
  | ConfigToOCI _ => fun x => match x with Err _ => true | Ok _ => false end
  | ImageBundle _ _ _ _ _ => fun x => match x with Err _ => true | Ok _ => false end
  | filesystem _ => fun x => match x with Err _ => true | Ok _ => false end
  end.

Definition failed (ev : event) : bool :=
  match ev with
  | Event c x => failedAnswer c x
  end.

(** The paths of the [ImageBundle] calls of a trace. *)
Definition bundlePath (ev : event) : list string :=
  match ev with
  | Event c _ =>
      match c with
      | ImageBundle path _ _ _ _ => [path]
      | _ => []
      end
  end.

Definition bundlePaths (t : list event) : list string := flat_map bundlePath t.

(** The images of the [dockerPull] calls of a trace. *)
Definition pulled (ev : event) : list string :=
  match ev with
  | Event c _ =>
      match c with
      | dockerPull image _ => [image]
      | _ => []
      end
  end.

Definition pulls (t : list event) : list string := flat_map pulled t.

(** The elements of a list with their positions, counted from [i]. *)
Fixpoint indexedFrom {A : Type} (i : nat) (l : list A) : list (nat * A) :=
  match l with
  | [] => []
  | a :: l' => (i, a) :: indexedFrom (S i) l'
  end.

(** A decimal digit. *)
Definition digit (n : nat) : ascii := ascii_of_nat (48 + n).

(** The bundle paths of a configuration, as the specification gives
    them: the onboot entries by position, then the services. *)
Definition specBundlePaths (m : Moby) : list string :=
  (map (fun p => ("containers/onboot/" ++ Sprintf03d (fst p) ++ "-"
                    ++ MobyImage.Name (snd p))%string)
       (indexedFrom 0 (Onboot m))
   ++ map (fun image => ("containers/services/" ++ MobyImage.Name image)%string)
          (Services m))%list.

Section Fragments.

Variable decode : string -> tar.Stream.
Variable h : handler.
Variable m : Moby.
Variable pull : bool.

(** The answer that brings the fragment of an init image. *)
Definition initFragment (ii : string) : result string :=
  h _ (ImageExtract ii "" (enforceContentTrust ii (Trust m)) pull).

(** The answer that brings the bundle of a container at [path]. *)
Definition bundleFragment (path : string) (image : MobyImage.t) : result string :=
  match h _ (ConfigToOCI image) with
  | Err e => Err e
  | Ok config =>
      h _ (ImageBundle path (MobyImage.Image image) config
             (enforceContentTrust (MobyImage.Image image) (Trust m)) pull)
  end.

(** The fragments after the kernel, in the order of the specification:
    init images, onboot containers, services, files. *)
Definition laterFragments : list (result string) :=
  (map initFragment (Init m)
   ++ map (fun p => bundleFragment (onbootPath (fst p) (snd p)) (snd p))
          (indexedFrom 0 (Onboot m))
   ++ map (fun image => bundleFragment (servicePath image) image) (Services m)
   ++ [h _ (filesystem m)])%list.

(** The entries of a fragment. *)
Definition fragmentEntries (r : result string) : list tar.Entry :=
  match r with
  | Ok b => tar.entriesOf (decode b)
  | Err _ => []
  end.

(** A fragment that arrived and reads without error to its end. *)
Definition wholeFragment (r : result string) : Prop :=
  exists b es, r = Ok b /\ decode b = tar.streamOf es.

(** The steps of the build before the files, each from the archive
    writer it finds to the one it leaves. *)
Definition steps : list (tar.Writer -> M tar.Writer) :=
  ([ (fun iw => _ <- pullKernel m pull ;; ret iw);
     addKernel decode m pull ]
   ++ map (fun ii iw => initLoop decode m pull [ii] iw) (Init m)
   ++ map (fun p iw => onbootLoop decode m pull (fst p) [snd p] iw)
          (indexedFrom 0 (Onboot m))
   ++ map (fun image iw => servicesLoop decode m pull [image] iw) (Services m))%list.

Fixpoint runSteps (ss : list (tar.Writer -> M tar.Writer)) (iw : tar.Writer)
    : M tar.Writer :=
  match ss with
  | [] => ret iw
  | s :: rest => iw' <- s iw ;; runSteps rest iw'
  end.

End Fragments.

(** A program that ends the process at the first call that fails: after
    an answer that is an error nothing follows but [Fatal]. *)
Inductive stopsAtFailure {A : Type} : M A -> Prop :=
| stops_ret (o : outcome A) : stopsAtFailure (Ret o)
| stops_vis (X : Type) (c : call X) (k : X -> M A) :
    (forall x, failedAnswer c x = true -> exists msg, k x = Ret (Fatal msg)) ->
    (forall x, failedAnswer c x = false -> stopsAtFailure (k x)) ->
    stopsAtFailure (Vis c k).

From Stdlib Require DecimalFacts DecimalN DecimalNat.

(* ================================================================= *)
(** ** Further functions of build.go: sizes and output lists *)

(** [strings.HasSuffix(s, suffix)] *)
Definition HasSuffix (s suffix : string) : bool :=
  (String.length suffix <=? String.length s)%nat
  && String.eqb (drop (String.length s - String.length suffix) s) suffix.

(** [strings.Join(elems, sep)] *)
Fixpoint Join (elems : list string) (sep : string) : string :=
  match elems with
  | [] => ""
  | [a] => a
  | a :: rest => a ++ sep ++ Join rest sep
  end.

(** A decimal digit character: ['0' <= c && c <= '9']. *)
Definition isDigit (c : ascii) : bool :=
  (48 <=? N_of_ascii c)%N && (N_of_ascii c <=? 57)%N.

Module strconv.

(** The error value of the conversions: [*strconv.NumError]. *)
Record NumError : Type := mkNumError {
  Func : string;
  Num : string;
  Err : string
}.

Definition ErrSyntax : string := "invalid syntax".
Definition ErrRange : string := "value out of range".

(** The bounds of [int], 64 bits wide, and of [uint64]. *)
Definition maxInt : Z := 9223372036854775807.
Definition minInt : Z := -9223372036854775808.
Definition maxUint64 : N := 18446744073709551615.

(** The loop of [ParseUint] for base 10, [n] being the value of the
    digits read so far.  The characters are visited from left to right:
    one that is no digit ends the loop with a syntax error, and digits
    that overflow 64 bits end it with a range error before any character
    after them is looked at. *)
Fixpoint parseDigits (s : string) (n : N) : N * option string :=
  match s with
  | EmptyString => (n, None)
  | String c rest =>
      if isDigit c then
        let v := (N_of_ascii c - 48)%N in
        if (maxUint64 / 10 + 1 <=? n)%N then (maxUint64, Some ErrRange)
        else
          let n1 := (n * 10 + v)%N in
          if (maxUint64 <? n1)%N then (maxUint64, Some ErrRange)
          else parseDigits rest n1
      else (0%N, Some ErrSyntax)
  end.

(** [strconv.ParseUint(s, 10, 0)] *)
Definition ParseUint (s : string) : N * option string :=
  if String.eqb s "" then (0%N, Some ErrSyntax) else parseDigits s 0.

(** [strconv.ParseInt(s, 10, 0)]: the sign is picked off, the rest is
    read by [ParseUint]; an error of it other than the range error is
    returned with value 0, and a value outside of [int] gives the nearest
    bound together with a range error. *)
Definition ParseInt (s : string) : Z * option NumError :=
  if String.eqb s "" then (0%Z, Some (mkNumError "ParseInt" s ErrSyntax))
  else
    let signed :=
      match s with
      | String c rest =>
          if Ascii.eqb c "+" then (false, rest)
          else if Ascii.eqb c "-" then (true, rest)
          else (false, s)
      | EmptyString => (false, s)
      end in
    let neg := fst signed in
    let (un, err) := ParseUint (snd signed) in
    let other :=
      match err with
      | Some e => if String.eqb e ErrRange then None else Some e
      | None => None
      end in
    match other with
    | Some e => (0%Z, Some (mkNumError "ParseInt" s e))
    | None =>
        let cutoff := 9223372036854775808%N in
        if negb neg && (cutoff <=? un)%N
        then (maxInt, Some (mkNumError "ParseInt" s ErrRange))
        else if neg && (cutoff <? un)%N
             then (minInt, Some (mkNumError "ParseInt" s ErrRange))
             else ((if neg then - Z.of_N un else Z.of_N un)%Z, None)
    end.

(** [strconv.Atoi(s)]: [ParseInt(s, 10, 0)], the error naming [Atoi].
    (The short cut that newer versions of the library take for strings
    of fewer than 19 characters gives the same values and errors.) *)
Definition Atoi (s : string) : Z * option NumError :=
  let (i, err) := ParseInt s in
  (i, match err with
      | Some e => Some (mkNumError "Atoi" (Num e) (Err e))
      | None => None
      end).

End strconv.

(** Arithmetic of [int]: the result modulo 2^64, as a signed number. *)
Definition wrapInt (z : Z) : Z :=
  ((z + 9223372036854775808) mod 18446744073709551616 - 9223372036854775808)%Z.

(** [getDiskSizeMB]: the size in MB of a string that is a number, or a
    number followed by M or G. *)
Definition getDiskSizeMB (s : string) : Z * option strconv.NumError :=
  if String.eqb s "" then (0%Z, None)
  else
    let sz := String.length s in
    if HasSuffix s "G" then
      match strconv.Atoi (take (sz - 1) s) with
      | (_, Some err) => (0%Z, Some err)
      | (i, None) => (wrapInt (i * 1024), None)
      end
    else
      let s := if HasSuffix s "M" then take (sz - 1) s else s in
      strconv.Atoi s.

(** The decimal digits of a natural number ([strconv.Itoa] on it). *)
Definition FormatN (n : N) : string := NilZero.string_of_uint (N.to_uint n).

Definition outputList : Type := list string.

(** [(o *outputList) Set(value)]: every piece between commas is appended;
    the error is always nil. *)
Definition outputList_Set (o : outputList) (value : string) : outputList * option error :=
  (fold_left (fun o cs => (o ++ [cs])%list) (Split value ",") o, None).

(** The value of decimal digits read after digits of value [acc]. *)
Fixpoint valAcc (d : Decimal.uint) (acc : N) : N :=
  match d with
  | Decimal.Nil => acc
  | Decimal.D0 d => valAcc d (acc * 10)
  | Decimal.D1 d => valAcc d (acc * 10 + 1)
  | Decimal.D2 d => valAcc d (acc * 10 + 2)
  | Decimal.D3 d => valAcc d (acc * 10 + 3)
  | Decimal.D4 d => valAcc d (acc * 10 + 4)
  | Decimal.D5 d => valAcc d (acc * 10 + 5)
  | Decimal.D6 d => valAcc d (acc * 10 + 6)
  | Decimal.D7 d => valAcc d (acc * 10 + 7)
  | Decimal.D8 d => valAcc d (acc * 10 + 8)
  | Decimal.D9 d => valAcc d (acc * 10 + 9)
  end%N.

(** The number of occurrences of a character in a string. *)
Fixpoint countChar (c : ascii) (s : string) : nat :=
  match s with
  | EmptyString => 0
  | String d s' => (if Ascii.eqb c d then 1 else 0) + countChar c s'
  end.

(* ================================================================= *)
(** ** The calls of a build *)

(** A call without its answer. *)
Inductive callLabel : Type :=
| LPull (image : string) (trustedPull : bool)
| LExtract (image prefix : string) (trust pull : bool)
| LConfig (image : MobyImage.t)
| LBundle (path image config : string) (trust pull : bool)
| LFiles (m : Moby).

Definition labelOf (ev : event) : callLabel :=
  match ev with
  | Event c _ =>
      match c with
      | dockerPull image trustedPull => LPull image trustedPull
      | ImageExtract image prefix trust pull => LExtract image prefix trust pull
      | ConfigToOCI image => LConfig image
      | ImageBundle path image config trust pull => LBundle path image config trust pull
      | filesystem m => LFiles m
      end
  end.

Definition labels (t : list event) : list callLabel := map labelOf t.

(** The calls of a program are a beginning of the list [P], and the
    whole of it when the program returns. *)
Definition follows (h : handler) {A : Type} (p : M A) (P : list callLabel) : Prop :=
  (exists rest, P = (labels (fst (run h p)) ++ rest)%list) /\
  (forall a, snd (run h p) = Returns a -> labels (fst (run h p)) = P).

Section Plan.

Variable h : handler.
Variable m : Moby.
Variable pull : bool.

(** The configuration that [ConfigToOCI] answers for a container. *)
Definition configOf (image : MobyImage.t) : string :=
  match h _ (ConfigToOCI image) with
  | Ok config => config
  | Err _ => ""
  end.

Definition bundlePlan (path : string) (image : MobyImage.t) : list callLabel :=
  [ LConfig image;
    LBundle path (MobyImage.Image image) (configOf image)
      (enforceContentTrust (MobyImage.Image image) (Trust m)) pull ].

Definition pullPlan : list callLabel :=
  let image := KernelConfig.Image (Kernel m) in
  if pull || enforceContentTrust image (Trust m)
  then [LPull image (enforceContentTrust image (Trust m))]
  else [].

Definition kernelPlan : list callLabel :=
  let image := KernelConfig.Image (Kernel m) in
  if negb (String.eqb image "")
  then [LExtract image "" (enforceContentTrust image (Trust m)) pull]
  else [].

(** The calls of a whole build, in order. *)
Definition plan : list callLabel :=
  (pullPlan
   ++ kernelPlan
   ++ map (fun ii => LExtract ii "" (enforceContentTrust ii (Trust m)) pull) (Init m)
   ++ flat_map (fun p => bundlePlan (onbootPath (fst p) (snd p)) (snd p))
        (indexedFrom 0 (Onboot m))
   ++ flat_map (fun image => bundlePlan (servicePath image) image) (Services m)
   ++ [LFiles m])%list.

(** What a call of a build passes for the trust and pull flags. *)
Definition flagsFollowPolicy (l : callLabel) : Prop :=
  match l with
  | LPull image trustedPull =>
      image = KernelConfig.Image (Kernel m)
      /\ trustedPull = enforceContentTrust image (Trust m)
  | LExtract image prefix trust pull' =>
      prefix = "" /\ trust = enforceContentTrust image (Trust m) /\ pull' = pull
  | LBundle _ image _ trust pull' =>
      trust = enforceContentTrust image (Trust m) /\ pull' = pull
  | LConfig _ => True
  | LFiles m' => m' = m
  end.

End Plan.

(** The trust flag of a call, if it has one. *)
Definition trustFlag (l : callLabel) : option bool :=
  match l with
  | LPull _ trust => Some trust
  | LExtract _ _ trust _ => Some trust
  | LBundle _ _ _ trust _ => Some trust
  | _ => None
  end.

(** The images of a list of calls that [dockerPull] is called on. *)
Definition pullLabels (P : list callLabel) : list string :=
  flat_map (fun l => match l with LPull image _ => [image] | _ => [] end) P.

(** [m.Trust = TrustConfig{}], what [build] does to the configuration
    under [-disable-content-trust]. *)
Definition disableTrust (m : Moby) : Moby :=
  mkMoby (Kernel m) (Init m) (Onboot m) (Services m) (TrustConfig.mk [] []) (Files m).

(** The number of calls of a build that returns. *)
Definition callCount (m : Moby) (pull : bool) : nat :=
  let image := KernelConfig.Image (Kernel m) in
  (if pull || enforceContentTrust image (Trust m) then 1 else 0)
  + (if String.eqb image "" then 0 else 1)
  + List.length (Init m)
  + 2 * List.length (Onboot m)
  + 2 * List.length (Services m)
  + 1.

(** A fragment that arrived and reads without error, to its end, as
    entries whose headers announce the sizes of their contents. *)
Definition goodFragment (decode : string -> tar.Stream) (r : result string) : Prop :=
  exists b es, r = Ok b /\ decode b = tar.streamOf es /\ Forall consistent es.

(* ================================================================= *)
(** ** The build command *)

(** [strings.TrimSuffix(s, suffix)]. *)
Definition TrimSuffix (s suffix : string) : string :=
  if HasSuffix s suffix then take (String.length s - String.length suffix) s else s.

(** The functions of [path/filepath] that [build] applies to the name of
    the configuration file, for the separator [/] (no volume names). *)
Module filepath.

Definition Separator : ascii := "/".

(** The loop of [Ext], [for i := len(path)-1; i >= 0 &&
    !os.IsPathSeparator(path[i]); i--], over the characters of the path
    from its last one: [rest] is what is left to visit and [suffix] is
    [path[i+1:]]. *)
Fixpoint extLoop (rest : list ascii) (suffix : string) : string :=
  match rest with
  | [] => ""
  | c :: rest' =>
      if Ascii.eqb c Separator then ""
      else if Ascii.eqb c "." then String c suffix
      else extLoop rest' (String c suffix)
  end.

Definition Ext (path : string) : string :=
  extLoop (rev (list_ascii_of_string path)) "".

(** [for len(path) > 0 && os.IsPathSeparator(path[len(path)-1])], on the
    characters from the last one. *)
Fixpoint stripSeparators (rest : list ascii) : list ascii :=
  match rest with
  | [] => []
  | c :: rest' => if Ascii.eqb c Separator then stripSeparators rest' else rest
  end.

(** [for i >= 0 && !os.IsPathSeparator(path[i]) { i-- }] and
    [path = path[i+1:]]: the last element. *)
Fixpoint lastElement (rest : list ascii) (suffix : string) : string :=
  match rest with
  | [] => suffix
  | c :: rest' =>
      if Ascii.eqb c Separator then suffix else lastElement rest' (String c suffix)
  end.

Definition Base (path : string) : string :=
  if String.eqb path "" then "."
  else
    let path := lastElement (stripSeparators (rev (list_ascii_of_string path))) "" in
    if String.eqb path "" then String Separator "" else path.

End filepath.

Definition defaultNameForStdin : string := "moby".

(** The flags and arguments of the command as [buildCmd.Parse] leaves
    them. *)
Record BuildFlags : Type := mkBuildFlags {
  buildName : string;
  buildDir : string;
  buildSize : string;
  buildPull : bool;
  buildDisableTrust : bool;
  buildHyperkit : bool;
  buildOut : outputList;
  remArgs : list string
}.

(** The flags before any argument is read: the defaults that [build]
    declares. *)
Definition defaultFlags (args : list string) : BuildFlags :=
  mkBuildFlags "" "" "1024M" false false false [] args.

(** What [build] does outside of build.go, with the answer it got. *)
Inductive action : Type :=
| Println (line : string)
| Errorf (msg : string)
| Usage
| ValidateOutputs (outs : outputList) (answer : option error)
| ReadStdin (answer : result string)
| ReadFile (path : string) (answer : result string)
| NewConfigOf (config : string) (answer : result Moby)
| Docker (ev : event)
| Outputs (base : string) (image : Buffer) (outs : outputList) (size : Z)
    (hyperkit : bool) (answer : option error).

(** The answers of the world around the command. *)
Record World : Type := mkWorld {
  validateOutputs : outputList -> option error;
  stdin : result string;
  readFile : string -> result string;
  NewConfig : string -> result Moby;
  outputs : string -> Buffer -> outputList -> Z -> bool -> option error;
  docker : handler
}.

(** How the command ends: it returns, or [os.Exit(code)], or [log.Fatalf]
    with a message, the error of the size kept as the value it is. *)
Inductive status : Type :=
| Finished
| Exit (code : Z)
| LogFatal (msg : string)
| LogFatalSize (msg : string) (err : strconv.NumError).

(** Actions so far, and a value or the end of the process. *)
Definition Cmd (A : Type) : Type := (list action * (A + status))%type.

Definition cmdRet {A : Type} (a : A) : Cmd A := ([], inl a).
Definition cmdStop {A : Type} (s : status) : Cmd A := ([], inr s).
Definition cmdDo {A : Type} (a : action) (x : A) : Cmd A := ([a], inl x).

Definition cmdBind {A B : Type} (m : Cmd A) (f : A -> Cmd B) : Cmd B :=
  match m with
  | (t, inl a) => let (t', r) := f a in ((t ++ t')%list, r)
  | (t, inr s) => (t, inr s)
  end.

Notation "x <~ m ;; k" := (cmdBind m (fun x => k))
  (at level 61, m at next level, right associativity).

(** [if len(buildOut) == 0 { buildOut = outputList{"kernel+initrd"} }] *)
Definition selectedOutputs (buildOut : outputList) : outputList :=
  match buildOut with
  | [] => ["kernel+initrd"]
  | _ => buildOut
  end.

Section Command.

Variable decode : string -> tar.Stream.
(** [filepath.Join], which cleans the path it makes. *)
Variable filepath_Join : string -> string -> string.
Variable w : World.

(** [image := buildInternal(m, *buildPull)] inside the command. *)
Definition runBuildInternal (m : Moby) (pull : bool) : Cmd Buffer :=
  let (t, o) := run (docker w) (buildInternal decode m pull) in
  (map Docker t,
   match o with
   | Returns image => inl image
   | Fatal msg => inr (LogFatal msg)
   end).

(** The file that is read for the argument [conf]. *)
Definition configFile (conf : string) : string :=
  if negb (String.eqb (filepath.Ext conf) ".yml" || String.eqb (filepath.Ext conf) ".yaml")
  then conf ++ ".yml"
  else conf.

(** The name of the outputs when [-name] is not given and the
    configuration is read from the file [conf]. *)
Definition defaultName (conf : string) : string :=
  TrimSuffix (filepath.Base conf) (filepath.Ext conf).

(** The block [if conf := remArgs[0]; conf == "-" { ... } else { ... }]:
    the bytes of the configuration and the name of the outputs. *)
Definition readConfig (name conf : string) : Cmd (string * string) :=
  if String.eqb conf "-" then
    config <~ cmdDo (ReadStdin (stdin w)) (stdin w) ;;
    match config with
    | Err err => cmdStop (LogFatal ("Cannot read stdin: " ++ err))
    | Ok config =>
        cmdRet (config, if String.eqb name "" then defaultNameForStdin else name)
    end
  else
    let conf := configFile conf in
    config <~ cmdDo (ReadFile conf (readFile w conf)) (readFile w conf) ;;
    match config with
    | Err err => cmdStop (LogFatal ("Cannot open config file: " ++ err))
    | Ok config =>
        cmdRet (config, if String.eqb name "" then defaultName conf else name)
    end.

(** The command from [m, err := NewConfig(config)] on. *)
Definition buildConfig (f : BuildFlags) (buildOut : outputList) (size : Z)
    (config name : string) : Cmd unit :=
  m <~ cmdDo (NewConfigOf config (NewConfig w config)) (NewConfig w config) ;;
  match m with
  | Err err => cmdStop (LogFatal ("Invalid config: " ++ err))
  | Ok m =>
      let m := if buildDisableTrust f then disableTrust m else m in
      image <~ runBuildInternal m (buildPull f) ;;
      let base := filepath_Join (buildDir f) name in
      err <~ cmdDo (Outputs base image buildOut size (buildHyperkit f)
                      (outputs w base image buildOut size (buildHyperkit f)))
               (outputs w base image buildOut size (buildHyperkit f)) ;;
      match err with
      | Some err => cmdStop (LogFatal ("Error writing outputs: " ++ err))
      | None => cmdRet tt
      end
  end.

Definition buildCmd (f : BuildFlags) : Cmd unit :=
  match remArgs f with
  | [] =>
      _ <~ cmdDo (Println "Please specify a configuration file") tt ;;
      _ <~ cmdDo Usage tt ;;
      cmdStop (Exit 1)
  | conf :: _ =>
      let buildOut := selectedOutputs (buildOut f) in
      err <~ cmdDo (ValidateOutputs buildOut (validateOutputs w buildOut))
               (validateOutputs w buildOut) ;;
      match err with
      | Some err =>
          _ <~ cmdDo (Errorf ("Error parsing outputs: " ++ err)) tt ;;
          _ <~ cmdDo Usage tt ;;
          cmdStop (Exit 1)
      | None =>
          match getDiskSizeMB (buildSize f) with
          | (_, Some err) => cmdStop (LogFatalSize "Unable to parse disk size: " err)
          | (size, None) =>
              cn <~ readConfig (buildName f) conf ;;
              buildConfig f buildOut size (fst cn) (snd cn)
          end
      end
  end.

(** The command: what it did and how it ended. *)
Definition build (f : BuildFlags) : list action * status :=
  (fst (buildCmd f),
   match snd (buildCmd f) with
   | inl _ => Finished
   | inr s => s
   end).

(** The answer to the read of the configuration [conf], and the read
    as an action. *)
Definition readAnswer (conf : string) : result string :=
  if String.eqb conf "-" then stdin w else readFile w (configFile conf).

Definition readAction (conf : string) : action :=
  if String.eqb conf "-" then ReadStdin (stdin w)
  else ReadFile (configFile conf) (readFile w (configFile conf)).

(** The name of the outputs of the configuration [conf]. *)
Definition outputName (f : BuildFlags) (conf : string) : string :=
  if String.eqb (buildName f) "" then
    if String.eqb conf "-" then defaultNameForStdin else defaultName (configFile conf)
  else buildName f.

(** The configuration that is built. *)
Definition configured (f : BuildFlags) (m : Moby) : Moby :=
  if buildDisableTrust f then disableTrust m else m.

(** Every step of the command goes well: there is an argument [conf],
    the outputs are valid, the size is [size], the configuration reads as
    [config] and parses as [m], the build returns [image] and the outputs
    are written. *)
Definition goesWell (f : BuildFlags) (conf : string) (size : Z) (config : string)
    (m : Moby) (image : Buffer) : Prop :=
  hd_error (remArgs f) = Some conf /\
  validateOutputs w (selectedOutputs (buildOut f)) = None /\
  getDiskSizeMB (buildSize f) = (size, None) /\
  readAnswer conf = Ok config /\
  NewConfig w config = Ok m /\
  outcomeOf (docker w) (buildInternal decode (configured f m) (buildPull f))
  = Returns image /\
  outputs w (filepath_Join (buildDir f) (outputName f conf)) image
    (selectedOutputs (buildOut f)) size (buildHyperkit f) = None.

(** The actions of a command that goes well. *)
Definition actionsWhenWell (f : BuildFlags) (conf : string) (size : Z) (config : string)
    (m : Moby) (image : Buffer) : list action :=
  ([ ValidateOutputs (selectedOutputs (buildOut f)) None;
     readAction conf;
     NewConfigOf config (Ok m) ]
   ++ map Docker (trace (docker w) (buildInternal decode (configured f m) (buildPull f)))
   ++ [ Outputs (filepath_Join (buildDir f) (outputName f conf)) image
          (selectedOutputs (buildOut f)) size (buildHyperkit f) None ])%list.

End Command.

(** The actions that read the configuration, build, or write outputs. *)
Definition works (a : action) : bool :=
  match a with
  | ReadStdin _ | ReadFile _ _ | NewConfigOf _ _ | Docker _ | Outputs _ _ _ _ _ _ => true
  | _ => false
  end.

(** The calls of [buildInternal] among the actions. *)
Definition dockerEvents (t : list action) : list event :=
  flat_map (fun a => match a with Docker ev => [ev] | _ => [] end) t.

(** A world for evaluation: the file linuxkit.yml holds the
    configuration [Demo.spec], and every call is answered well. *)
Definition demoWorld : World :=
  mkWorld (fun _ => None)
          (Ok "<yaml>")
          (fun path => if String.eqb path "linuxkit.yml" then Ok "<yaml>"
                       else Err "no such file")
          (fun config => if String.eqb config "<yaml>" then Ok Demo.spec
                         else Err "cannot unmarshal")
          (fun _ _ _ _ _ => None)
          Demo.answers.

(** A join for evaluation, for clean directories and names. *)
Definition demoJoin (dir name : string) : string :=
  if String.eqb dir "" then name else dir ++ "/" ++ name.

(** A decoder for evaluation: the bytes name an entry whose header
    announces five bytes and whose content is cut short after one. *)
Definition cutDecode (b : string) : tar.Stream :=
  tar.Next (tar.mkHeader b 420 5 tar.TypeReg) "X" (Some "unexpected EOF") tar.EOF.

(* ================================================================= *)
(** ** The bundles of a build *)

(** The index of a position, padded with zeros to three digits: the
    three digits of a position below 1000, and from 1000 on the decimal
    digits of the position, which are more than three. *)
Definition paddedIndex (i : nat) : string :=
  if (i <? 1000)%nat
  then String (digit (i / 100)) (String (digit (i / 10 mod 10)) (String (digit (i mod 10)) ""))
  else NilZero.string_of_uint (Nat.to_uint i).

(** The path and the image of the [ImageBundle] calls of a trace. *)
Definition bundleCall (ev : event) : list (string * string) :=
  match ev with
  | Event c _ =>
      match c with
      | ImageBundle path image _ _ _ => [(path, image)]
      | _ => []
      end
  end.

Definition bundleCalls (t : list event) : list (string * string) :=
  flat_map bundleCall t.

Definition labelBundles (P : list callLabel) : list (string * string) :=
  flat_map (fun l => match l with
                     | LBundle path image _ _ _ => [(path, image)]
                     | _ => []
                     end) P.

(** The bundles of a configuration, path and image: the onboot entries
    by position, then the services. *)
Definition specBundles (m : Moby) : list (string * string) :=
  (map (fun p => (("containers/onboot/" ++ paddedIndex (fst p) ++ "-"
                     ++ MobyImage.Name (snd p))%string, MobyImage.Image (snd p)))
       (indexedFrom 0 (Onboot m))
   ++ map (fun image => (("containers/services/" ++ MobyImage.Name image)%string,
                         MobyImage.Image image))
          (Services m))%list.

(** A configuration with 1001 onboot containers and nothing else. *)
Definition manyOnboot : Moby :=
  mkMoby (KernelConfig.mk "" "") [] (repeat (MobyImage.mk "x" "img") 1001) []
         (TrustConfig.mk [] []) [].

(** Other files that answer every call, but give for the bundle of the
    image [bad] bytes that are no tar stream. *)
Definition brokenBundle (bad : string) : handler :=
  fun X c =>
    match c in call X return X with
    | ImageBundle path image config trust pull =>
        if String.eqb image bad then Ok "<broken>"
        else Demo.answers _ (ImageBundle path image config trust pull)
    | dockerPull image trustedPull => Demo.answers _ (dockerPull image trustedPull)
    | ImageExtract image prefix trust pull =>
        Demo.answers _ (ImageExtract image prefix trust pull)
    | ConfigToOCI image => Demo.answers _ (ConfigToOCI image)
    | filesystem m => Demo.answers _ (filesystem m)
    end.
(* ================================================================= *)
(** ** Facts about [Index] and [Split] *)

Section SplitFacts.

Lemma genSplit_nonempty (n : nat) (s sep : string) :
  (1 <= List.length (genSplit n s sep))%nat.
Proof.
  destruct n as [|n]; simpl; [lia|].
  destruct (Index s sep); simpl; lia.
Qed.

Lemma Split_nonempty (s sep : string) : (1 <= List.length (Split s sep))%nat.
Proof. apply genSplit_nonempty. Qed.

Lemma prefix_empty (s : string) : prefix "" s = true.
Proof. destruct s; reflexivity. Qed.

Lemma take_app (pre rest : string) : take (String.length pre) (pre ++ rest) = pre.
Proof.
  unfold take. induction pre as [|c pre IH]; simpl.
  - destruct rest; reflexivity.
  - now rewrite IH.
Qed.

(** The first occurrence of a character: what precedes it has none. *)
Lemma Index_char_Some (c : ascii) (s : string) (m : nat) :
  Index s (String c "") = Some m ->
  s = take m s ++ String c (drop (m + 1) s) /\ occurs c (take m s) = false.
Proof.
  revert m. induction s as [|d s IH]; intros m; simpl.
  - discriminate.
  - destruct (ascii_dec c d) as [->|Hne].
    + rewrite prefix_empty. intros [= <-]. simpl. split; reflexivity.
    + destruct (Index s (String c "")) as [k|] eqn:Hk; simpl; [|discriminate].
      intros [= <-]. destruct (IH k eq_refl) as [Hs Hocc].
      unfold take in *. simpl. split.
      * f_equal. exact Hs.
      * rewrite Hocc. rewrite orb_false_r. now apply Ascii.eqb_neq.
Qed.

Lemma Index_char_app (c : ascii) (pre rest : string) :
  occurs c pre = false ->
  Index (pre ++ String c rest) (String c "") = Some (String.length pre).
Proof.
  induction pre as [|d pre IH]; simpl; intros Hocc.
  - destruct (ascii_dec c c) as [_|Hne]; [|congruence].
    now rewrite prefix_empty.
  - apply orb_false_elim in Hocc as [Hcd Hpre].
    apply Ascii.eqb_neq in Hcd.
    destruct (ascii_dec c d) as [Heq|_]; [congruence|].
    rewrite (IH Hpre). reflexivity.
Qed.

End SplitFacts.

(* ================================================================= *)
(** ** The name match after removing a tag *)

Lemma matchesWithoutTag_spec (img full : string) :
  matchesWithoutTag img full = true <->
  exists rest, full = img ++ ":" ++ rest /\ occurs ":" img = false.
Proof.
  unfold matchesWithoutTag, Split. split.
  - intros H. apply andb_true_iff in H as [Hlen Heq].
    apply Nat.leb_le in Hlen. apply String.eqb_eq in Heq.
    destruct (String.length full) as [|n]; [exfalso; simpl in Hlen; lia|].
    cbn [genSplit] in *.
    destruct (Index full ":") as [m|] eqn:Hm; [|exfalso; simpl in Hlen; lia].
    simpl in Heq. subst img.
    destruct (Index_char_Some _ _ _ Hm) as [Hs Hocc].
    exists (drop (m + 1) full). split; [exact Hs | exact Hocc].
  - intros (rest & -> & Hocc).
    assert (Hlen : exists n, String.length (img ++ ":" ++ rest) = S n).
    { clear. induction img as [|c img [n IH]]; simpl; eauto. }
    destruct Hlen as [n ->]. cbn [genSplit].
    change (img ++ ":" ++ rest) with (img ++ String ":" rest).
    rewrite (Index_char_app _ _ _ Hocc), take_app. simpl hd.
    rewrite String.eqb_refl, andb_true_r. apply Nat.leb_le.
    simpl. pose proof (genSplit_nonempty n
      (drop (String.length img + 1) (img ++ String ":" rest)) ":"). lia.
Qed.

Lemma imageLoop_tag (imgs : list string) (full : string) :
  tagStep imgs full = true -> imageLoop imgs full = true.
Proof.
  unfold tagStep. induction imgs as [|img rest IH]; simpl; [discriminate|].
  intros H. destruct (String.eqb img full); [reflexivity|].
  destruct (matchesWithoutTag img full); [reflexivity|].
  destruct (matchesWithoutDigest img full); [reflexivity|].
  apply IH. exact H.
Qed.

(** C2, as the code has it: the step splits on the FIRST ':' of the
    reference.  It succeeds exactly when the reference contains a ':' and
    some pattern equals the text before the first ':' (a ':' of a
    registry port or inside a digest is a separator like any other); and
    when it succeeds the evaluator returns true. *)
Theorem tag_step_first_colon (fullImageName : string) (config : TrustConfig.t) :
  (tagStep (TrustConfig.Image config) fullImageName = true <->
   exists img rest, In img (TrustConfig.Image config) /\
     fullImageName = img ++ ":" ++ rest /\ occurs ":" img = false) /\
  (tagStep (TrustConfig.Image config) fullImageName = true ->
   enforceContentTrust fullImageName config = true).
Proof.
  split.
  - unfold tagStep. rewrite existsb_exists. split.
    + intros (img & Hin & Hm). apply matchesWithoutTag_spec in Hm as (rest & Hf & Ho).
      exists img, rest. auto.
    + intros (img & rest & Hin & Hf & Ho). exists img. split; [exact Hin|].
      apply matchesWithoutTag_spec. eauto.
  - intros H. unfold enforceContentTrust. now rewrite (imageLoop_tag _ _ H).
Qed.

Lemma tag_step_first_colon_witness :
  tagStep (TrustConfig.Image (TrustConfig.mk ["library/nginx"] [])) "library/nginx:1.19" = true /\
  enforceContentTrust "library/nginx:1.19" (TrustConfig.mk ["library/nginx"] []) = true.
Proof.
  split; [reflexivity|].
  apply (proj2 (tag_step_first_colon "library/nginx:1.19" (TrustConfig.mk ["library/nginx"] []))).
  reflexivity.
Defined.

(** C2 as stated fails: with a registry port in the reference the claim
    strips the tag [":1.19"] and matches the pattern, while the code
    compares the pattern with ["localhost"] and matches nothing; and a
    reference with a digest and no tag has no tag to strip, while the code
    cuts at the ':' of the digest and matches the pattern
    ["alpine@sha256"]. *)
Lemma tag_step_last_colon_counterexample :
  specStripTag "localhost:5000/nginx:1.19" = Some "localhost:5000/nginx" /\
  specTagStep ["localhost:5000/nginx"] "localhost:5000/nginx:1.19" = true /\
  tagStep ["localhost:5000/nginx"] "localhost:5000/nginx:1.19" = false /\
  hd "" (Split "localhost:5000/nginx:1.19" ":") = "localhost" /\
  enforceContentTrust "localhost:5000/nginx:1.19"
    (TrustConfig.mk ["localhost:5000/nginx"] []) = false /\
  specStripTag "alpine@sha256:abcd" = None /\
  tagStep ["alpine@sha256"] "alpine@sha256:abcd" = true /\
  ~ (forall imgs full, tagStep imgs full = specTagStep imgs full).
Proof.
  repeat split; try reflexivity.
  intros H. specialize (H ["localhost:5000/nginx"] "localhost:5000/nginx:1.19").
  vm_compute in H. discriminate.
Qed.

(* ================================================================= *)
(** ** The organization match *)

Section OrgFacts.

Variable c : ascii.
Let sep := String c "".

Lemma Index_char_length (s : string) (m : nat) :
  Index s sep = Some m -> (m < String.length s)%nat.
Proof.
  revert m. induction s as [|d s IH]; intros m; simpl; [discriminate|].
  destruct (ascii_dec c d) as [_|_].
  - rewrite prefix_empty. intros [= <-]. lia.
  - destruct (Index s sep) as [k|]; simpl; [|discriminate].
    intros [= <-]. specialize (IH k eq_refl). lia.
Qed.

Lemma drop_length (n : nat) (s : string) :
  String.length (drop n s) = (String.length s - n)%nat.
Proof.
  revert s. induction n as [|n IH]; intros [|d s]; simpl; auto.
Qed.

(** More fuel than the length of the string changes nothing. *)
Lemma genSplit_fuel (n1 n2 : nat) (s : string) :
  (String.length s <= n1)%nat -> (String.length s <= n2)%nat ->
  genSplit n1 s sep = genSplit n2 s sep.
Proof.
  revert n2 s. induction n1 as [|n1 IH]; intros n2 s H1 H2.
  - destruct s; [|simpl in H1; lia].
    destruct n2; reflexivity.
  - destruct n2 as [|n2].
    + destruct s; [|simpl in H2; lia]. reflexivity.
    + cbn [genSplit]. destruct (Index s sep) as [m|] eqn:Hm; [|reflexivity].
      f_equal. pose proof (Index_char_length _ _ Hm).
      apply IH; rewrite drop_length; simpl; lia.
Qed.

Lemma drop_app (pre rest : string) : drop (String.length pre) (pre ++ rest) = rest.
Proof. induction pre; simpl; auto. Qed.

Lemma Index_char_None (s : string) :
  occurs c s = false -> Index s sep = None.
Proof.
  induction s as [|d s IH]; simpl; [reflexivity|].
  intros H. apply orb_false_elim in H as [Hcd Hs].
  apply Ascii.eqb_neq in Hcd.
  destruct (ascii_dec c d); [congruence|]. now rewrite IH.
Qed.

(** A reference without the separator is one segment. *)
Lemma Split_one (s : string) : occurs c s = false -> Split s sep = [s].
Proof.
  intros H. unfold Split. destruct (String.length s); simpl; [reflexivity|].
  now rewrite Index_char_None.
Qed.

(** The text before the first separator is the first segment. *)
Lemma Split_cons (pre rest : string) :
  occurs c pre = false ->
  Split (pre ++ String c rest) sep = pre :: Split rest sep.
Proof.
  intros H. unfold Split.
  assert (Hlen : String.length (pre ++ String c rest)
                 = S (String.length pre + String.length rest)).
  { clear. induction pre; simpl; [reflexivity|]. now rewrite IHpre. }
  rewrite Hlen. cbn [genSplit]. unfold sep.
  rewrite (Index_char_app _ _ _ H), take_app. f_equal.
  replace (String.length pre + String.length (String c ""))%nat
    with (String.length (pre ++ String c "")).
  2:{ clear. induction pre; simpl; [reflexivity|]. now rewrite IHpre. }
  replace (pre ++ String c rest) with ((pre ++ String c "") ++ rest).
  2:{ clear. induction pre; simpl; [reflexivity|]. now rewrite IHpre. }
  rewrite drop_app. apply genSplit_fuel; lia.
Qed.

End OrgFacts.

Lemma orgLoop_spec (orgs : list string) (full : string) :
  orgLoop orgs full = true <->
  exists imgOrg, imgOrgOf (Split full "/") = Some imgOrg /\ In imgOrg orgs.
Proof.
  induction orgs as [|org rest IH]; simpl.
  - split; [discriminate | intros (? & _ & [])].
  - destruct (imgOrgOf (Split full "/")) as [imgOrg|] eqn:Ho.
    + destruct (String.eqb imgOrg org) eqn:He.
      * apply String.eqb_eq in He. subst. split; eauto.
      * apply String.eqb_neq in He. rewrite IH. split.
        -- intros (o & [= <-] & Hin). eauto.
        -- intros (o & [= <-] & [Heq|Hin]); [congruence | eauto].
    + split; [discriminate | intros (? & [=] & _)].
Qed.

(** C3: the organization derived from a reference.  No segment: no
    organization and the organization test is false; one segment (a bare
    name): "library"; two segments: the first; three or more: the second.
    The segments are those of [strings.Split] on "/".  The organization
    test is true exactly when the derived organization is in the list. *)
Theorem org_derivation (fullImageName : string) (orgs : list string) :
  (imgOrgOf [] = None /\
   (Split fullImageName "/" = [] -> orgLoop orgs fullImageName = false)) /\
  (forall a, imgOrgOf [a] = Some "library") /\
  (forall a b, imgOrgOf [a; b] = Some a) /\
  (forall a b c rest, imgOrgOf (a :: b :: c :: rest) = Some b) /\
  (forall name, occurs "/" name = false ->
     imgOrgOf (Split name "/") = Some "library") /\
  (forall org repo, occurs "/" org = false -> occurs "/" repo = false ->
     imgOrgOf (Split (org ++ "/" ++ repo) "/") = Some org) /\
  (forall registry org rest, occurs "/" registry = false -> occurs "/" org = false ->
     imgOrgOf (Split (registry ++ "/" ++ org ++ "/" ++ rest) "/") = Some org) /\
  (orgLoop orgs fullImageName = true <->
   exists imgOrg, imgOrgOf (Split fullImageName "/") = Some imgOrg /\ In imgOrg orgs).
Proof.
  repeat apply conj; try reflexivity.
  - intros H. destruct orgs; simpl; [reflexivity|]. now rewrite H.
  - intros name H. now rewrite Split_one.
  - intros org repo Ho Hr.
    change (org ++ "/" ++ repo) with (org ++ String "/" repo).
    rewrite Split_cons, Split_one by assumption. reflexivity.
  - intros registry org rest Hg Ho.
    change (registry ++ "/" ++ org ++ "/" ++ rest)
      with (registry ++ String "/" (org ++ String "/" rest)).
    rewrite !Split_cons by assumption.
    pose proof (Split_nonempty rest "/") as Hn.
    destruct (Split rest "/"); [simpl in Hn; lia | reflexivity].
  - apply orgLoop_spec.
  - apply orgLoop_spec.
Qed.

Lemma org_derivation_witness :
  imgOrgOf (Split "nginx" "/") = Some "library" /\
  imgOrgOf (Split "linuxkit/kernel:4.19.x" "/") = Some "linuxkit" /\
  imgOrgOf (Split "docker.io/library/alpine" "/") = Some "library" /\
  orgLoop ["linuxkit"] "linuxkit/kernel:4.19.x" = true.
Proof.
  pose proof (org_derivation "linuxkit/kernel:4.19.x" ["linuxkit"])
    as (_ & _ & _ & _ & H1 & H2 & H3 & H4).
  repeat apply conj.
  - apply (H1 "nginx"). reflexivity.
  - apply (H2 "linuxkit" "kernel:4.19.x"); reflexivity.
  - apply (H3 "docker.io" "library" "alpine"); reflexivity.
  - apply H4. exists "linuxkit". split; [reflexivity | left; reflexivity].
Defined.

(** C10: splitting on "/" never yields zero segments, so the case
    [len(splitName) == 0] is never taken; the empty reference is one
    empty segment, its organization is "library", and a policy that lists
    "library" makes the evaluator return true on it. *)
Theorem empty_reference_is_library (config : TrustConfig.t) :
  In "library" (TrustConfig.Org config) ->
  enforceContentTrust "" config = true /\
  Split "" "/" = [""] /\
  imgOrgOf (Split "" "/") = Some "library" /\
  (forall s, (1 <= List.length (Split s "/"))%nat /\ imgOrgOf (Split s "/") <> None).
Proof.
  intros Hin. repeat apply conj; try reflexivity.
  - unfold enforceContentTrust. destruct (imageLoop (TrustConfig.Image config) ""); [reflexivity|].
    apply orgLoop_spec. exists "library". split; [reflexivity | exact Hin].
  - intros s. pose proof (Split_nonempty s "/") as Hn. split; [exact Hn|].
    unfold imgOrgOf.
    destruct (Split s "/") as [|a [|b [|c l]]]; simpl in *; [lia | | |]; discriminate.
Qed.

Lemma empty_reference_is_library_witness :
  In "library" (TrustConfig.Org (TrustConfig.mk [] ["linuxkit"; "library"])) /\
  enforceContentTrust "" (TrustConfig.mk [] ["linuxkit"; "library"]) = true.
Proof.
  assert (H : In "library" (TrustConfig.Org (TrustConfig.mk [] ["linuxkit"; "library"])))
    by (simpl; auto).
  split; [exact H|].
  apply (empty_reference_is_library (TrustConfig.mk [] ["linuxkit"; "library"]) H).
Defined.

(* ================================================================= *)
(** ** Running programs *)

Section RunFacts.

Variable h : handler.

Lemma run_bindProg {A B : Type} (p : prog A) (f : A -> prog B) :
  run h (bindProg p f) =
  (fst (run h p) ++ fst (run h (f (snd (run h p)))),
   snd (run h (f (snd (run h p)))))%list.
Proof.
  induction p as [a|X c k IH]; simpl.
  - now destruct (run h (f a)).
  - rewrite IH. destruct (run h (k (h X c))) as [t a]. simpl.
    now destruct (run h (f a)).
Qed.

(** A part that returns is followed by the rest. *)
Lemma run_bind_returns {A B : Type} (m : M A) (f : A -> M B) (t : list event) (a : A) :
  run h m = (t, Returns a) ->
  run h (bind m f) = ((t ++ fst (run h (f a)))%list, snd (run h (f a))).
Proof.
  intros H. unfold bind. rewrite run_bindProg, H. reflexivity.
Qed.

(** A part that ends the process ends the whole. *)
Lemma run_bind_fatal {A B : Type} (m : M A) (f : A -> M B) (t : list event) (msg : string) :
  run h m = (t, Fatal msg) ->
  run h (bind m f) = (t, Fatal msg).
Proof.
  intros H. unfold bind. rewrite run_bindProg, H. simpl. now rewrite app_nil_r.
Qed.

Lemma run_bind_inv {A B : Type} (m : M A) (f : A -> M B) (t : list event) (b : B) :
  run h (bind m f) = (t, Returns b) ->
  exists t1 a t2, run h m = (t1, Returns a) /\ run h (f a) = (t2, Returns b)
                  /\ t = (t1 ++ t2)%list.
Proof.
  destruct (run h m) as [t1 [a|msg]] eqn:Hm.
  - rewrite (run_bind_returns m f t1 a Hm). intros [= <- Hb].
    exists t1, a, (fst (run h (f a))). repeat split.
    destruct (run h (f a)); simpl in *; congruence.
  - rewrite (run_bind_fatal m f t1 msg Hm). discriminate.
Qed.

End RunFacts.

(* ================================================================= *)
(** ** The archive writer *)

Section WriterFacts.

Lemma appendContent_last (es : list tar.Entry) (hdr : tar.Header) (c b : string) :
  tar.appendContent (es ++ [(hdr, c)])%list b = (es ++ [(hdr, (c ++ b)%string)])%list.
Proof.
  unfold tar.appendContent. rewrite rev_app_distr. simpl. now rewrite rev_involutive.
Qed.

(** A header and its content, written without error, are one more entry. *)
Lemma write_entry (tw tw1 tw2 : tar.Writer) (hdr : tar.Header) (content : string)
    (readErr : option error) :
  tar.WriteHeader tw hdr = Ok tw1 ->
  tar.Copy tw1 content readErr = Ok tw2 ->
  tar.entries tw2 = (tar.entries tw ++ [(hdr, content)])%list /\ readErr = None.
Proof.
  unfold tar.WriteHeader, tar.Copy, tar.Write.
  destruct (0 <? tar.nb tw)%Z; [discriminate|]. intros [= <-]. simpl.
  destruct (String.eqb content "") eqn:He.
  - apply String.eqb_eq in He. subst content.
    destruct readErr; [discriminate|]. intros [= <-]. auto.
  - destruct (tar.Size hdr <? Z.of_nat (String.length content))%Z; [discriminate|].
    destruct readErr; [discriminate|]. intros [= <-]. simpl.
    now rewrite appendContent_last.
Qed.

(** A consistent entry can be written whenever the previous entry is
    complete, and leaves a complete entry. *)
Lemma write_consistent (tw : tar.Writer) (hdr : tar.Header) (content : string) :
  (tar.nb tw <= 0)%Z ->
  consistent (hdr, content) ->
  exists tw1 tw2,
    tar.WriteHeader tw hdr = Ok tw1 /\ tar.Copy tw1 content None = Ok tw2 /\
    tar.entries tw2 = (tar.entries tw ++ [(hdr, content)])%list /\ tar.nb tw2 = 0%Z.
Proof.
  unfold consistent. simpl. intros Hnb Hc.
  unfold tar.WriteHeader, tar.Copy, tar.Write.
  destruct (0 <? tar.nb tw)%Z eqn:H0; [apply Z.ltb_lt in H0; lia|].
  destruct (String.eqb content "") eqn:He.
  - apply String.eqb_eq in He. subst content. simpl in Hc.
    eexists; eexists. split; [reflexivity|]. simpl.
    split; [reflexivity|]. simpl. auto.
  - eexists; eexists. split; [reflexivity|]. simpl.
    rewrite Hc, Z.ltb_irrefl. split; [reflexivity|]. simpl.
    rewrite appendContent_last. split; [reflexivity | lia].
Qed.

End WriterFacts.

(* ================================================================= *)
(** ** The kernel splitter *)

Section KernelFacts.

Variable decode : string -> tar.Stream.

Lemma copy_nothing (tw : tar.Writer) : tar.Copy tw "" None = Ok tw.
Proof. reflexivity. Qed.

(** The boot tarball, when it is made, is the three entries. *)
Lemma bootTarball_inv (hdr : tar.Header) (content : string) (readErr : option error)
    (cmdline : string) (kernel : Buffer) :
  bootTarball hdr content readErr cmdline = Ok kernel ->
  kernel = Archive (bootEntries hdr content cmdline) /\ readErr = None.
Proof.
  unfold bootTarball.
  destruct (tar.WriteHeader tar.NewWriter _) as [tw1|] eqn:H1; [|discriminate].
  destruct (tar.WriteHeader tw1 _) as [tw2|] eqn:H2; [|discriminate].
  destruct (tar.Copy tw2 content readErr) as [tw3|] eqn:H3; [|discriminate].
  destruct (tar.WriteHeader tw3 _) as [tw4|] eqn:H4; [|discriminate].
  destruct (tar.Copy tw4 cmdline None) as [tw5|] eqn:H5; [|discriminate].
  destruct (tar.Close tw5) as [es|] eqn:H6; [|discriminate].
  intros [= <-].
  destruct (write_entry _ _ _ _ _ _ H1 (copy_nothing tw1)) as [E1 _].
  destruct (write_entry _ _ _ _ _ _ H2 H3) as [E3 Hr].
  destruct (write_entry _ _ _ _ _ _ H4 H5) as [E5 _].
  unfold tar.Close in H6. destruct (0 <? tar.nb tw5)%Z; [discriminate|].
  injection H6 as <-. rewrite E5, E3, E1. simpl. auto.
Qed.

(** A kernel entry whose header announces its content is accepted. *)
Lemma bootTarball_ok (hdr : tar.Header) (content cmdline : string) :
  consistent (hdr, content) ->
  bootTarball hdr content None cmdline = Ok (Archive (bootEntries hdr content cmdline)).
Proof.
  intros Hc. unfold bootTarball.
  destruct (write_consistent tar.NewWriter (tar.mkHeader "boot" 448 0 tar.TypeDir) "")
    as (tw1 & tw1' & H1 & H1' & E1 & N1); [simpl; lia | reflexivity |].
  rewrite H1. rewrite copy_nothing in H1'. injection H1' as <-.
  destruct (write_consistent tw1
              (tar.mkHeader "boot/kernel" (tar.Mode hdr) (tar.Size hdr) tar.TypeRegA) content)
    as (tw2 & tw3 & H2 & H3 & E3 & N3); [lia | exact Hc |].
  rewrite H2, H3.
  destruct (write_consistent tw3
              (tar.mkHeader "boot/cmdline" 448 (Z.of_nat (String.length cmdline)) tar.TypeRegA)
              cmdline)
    as (tw4 & tw5 & H4 & H5 & E5 & N5); [lia | reflexivity |].
  rewrite H4, H5. unfold tar.Close. rewrite N5. simpl.
  rewrite E5, E3, E1. reflexivity.
Qed.

End KernelFacts.

Section SplitterFacts.

Variable decode : string -> tar.Stream.
Variables kn kan ktn cmdline : string.

Local Notation "'loop'" := (untarLoop kn kan ktn cmdline).
Local Notation "'isK'" := (isKernelEntry kn kan).
Local Notation "'isT'" := (isKtarEntry ktn).
Local Notation "'ktarAfter'" := (ktarAfterEntries ktn).

(** Entries that are no kernel only set [ktar]. *)
Lemma loop_skip (es : list tar.Entry) (rest : tar.Stream)
    (kernel ktar : option Buffer) (found : bool) :
  existsb isK es = false ->
  loop (prepend es rest) kernel ktar found = loop rest kernel (ktarAfter es ktar) found.
Proof.
  revert ktar. induction es as [|[hdr content] es IH]; intros ktar; simpl; [reflexivity|].
  intros H. apply orb_false_elim in H as [Hk Hes].
  unfold isKernelEntry in Hk. simpl in Hk. rewrite Hk.
  unfold isKtarEntry. simpl. destruct (String.eqb (tar.Name hdr) ktn); now apply IH.
Qed.




(** The first element that satisfies a test, if any. *)
Lemma first_split {A : Type} (p : A -> bool) (l : list A) :
  existsb p l = false \/
  exists l1 x l2, l = (l1 ++ x :: l2)%list /\ existsb p l1 = false /\ p x = true.
Proof.
  induction l as [|a l IH]; simpl; [now left|].
  destruct (p a) eqn:Ha.
  - right. exists [], a, l. auto.
  - destruct IH as [IH|(l1 & x & l2 & -> & H1 & Hx)]; [now left|].
    right. exists (a :: l1), x, l2. simpl. rewrite Ha. auto.
Qed.

Lemma prepend_app (es1 es2 : list tar.Entry) (rest : tar.Stream) :
  prepend (es1 ++ es2)%list rest = prepend es1 (prepend es2 rest).
Proof.
  induction es1 as [|[hdr content] es1 IH]; simpl; [reflexivity|]. now rewrite IH.
Qed.

Lemma streamOf_prepend (es : list tar.Entry) : tar.streamOf es = prepend es tar.EOF.
Proof.
  induction es as [|[hdr content] es IH]; simpl; [reflexivity|]. now rewrite IH.
Qed.

(** The loop at a first kernel entry that is accepted. *)
Lemma loop_kernel (k : tar.Entry) (rest : tar.Stream) (ktar : option Buffer) :
  isK k = true -> consistent k ->
  loop (prepend [k] rest) None ktar false =
  loop rest (Some (Archive (bootEntries (fst k) (snd k) cmdline))) ktar true.
Proof.
  destruct k as [hdr content]. intros Hk Hc. simpl.
  unfold isKernelEntry in Hk. simpl in Hk. rewrite Hk.
  now rewrite (bootTarball_ok hdr content cmdline Hc).
Qed.


Lemma filter_none {A : Type} (p : A -> bool) (l : list A) :
  existsb p l = false -> filter p l = [].
Proof.
  induction l as [|a l IH]; simpl; [reflexivity|].
  intros H. apply orb_false_elim in H as [-> Hl]. now apply IH.
Qed.

(** No kernel entry: the loop ends without a kernel. *)
Lemma loop_no_kernel (es : list tar.Entry) (rest : tar.Stream) :
  existsb isK es = false ->
  loop (prepend es rest) None None false = loop rest None (ktarAfter es None) false.
Proof. apply loop_skip. Qed.

(** One kernel entry: the loop ends with its boot tarball. *)
Lemma loop_one_kernel (l1 l2 : list tar.Entry) (k : tar.Entry) (rest : tar.Stream) :
  existsb isK l1 = false -> isK k = true -> consistent k -> existsb isK l2 = false ->
  loop (prepend (l1 ++ k :: l2)%list rest) None None false =
  loop rest (Some (Archive (bootEntries (fst k) (snd k) cmdline)))
       (ktarAfter l2 (ktarAfter l1 None)) true.
Proof.
  intros H1 Hk Hc H2.
  rewrite prepend_app, (loop_skip _ _ _ _ _ H1).
  change (k :: l2) with ([k] ++ l2)%list. rewrite prepend_app.
  rewrite (loop_kernel _ _ _ Hk Hc). now rewrite (loop_skip _ _ _ _ _ H2).
Qed.



(** How many kernel entries a list has: none, one, or at least two. *)
Lemma kernel_cases (es : list tar.Entry) :
  (existsb isK es = false /\ List.length (filter isK es) = 0%nat) \/
  (exists l1 k l2, es = (l1 ++ k :: l2)%list /\ existsb isK l1 = false /\ isK k = true
                   /\ existsb isK l2 = false /\ List.length (filter isK es) = 1%nat) \/
  (exists l1 k l2 k2 l3, es = (l1 ++ k :: l2 ++ k2 :: l3)%list /\ existsb isK l1 = false
                   /\ isK k = true /\ existsb isK l2 = false /\ isK k2 = true
                   /\ (2 <= List.length (filter isK es))%nat).
Proof.
  destruct (first_split isK es) as [H0|(l1 & k & l2 & -> & H1 & Hk)].
  - left. split; [exact H0|]. now rewrite filter_none.
  - right. destruct (first_split isK l2) as [H2|(l2a & k2 & l3 & -> & H2 & Hk2)].
    + left. exists l1, k, l2. repeat split; auto.
      rewrite filter_app. cbn [filter]. rewrite Hk, !filter_none by assumption. reflexivity.
    + right. exists l1, k, l2a, k2, l3. repeat split; auto.
      rewrite filter_app. cbn [filter]. rewrite Hk, filter_app. cbn [filter]. rewrite Hk2.
      rewrite length_app. cbn [List.length]. rewrite length_app. cbn [List.length]. lia.
Qed.

Lemma kernel_is_no_ktar (e : tar.Entry) :
  ktn <> kn -> ktn <> kan -> isK e = true -> isT e = false.
Proof.
  unfold isKernelEntry, isKtarEntry. intros H1 H2 H.
  apply orb_true_iff in H as [H|H]; apply String.eqb_eq in H;
    apply String.eqb_neq; congruence.
Qed.


(** A successful run has met exactly one kernel entry and returns its
    boot tarball. *)
Lemma loop_ok_inv (tr : tar.Stream) (kernel0 ktar0 : option Buffer) (found : bool)
    (kernel ktar : Buffer) :
  loop tr kernel0 ktar0 found = Returns (Ok (kernel, ktar)) ->
  (found = false -> kernel0 = None ->
   exists before hdr content after,
     tar.entriesOf tr = (before ++ (hdr, content) :: after)%list /\
     isK (hdr, content) = true /\ existsb isK before = false /\
     existsb isK after = false /\
     kernel = Archive (bootEntries hdr content cmdline)) /\
  (found = true -> existsb isK (tar.entriesOf tr) = false /\ kernel0 = Some kernel).
Proof.
  revert kernel0 ktar0 found.
  induction tr as [|err|hdr content readErr rest IH]; intros kernel0 ktar0 found; simpl.
  - destruct kernel0 as [k0|]; [|discriminate].
    destruct ktar0 as [t0|]; [|discriminate]. intros [= <- <-].
    split; [discriminate | auto].
  - discriminate.
  - unfold isKernelEntry at 3. cbn [fst].
    destruct (String.eqb (tar.Name hdr) kn || String.eqb (tar.Name hdr) kan) eqn:Hk.
    + destruct found; [discriminate|].
      destruct (bootTarball hdr content readErr cmdline) as [k|] eqn:Hb; [|discriminate].
      intros H. apply IH in H as [_ H]. destruct (H eq_refl) as [Hrest [= <-]].
      apply bootTarball_inv in Hb as [-> _].
      split; [|discriminate]. intros _ _.
      exists [], hdr, content, (tar.entriesOf rest). repeat split; auto.
    + destruct (String.eqb (tar.Name hdr) ktn).
      * destruct readErr; [discriminate|]. intros H. apply IH in H as [Hf Ht]. split.
        -- intros Hfound Hk0.
           destruct (Hf Hfound Hk0) as (before & h' & c' & after & E & K & B & A & R).
           exists ((hdr, content) :: before), h', c', after. rewrite E.
           repeat split; auto.
           cbn [existsb]. unfold isKernelEntry at 1. cbn [fst]. now rewrite Hk.
        -- intros Hfound. destruct (Ht Hfound) as [E K]. split; [|exact K].
           cbn [existsb]. unfold isKernelEntry at 1. cbn [fst]. now rewrite Hk.
      * intros H. apply IH in H as [Hf Ht]. split.
        -- intros Hfound Hk0.
           destruct (Hf Hfound Hk0) as (before & h' & c' & after & E & K & B & A & R).
           exists ((hdr, content) :: before), h', c', after. rewrite E.
           repeat split; auto.
           cbn [existsb]. unfold isKernelEntry at 1. cbn [fst]. now rewrite Hk.
        -- intros Hfound. destruct (Ht Hfound) as [E K]. split; [|exact K].
           cbn [existsb]. unfold isKernelEntry at 1. cbn [fst]. now rewrite Hk.
Qed.

End SplitterFacts.




(** C5, as the code has it: a successful run of the kernel splitter has
    read exactly one entry with a kernel name, of header [hdr] and content
    [content], and its boot fragment is a tar stream of exactly three
    entries in this order: a directory entry named "boot" (no trailing
    slash) of mode 0700; a file entry "boot/kernel" with the mode and the
    size of [hdr] and the content [content]; a file entry "boot/cmdline"
    of mode 0700 whose size and content are those of the command line. *)
Theorem boot_fragment_entries (decode : string -> tar.Stream) (buf : Buffer)
    (kn kan ktn cmdline : string) (kernel ktar : Buffer) :
  untarKernel decode buf kn kan ktn cmdline = Returns (Ok (kernel, ktar)) ->
  exists before hdr content after,
    tar.entriesOf (NewReader decode buf) = (before ++ (hdr, content) :: after)%list /\
    isKernelEntry kn kan (hdr, content) = true /\
    existsb (isKernelEntry kn kan) before = false /\
    existsb (isKernelEntry kn kan) after = false /\
    kernel = Archive
      [ (tar.mkHeader "boot" 448 0 tar.TypeDir, "");
        (tar.mkHeader "boot/kernel" (tar.Mode hdr) (tar.Size hdr) tar.TypeRegA, content);
        (tar.mkHeader "boot/cmdline" 448 (Z.of_nat (String.length cmdline)) tar.TypeRegA,
         cmdline) ] /\
    NewReader decode kernel = tar.streamOf (bootEntries hdr content cmdline).
Proof.
  unfold untarKernel. intros H.
  apply loop_ok_inv in H as [H _].
  destruct (H eq_refl eq_refl) as (before & hdr & content & after & E & K & B & A & ->).
  exists before, hdr, content, after. repeat split; auto.
Qed.

Lemma boot_fragment_entries_witness :
  exists before hdr after,
    tar.entriesOf (Demo.decode "<kernel image>") = (before ++ (hdr, "X") :: after)%list /\
    tar.Mode hdr = 420%Z /\
    NewReader Demo.decode
      (Archive (bootEntries hdr "X" "console=ttyS0"))
    = tar.streamOf (bootEntries hdr "X" "console=ttyS0").
Proof.
  destruct (boot_fragment_entries Demo.decode (Raw "<kernel image>")
              kernelName kernelAltName ktarName "console=ttyS0"
              (Archive (bootEntries (fst (Demo.file "kernel" 420 "X")) "X" "console=ttyS0"))
              (Raw "<modules>") eq_refl)
    as (before & hdr & content & after & E & K & B & A & Hk & R).
  injection Hk as Hm Hs Hc. subst content.
  exists before, hdr, after. repeat split; auto.
Defined.

(** C5 as stated fails: the directory entry of the boot fragment is named
    "boot", not "boot/". *)
Lemma boot_directory_name_counterexample :
  let hdr := fst (Demo.file "kernel" 420 "X") in
  untarKernel Demo.decode (Raw "<kernel image>") kernelName kernelAltName ktarName
    "console=ttyS0"
  = Returns (Ok (Archive (bootEntries hdr "X" "console=ttyS0"), Raw "<modules>")) /\
  map (fun e => tar.Name (fst e)) (bootEntries hdr "X" "console=ttyS0")
  = ["boot"; "boot/kernel"; "boot/cmdline"] /\
  bootEntries hdr "X" "console=ttyS0" <> specBootEntries hdr "X" "console=ttyS0" /\
  ~ (forall buf cmdline kernel ktar,
       untarKernel Demo.decode buf kernelName kernelAltName ktarName cmdline
       = Returns (Ok (kernel, ktar)) ->
       exists hdr content, kernel = Archive (specBootEntries hdr content cmdline)).
Proof.
  repeat split; try reflexivity.
  - discriminate.
  - intros H.
    destruct (H (Raw "<kernel image>") "console=ttyS0" _ _ eq_refl) as (hdr & content & E).
    discriminate E.
Qed.

(* ================================================================= *)
(** ** Appending fragments *)

Section AppendFacts.

Variable decode : string -> tar.Stream.
Variable h : handler.

Lemma run_perform {X B : Type} (c : call X) (f : X -> M B) :
  run h (bind (perform c) f) =
  (Event c (h _ c) :: fst (run h (f (h _ c))), snd (run h (f (h _ c)))).
Proof. simpl. now destruct (run h (f (h X c))). Qed.

Lemma run_lift {A B : Type} (o : outcome A) (f : A -> M B) :
  run h (bind (lift o) f) =
  match o with
  | Returns a => run h (f a)
  | Fatal msg => ([], Fatal msg)
  end.
Proof. now destruct o. Qed.

(** An append that returns has read the stream to its end without error
    and has added its entries, headers and contents unchanged, after the
    entries that were there. *)
Lemma appendLoop_inv (tr : tar.Stream) (iw iw' : tar.Writer) :
  appendLoop iw tr = Returns iw' ->
  tr = tar.streamOf (tar.entriesOf tr) /\
  tar.entries iw' = (tar.entries iw ++ tar.entriesOf tr)%list.
Proof.
  revert iw. induction tr as [|err|hdr content readErr rest IH]; intros iw; simpl.
  - intros [= <-]. now rewrite app_nil_r.
  - discriminate.
  - destruct (tar.WriteHeader iw hdr) as [iw1|] eqn:H1; [|discriminate].
    destruct (tar.Copy iw1 content readErr) as [iw2|] eqn:H2; [|discriminate].
    intros H. apply IH in H as [Hs He].
    destruct (write_entry _ _ _ _ _ _ H1 H2) as [E ->].
    split; [now rewrite <- Hs|]. rewrite He, E, <- app_assoc. reflexivity.
Qed.

Lemma initrdAppend_raw (iw iw' : tar.Writer) (b : string) :
  initrdAppend decode iw (Raw b) = Returns iw' ->
  wholeFragment decode (Ok b) /\
  tar.entries iw' = (tar.entries iw ++ fragmentEntries decode (Ok b))%list.
Proof.
  unfold initrdAppend. simpl. intros H. apply appendLoop_inv in H as [Hs He].
  split; [|exact He]. exists b, (tar.entriesOf (decode b)). auto.
Qed.

End AppendFacts.

Section LoopFacts.

Variable decode : string -> tar.Stream.
Variable h : handler.
Variable m : Moby.
Variable pull : bool.

(** If the pair of trace and outcome of a run returns, so does the run. *)
Lemma run_pair {A : Type} (p : prog (outcome A)) (pre t : list event) (a : A) :
  ((pre ++ fst (run h p))%list, snd (run h p)) = (t, Returns a) ->
  exists t', run h p = (t', Returns a) /\ t = (pre ++ t')%list.
Proof.
  destruct (run h p) as [t' o]. simpl. intros [= <- ->]. eauto.
Qed.

Lemma initLoop_ok (inits : list string) (iw iw' : tar.Writer) (t : list event) :
  run h (initLoop decode m pull inits iw) = (t, Returns iw') ->
  Forall (wholeFragment decode) (map (initFragment h m pull) inits) /\
  tar.entries iw' =
    (tar.entries iw
     ++ flat_map (fragmentEntries decode) (map (initFragment h m pull) inits))%list.
Proof.
  revert iw t. induction inits as [|ii rest IH]; intros iw t.
  - simpl. intros [= _ <-]. split; [constructor | now rewrite app_nil_r].
  - cbn [initLoop map flat_map]. rewrite run_perform. unfold initFragment at 1 3.
    destruct (h _ (ImageExtract ii "" (enforceContentTrust ii (Trust m)) pull))
      as [init|err]; [|discriminate].
    rewrite run_lift.
    destruct (initrdAppend decode iw (Raw init)) as [iw1|msg] eqn:Ha; [|discriminate].
    intros H. apply (run_pair _ [_]) in H as (t' & H & _).
    apply IH in H as [HF HE]. apply initrdAppend_raw in Ha as [Hw Ha].
    split; [now constructor|]. rewrite HE, Ha, <- app_assoc. reflexivity.
Qed.

(** The part shared by the loops over onboot and service containers. *)
Lemma bundle_ok (path : string) (image : MobyImage.t) (iw iw' : tar.Writer)
    (k : tar.Writer -> M tar.Writer) (t : list event) :
  run h (config <- perform (ConfigToOCI image) ;;
         match config with
         | Err err =>
             fatal ("Failed to create config.json for " ++ MobyImage.Image image ++ ": " ++ err)
         | Ok config =>
             out <- perform (ImageBundle path (MobyImage.Image image) config
                               (enforceContentTrust (MobyImage.Image image) (Trust m)) pull) ;;
             match out with
             | Err err =>
                 fatal ("Failed to extract root filesystem for "
                          ++ MobyImage.Image image ++ ": " ++ err)
             | Ok out =>
                 iw <- lift (initrdAppend decode iw (Raw out)) ;;
                 k iw
             end
         end) = (t, Returns iw') ->
  exists iw1 t',
    wholeFragment decode (bundleFragment h m pull path image) /\
    tar.entries iw1 =
      (tar.entries iw ++ fragmentEntries decode (bundleFragment h m pull path image))%list /\
    run h (k iw1) = (t', Returns iw') /\
    bundlePaths t = path :: bundlePaths t'.
Proof.
  rewrite run_perform. unfold bundleFragment.
  destruct (h _ (ConfigToOCI image)) as [config|err]; [|discriminate].
  rewrite run_perform.
  destruct (h _ (ImageBundle path (MobyImage.Image image) config
                   (enforceContentTrust (MobyImage.Image image) (Trust m)) pull))
    as [out|err]; [|discriminate].
  rewrite run_lift.
  destruct (initrdAppend decode iw (Raw out)) as [iw1|msg] eqn:Ha; [|discriminate].
  cbn [fst snd]. intros H.
  destruct (run h (k iw1)) as [t' o] eqn:Hk. simpl in H. injection H as <- ->.
  apply initrdAppend_raw in Ha as [Hw Ha].
  exists iw1, t'. repeat split; auto.
Qed.

Lemma onbootLoop_ok (images : list MobyImage.t) (i : nat) (iw iw' : tar.Writer)
    (t : list event) :
  run h (onbootLoop decode m pull i images iw) = (t, Returns iw') ->
  let frags := map (fun p => bundleFragment h m pull (onbootPath (fst p) (snd p)) (snd p))
                   (indexedFrom i images) in
  Forall (wholeFragment decode) frags /\
  tar.entries iw' = (tar.entries iw ++ flat_map (fragmentEntries decode) frags)%list /\
  bundlePaths t = map (fun p => onbootPath (fst p) (snd p)) (indexedFrom i images).
Proof.
  revert i iw t. induction images as [|image rest IH]; intros i iw t.
  - simpl. intros [= <- <-]. repeat split; [constructor | now rewrite app_nil_r].
  - cbn [onbootLoop indexedFrom map flat_map fst snd]. intros H.
    apply bundle_ok in H as (iw1 & t' & Hw & He & Hk & Hp).
    apply IH in Hk as (HF & HE & HP).
    repeat split; [now constructor | | ].
    + rewrite HE, He, <- app_assoc. reflexivity.
    + rewrite Hp, HP. reflexivity.
Qed.

Lemma servicesLoop_ok (images : list MobyImage.t) (iw iw' : tar.Writer) (t : list event) :
  run h (servicesLoop decode m pull images iw) = (t, Returns iw') ->
  let frags := map (fun image => bundleFragment h m pull (servicePath image) image) images in
  Forall (wholeFragment decode) frags /\
  tar.entries iw' = (tar.entries iw ++ flat_map (fragmentEntries decode) frags)%list /\
  bundlePaths t = map servicePath images.
Proof.
  revert iw t. induction images as [|image rest IH]; intros iw t.
  - simpl. intros [= <- <-]. repeat split; [constructor | now rewrite app_nil_r].
  - cbn [servicesLoop map flat_map]. intros H.
    apply bundle_ok in H as (iw1 & t' & Hw & He & Hk & Hp).
    apply IH in Hk as (HF & HE & HP).
    repeat split; [now constructor | | ].
    + rewrite HE, He, <- app_assoc. reflexivity.
    + rewrite Hp, HP. reflexivity.
Qed.

End LoopFacts.

Section BuildFacts.

Variable decode : string -> tar.Stream.
Variable h : handler.
Variable m : Moby.
Variable pull : bool.

Lemma entriesOf_streamOf (es : list tar.Entry) : tar.entriesOf (tar.streamOf es) = es.
Proof. induction es as [|[hdr content] es IH]; simpl; [reflexivity|]. now rewrite IH. Qed.

(** The filesystem tar that the splitter returns is raw bytes. *)
Lemma loop_ktar_raw (kn kan ktn cmdline : string) (tr : tar.Stream)
    (kernel0 ktar0 : option Buffer) (found : bool) (kernel ktar : Buffer) :
  (forall b, ktar0 = Some b -> exists s, b = Raw s) ->
  untarLoop kn kan ktn cmdline tr kernel0 ktar0 found = Returns (Ok (kernel, ktar)) ->
  exists s, ktar = Raw s.
Proof.
  revert kernel0 ktar0 found.
  induction tr as [|err|hdr content readErr rest IH]; intros kernel0 ktar0 found Hraw; simpl.
  - destruct kernel0; [|discriminate]. destruct ktar0 as [t0|]; [|discriminate].
    intros [= _ <-]. now apply Hraw.
  - discriminate.
  - destruct (String.eqb (tar.Name hdr) kn || String.eqb (tar.Name hdr) kan).
    + destruct found; [discriminate|].
      destruct (bootTarball hdr content readErr cmdline); [|discriminate].
      now apply IH.
    + destruct (String.eqb (tar.Name hdr) ktn).
      * destruct readErr; [discriminate|]. apply IH. intros b [= <-]. eauto.
      * now apply IH.
Qed.

Lemma pullKernel_ok (t : list event) (u : unit) :
  run h (pullKernel m pull) = (t, Returns u) -> bundlePaths t = [].
Proof.
  unfold pullKernel.
  destruct (pull || enforceContentTrust (KernelConfig.Image (Kernel m)) (Trust m)).
  - rewrite run_perform.
    destruct (h _ (dockerPull _ _)); [discriminate|]. simpl. now intros [= <- _].
  - simpl. now intros [= <- _].
Qed.

Lemma addKernel_ok (iw iw' : tar.Writer) (t : list event) :
  KernelConfig.Image (Kernel m) <> "" ->
  run h (addKernel decode m pull iw) = (t, Returns iw') ->
  exists kernelBytes hdr content ktarBytes,
    h _ (ImageExtract (KernelConfig.Image (Kernel m)) ""
           (enforceContentTrust (KernelConfig.Image (Kernel m)) (Trust m)) pull)
    = Ok kernelBytes /\
    untarKernel decode (Raw kernelBytes) kernelName kernelAltName ktarName
      (KernelConfig.Cmdline (Kernel m))
    = Returns (Ok (Archive (bootEntries hdr content (KernelConfig.Cmdline (Kernel m))),
                   Raw ktarBytes)) /\
    wholeFragment decode (Ok ktarBytes) /\
    tar.entries iw' =
      (tar.entries iw ++ bootEntries hdr content (KernelConfig.Cmdline (Kernel m))
       ++ fragmentEntries decode (Ok ktarBytes))%list /\
    bundlePaths t = [].
Proof.
  intros Hne. unfold addKernel.
  apply String.eqb_neq in Hne. rewrite Hne. cbn [negb].
  rewrite run_perform.
  destruct (h _ (ImageExtract _ _ _ _)) as [out|err]; [|discriminate].
  rewrite run_lift.
  destruct (untarKernel decode (Raw out) kernelName kernelAltName ktarName
              (KernelConfig.Cmdline (Kernel m))) as [[[kernel ktar]|err]|msg] eqn:Hu;
    [| discriminate | discriminate].
  rewrite run_lift.
  destruct (initrdAppend decode iw kernel) as [iw1|msg] eqn:H1; [|discriminate].
  simpl. destruct (initrdAppend decode iw1 ktar) as [iw2|msg] eqn:H2; [|discriminate].
  intros [= <- <-].
  pose proof Hu as Hk. unfold untarKernel in Hk. apply loop_ok_inv in Hk as [Hk _].
  destruct (Hk eq_refl eq_refl) as (before & hdr & content & after & _ & _ & _ & _ & ->).
  assert (Hraw : exists s, ktar = Raw s).
  { unfold untarKernel in Hu. eapply loop_ktar_raw; [|exact Hu].
    intros b Hb; discriminate Hb. }
  destruct Hraw as [s ->].
  apply initrdAppend_raw in H2 as [Hw H2].
  unfold initrdAppend in H1. cbn [NewReader] in H1. apply appendLoop_inv in H1 as [_ H1].
  rewrite entriesOf_streamOf in H1.
  exists out, hdr, content, s. repeat split; auto.
  rewrite H2, H1, <- app_assoc. reflexivity.
Qed.

Lemma addFiles_ok (iw : tar.Writer) (t : list event) (out : Buffer) :
  run h (addFiles decode m iw) = (t, Returns out) ->
  wholeFragment decode (h _ (filesystem m)) /\
  out = Archive (tar.entries iw ++ fragmentEntries decode (h _ (filesystem m)))%list /\
  bundlePaths t = [].
Proof.
  unfold addFiles. rewrite run_perform.
  destruct (h _ (filesystem m)) as [buffer|err]; [|discriminate].
  rewrite run_lift.
  destruct (initrdAppend decode iw (Raw buffer)) as [iw1|msg] eqn:Ha; [|discriminate].
  unfold tar.Close. destruct (0 <? tar.nb iw1)%Z; [discriminate|].
  simpl. intros [= <- <-].
  apply initrdAppend_raw in Ha as [Hw Ha]. rewrite Ha. auto.
Qed.

Lemma initLoop_no_bundle (inits : list string) (iw : tar.Writer) :
  bundlePaths (fst (run h (initLoop decode m pull inits iw))) = [].
Proof.
  revert iw. induction inits as [|ii rest IH]; intros iw; [reflexivity|].
  cbn [initLoop]. rewrite run_perform.
  destruct (h _ (ImageExtract _ _ _ _)) as [init|err]; [|reflexivity].
  rewrite run_lift. destruct (initrdAppend decode iw (Raw init)); [|reflexivity].
  cbn [fst bundlePaths flat_map bundlePath app]. apply IH.
Qed.

End BuildFacts.

(** C1: when the build of a configuration with a kernel image returns,
    the archive holds exactly the entries of the fragments, headers (name,
    mode, size, type flag) and contents unchanged, in this order: the boot
    fragment of the kernel splitter, the filesystem tar of the kernel, one
    fragment per init image in list order, one per onboot container in
    list order, one per service in list order, the files fragment.  Every
    fragment was read to its end without error. *)
Theorem archive_order (decode : string -> tar.Stream) (h : handler) (m : Moby)
    (pull : bool) (out : Buffer) :
  KernelConfig.Image (Kernel m) <> "" ->
  outcomeOf h (buildInternal decode m pull) = Returns out ->
  exists kernelBytes hdr content ktarBytes,
    h _ (ImageExtract (KernelConfig.Image (Kernel m)) ""
           (enforceContentTrust (KernelConfig.Image (Kernel m)) (Trust m)) pull)
    = Ok kernelBytes /\
    untarKernel decode (Raw kernelBytes) kernelName kernelAltName ktarName
      (KernelConfig.Cmdline (Kernel m))
    = Returns (Ok (Archive (bootEntries hdr content (KernelConfig.Cmdline (Kernel m))),
                   Raw ktarBytes)) /\
    wholeFragment decode (Ok ktarBytes) /\
    Forall (wholeFragment decode) (laterFragments h m pull) /\
    out = Archive
            (bootEntries hdr content (KernelConfig.Cmdline (Kernel m))
             ++ tar.entriesOf (decode ktarBytes)
             ++ flat_map (fragmentEntries decode)
                  (map (initFragment h m pull) (Init m))
             ++ flat_map (fragmentEntries decode)
                  (map (fun p => bundleFragment h m pull (onbootPath (fst p) (snd p)) (snd p))
                       (indexedFrom 0 (Onboot m)))
             ++ flat_map (fragmentEntries decode)
                  (map (fun image => bundleFragment h m pull (servicePath image) image)
                       (Services m))
             ++ fragmentEntries decode (h _ (filesystem m)))%list.
Proof.
  intros Hne. unfold outcomeOf.
  destruct (run h (buildInternal decode m pull)) as [t o] eqn:Hr. simpl. intros ->.
  unfold buildInternal in Hr.
  apply run_bind_inv in Hr as (t0 & u & t0' & _ & Hr & _).
  apply run_bind_inv in Hr as (t1 & iw1 & t1' & Hkernel & Hr & _).
  apply run_bind_inv in Hr as (t2 & iw2 & t2' & Hinit & Hr & _).
  apply run_bind_inv in Hr as (t3 & iw3 & t3' & Honboot & Hr & _).
  apply run_bind_inv in Hr as (t4 & iw4 & t4' & Hservices & Hfiles & _).
  apply (addKernel_ok decode h m pull _ _ _ Hne) in Hkernel
    as (kernelBytes & hdr & content & ktarBytes & Hx & Hu & Hw & E1 & _).
  apply initLoop_ok in Hinit as [F2 E2].
  apply onbootLoop_ok in Honboot as (F3 & E3 & _).
  apply servicesLoop_ok in Hservices as (F4 & E4 & _).
  apply addFiles_ok in Hfiles as (F5 & -> & _).
  exists kernelBytes, hdr, content, ktarBytes.
  split; [exact Hx|]. split; [exact Hu|]. split; [exact Hw|]. split.
  - unfold laterFragments. repeat (apply Forall_app; split); auto.
  - rewrite E4, E3, E2, E1. simpl tar.entries. cbn [fragmentEntries app].
    rewrite <- !app_assoc. reflexivity.
Qed.

Lemma archive_order_witness :
  exists hdr content ktarBytes,
    outcomeOf Demo.answers (buildInternal Demo.decode Demo.spec false) =
    Returns (Archive
      (bootEntries hdr content (KernelConfig.Cmdline (Kernel Demo.spec))
       ++ tar.entriesOf (Demo.decode ktarBytes)
       ++ flat_map (fragmentEntries Demo.decode)
            (map (initFragment Demo.answers Demo.spec false) (Init Demo.spec))
       ++ flat_map (fragmentEntries Demo.decode)
            (map (fun p => bundleFragment Demo.answers Demo.spec false
                             (onbootPath (fst p) (snd p)) (snd p))
                 (indexedFrom 0 (Onboot Demo.spec)))
       ++ flat_map (fragmentEntries Demo.decode)
            (map (fun image => bundleFragment Demo.answers Demo.spec false
                                 (servicePath image) image)
                 (Services Demo.spec))
       ++ fragmentEntries Demo.decode (Demo.answers _ (filesystem Demo.spec)))%list).
Proof.
  assert (Hne : KernelConfig.Image (Kernel Demo.spec) <> "") by discriminate.
  destruct (archive_order Demo.decode Demo.answers Demo.spec false _ Hne eq_refl)
    as (kernelBytes & hdr & content & ktarBytes & _ & _ & _ & _ & E).
  exists hdr, content, ktarBytes.
  rewrite <- E. reflexivity.
Defined.

(* ================================================================= *)
(** ** The paths of the bundles *)

Section PathFacts.

Variable decode : string -> tar.Stream.
Variable h : handler.
Variable m : Moby.
Variable pull : bool.

Lemma bundlePaths_app (t1 t2 : list event) :
  bundlePaths (t1 ++ t2)%list = (bundlePaths t1 ++ bundlePaths t2)%list.
Proof. apply flat_map_app. Qed.

Lemma bind_paths {A B : Type} (p : M A) (f : A -> M B) :
  bundlePaths (fst (run h (bind p f))) =
  (bundlePaths (fst (run h p))
   ++ match snd (run h p) with
      | Returns a => bundlePaths (fst (run h (f a)))
      | Fatal _ => []
      end)%list.
Proof.
  unfold bind. rewrite run_bindProg. cbn [fst]. rewrite bundlePaths_app.
  now destruct (snd (run h p)).
Qed.

Lemma pullKernel_no_bundle : bundlePaths (fst (run h (pullKernel m pull))) = [].
Proof.
  unfold pullKernel.
  destruct (pull || enforceContentTrust (KernelConfig.Image (Kernel m)) (Trust m));
    [|reflexivity].
  rewrite run_perform. now destruct (h _ (dockerPull _ _)).
Qed.

Lemma addKernel_no_bundle (iw : tar.Writer) :
  bundlePaths (fst (run h (addKernel decode m pull iw))) = [].
Proof.
  unfold addKernel.
  destruct (negb (String.eqb (KernelConfig.Image (Kernel m)) "")); [|reflexivity].
  rewrite run_perform.
  destruct (h _ (ImageExtract _ _ _ _)) as [out|err]; [|reflexivity].
  rewrite run_lift.
  destruct (untarKernel decode (Raw out) kernelName kernelAltName ktarName
              (KernelConfig.Cmdline (Kernel m))) as [[[kernel ktar]|err]|msg];
    try reflexivity.
  rewrite run_lift. now destruct (initrdAppend decode iw kernel).
Qed.

Lemma addFiles_no_bundle (iw : tar.Writer) :
  bundlePaths (fst (run h (addFiles decode m iw))) = [].
Proof.
  unfold addFiles. rewrite run_perform.
  destruct (h _ (filesystem m)) as [buffer|err]; [|reflexivity].
  rewrite run_lift. destruct (initrdAppend decode iw (Raw buffer)); [|reflexivity].
  now destruct (tar.Close _).
Qed.

(** One bundle: its path is the only one of its calls. *)
Lemma bundle_paths_step (path : string) (image : MobyImage.t) (iw : tar.Writer)
    (k : tar.Writer -> M tar.Writer) (later : list string) :
  (forall iw1, exists rest, later = (bundlePaths (fst (run h (k iw1))) ++ rest)%list) ->
  exists rest,
    path :: later =
    (bundlePaths (fst (run h (
       config <- perform (ConfigToOCI image) ;;
       match config with
       | Err err =>
           fatal ("Failed to create config.json for " ++ MobyImage.Image image ++ ": " ++ err)
       | Ok config =>
           out <- perform (ImageBundle path (MobyImage.Image image) config
                             (enforceContentTrust (MobyImage.Image image) (Trust m)) pull) ;;
           match out with
           | Err err =>
               fatal ("Failed to extract root filesystem for "
                        ++ MobyImage.Image image ++ ": " ++ err)
           | Ok out =>
               iw <- lift (initrdAppend decode iw (Raw out)) ;;
               k iw
           end
       end))) ++ rest)%list.
Proof.
  intros Hk. rewrite run_perform.
  destruct (h _ (ConfigToOCI image)) as [config|err]; [|simpl; eauto].
  rewrite run_perform.
  destruct (h _ (ImageBundle _ _ _ _ _)) as [out|err]; [|simpl; eauto].
  rewrite run_lift.
  destruct (initrdAppend decode iw (Raw out)) as [iw1|msg]; [|simpl; eauto].
  destruct (Hk iw1) as [rest Hr]. exists rest. simpl. now rewrite Hr.
Qed.

Lemma onbootLoop_paths (images : list MobyImage.t) (i : nat) (iw : tar.Writer) :
  exists rest,
    map (fun p => onbootPath (fst p) (snd p)) (indexedFrom i images) =
    (bundlePaths (fst (run h (onbootLoop decode m pull i images iw))) ++ rest)%list.
Proof.
  revert i iw. induction images as [|image rest IH]; intros i iw.
  - exists []. reflexivity.
  - cbn [onbootLoop indexedFrom map fst snd]. apply bundle_paths_step.
    intros iw1. apply IH.
Qed.

Lemma servicesLoop_paths (images : list MobyImage.t) (iw : tar.Writer) :
  exists rest,
    map servicePath images =
    (bundlePaths (fst (run h (servicesLoop decode m pull images iw))) ++ rest)%list.
Proof.
  revert iw. induction images as [|image rest IH]; intros iw.
  - exists []. reflexivity.
  - cbn [servicesLoop map]. apply bundle_paths_step. intros iw1. apply IH.
Qed.

End PathFacts.

Lemma nth_error_indexedFrom {A : Type} (l : list A) (i n : nat) (a : A) :
  nth_error l n = Some a -> nth_error (indexedFrom i l) n = Some ((i + n)%nat, a).
Proof.
  revert i n. induction l as [|b l IH]; intros i [|n]; simpl; try discriminate.
  - intros [= ->]. now rewrite Nat.add_0_r.
  - intros H. rewrite (IH (S i) n H). f_equal. f_equal. lia.
Qed.

Lemma length_indexedFrom {A : Type} (l : list A) (i : nat) :
  List.length (indexedFrom i l) = List.length l.
Proof. revert i. induction l; intros i; simpl; auto. Qed.

(** The three digits of a position below 1000. *)
Lemma Sprintf03d_digits (i : nat) :
  (i < 1000)%nat ->
  Sprintf03d i =
  String (digit (i / 100)) (String (digit (i / 10 mod 10)) (String (digit (i mod 10)) "")).
Proof.
  intros Hi.
  assert (H : forallb (fun i => String.eqb (Sprintf03d i)
                (String (digit (i / 100)) (String (digit (i / 10 mod 10))
                   (String (digit (i mod 10)) "")))) (seq 0 1000) = true)
    by (vm_compute; reflexivity).
  rewrite forallb_forall in H. apply String.eqb_eq. apply H.
  apply in_seq. lia.
Qed.

(* ================================================================= *)
(** ** The pull of the kernel image *)

(** C9, what the code does: the pull of the kernel image is decided
    before, and outside of, the test [m.Kernel.Image != ""].  For a
    configuration without kernel image the build still calls [dockerPull]
    on the empty reference as its first call whenever the pull flag is
    set or the trust policy matches the empty reference; and if that pull
    fails the build ends there. *)
Theorem kernel_pull_without_image (decode : string -> tar.Stream) (h : handler)
    (m : Moby) (pull : bool) :
  KernelConfig.Image (Kernel m) = "" ->
  pull || enforceContentTrust "" (Trust m) = true ->
  (exists t,
     trace h (buildInternal decode m pull) =
     Event (dockerPull "" (enforceContentTrust "" (Trust m)))
           (h _ (dockerPull "" (enforceContentTrust "" (Trust m)))) :: t) /\
  In "" (pulls (trace h (buildInternal decode m pull))) /\
  (forall err, h _ (dockerPull "" (enforceContentTrust "" (Trust m))) = Some err ->
     run h (buildInternal decode m pull) =
     ([Event (dockerPull "" (enforceContentTrust "" (Trust m))) (Some err)],
      Fatal ("Could not pull image : " ++ err))).
Proof.
  intros Himg Hcond.
  assert (Hrun : run h (pullKernel m pull) =
                 ([Event (dockerPull "" (enforceContentTrust "" (Trust m)))
                         (h _ (dockerPull "" (enforceContentTrust "" (Trust m))))],
                  match h _ (dockerPull "" (enforceContentTrust "" (Trust m))) with
                  | Some err => Fatal ("Could not pull image : " ++ err)
                  | None => Returns tt
                  end)).
  { unfold pullKernel. rewrite Himg, Hcond, run_perform.
    now destruct (h _ (dockerPull "" (enforceContentTrust "" (Trust m)))). }
  assert (Htrace : exists t,
     trace h (buildInternal decode m pull) =
     Event (dockerPull "" (enforceContentTrust "" (Trust m)))
           (h _ (dockerPull "" (enforceContentTrust "" (Trust m)))) :: t).
  { unfold trace, buildInternal, bind at 1. rewrite run_bindProg, Hrun. cbn [fst app].
    eauto. }
  split; [exact Htrace|]. split.
  - destruct Htrace as [t ->]. simpl. auto.
  - intros err He. rewrite He in Hrun. unfold buildInternal.
    rewrite (run_bind_fatal h _ _ _ _ Hrun). reflexivity.
Qed.

Lemma kernel_pull_without_image_witness :
  In "" (pulls (trace Demo.answers (buildInternal Demo.decode Demo.noKernel true))).
Proof.
  apply (kernel_pull_without_image Demo.decode Demo.answers Demo.noKernel true
           eq_refl eq_refl).
Defined.

(* ================================================================= *)
(** ** The first error ends the build *)

Section AbortFacts.

Variable decode : string -> tar.Stream.
Variable h : handler.

(** In a run of a program that stops at failures, a failed call is the
    last call and the process has ended. *)
Lemma stops_run {A : Type} (p : M A) :
  stopsAtFailure p ->
  forall before ev after,
    fst (run h p) = (before ++ ev :: after)%list -> failed ev = true ->
    after = [] /\ exists msg, snd (run h p) = Fatal msg.
Proof.
  induction 1 as [o|X c k Hfail Hok IH]; intros before ev after; simpl.
  - destruct before; discriminate.
  - destruct (run h (k (h X c))) as [t o] eqn:Hr. simpl.
    destruct (failedAnswer c (h X c)) eqn:Hf.
    + destruct (Hfail _ Hf) as [msg Hk]. rewrite Hk in Hr. simpl in Hr.
      injection Hr as <- <-.
      destruct before as [|b [|b' before]]; simpl; try discriminate.
      intros [= <-] _. eauto.
    + destruct before as [|b before]; simpl.
      * intros [= <- <-]. simpl. congruence.
      * intros [= <- Ht] Hev. specialize (IH _ Hf before ev after).
        rewrite Hr in IH. now apply IH.
Qed.

Lemma stops_bind {A B : Type} (m : M A) (f : A -> M B) :
  stopsAtFailure m -> (forall a, stopsAtFailure (f a)) -> stopsAtFailure (bind m f).
Proof.
  intros Hm Hf. induction Hm as [o|X c k Hfail Hok IH].
  - destruct o; simpl; [apply Hf | constructor].
  - unfold bind. simpl. constructor.
    + intros x Hx. destruct (Hfail x Hx) as [msg ->]. simpl. eauto.
    + intros x Hx. apply IH. exact Hx.
Qed.

Lemma stops_lift {A B : Type} (o : outcome A) (f : A -> M B) :
  (forall a, stopsAtFailure (f a)) -> stopsAtFailure (bind (lift o) f).
Proof. intros Hf. apply stops_bind; [constructor | exact Hf]. Qed.

Lemma stops_perform {X B : Type} (c : call X) (f : X -> M B) :
  (forall x, failedAnswer c x = true -> exists msg, f x = Ret (Fatal msg)) ->
  (forall x, failedAnswer c x = false -> stopsAtFailure (f x)) ->
  stopsAtFailure (bind (perform c) f).
Proof. intros H1 H2. unfold bind, perform. simpl. now constructor. Qed.

Lemma stops_initLoop (m : Moby) (pull : bool) (inits : list string) (iw : tar.Writer) :
  stopsAtFailure (initLoop decode m pull inits iw).
Proof.
  revert iw. induction inits as [|ii rest IH]; intros iw; [constructor|].
  cbn [initLoop]. apply stops_perform.
  - intros [init|err]; simpl; [discriminate | intros _; unfold fatal; eauto].
  - intros [init|err]; simpl; [intros _ | discriminate].
    apply stops_lift. exact IH.
Qed.

Lemma stops_bundle (m : Moby) (pull : bool) (path : string) (image : MobyImage.t)
    (iw : tar.Writer) (k : tar.Writer -> M tar.Writer) :
  (forall iw1, stopsAtFailure (k iw1)) ->
  stopsAtFailure (
    config <- perform (ConfigToOCI image) ;;
    match config with
    | Err err =>
        fatal ("Failed to create config.json for " ++ MobyImage.Image image ++ ": " ++ err)
    | Ok config =>
        out <- perform (ImageBundle path (MobyImage.Image image) config
                          (enforceContentTrust (MobyImage.Image image) (Trust m)) pull) ;;
        match out with
        | Err err =>
            fatal ("Failed to extract root filesystem for "
                     ++ MobyImage.Image image ++ ": " ++ err)
        | Ok out =>
            iw <- lift (initrdAppend decode iw (Raw out)) ;;
            k iw
        end
    end).
Proof.
  intros Hk. apply stops_perform.
  - intros [config|err]; simpl; [discriminate | intros _; unfold fatal; eauto].
  - intros [config|err]; simpl; [intros _ | discriminate].
    apply stops_perform.
    + intros [out|err]; simpl; [discriminate | intros _; unfold fatal; eauto].
    + intros [out|err]; simpl; [intros _ | discriminate].
      apply stops_lift. exact Hk.
Qed.

Lemma stops_onbootLoop (m : Moby) (pull : bool) (images : list MobyImage.t) (i : nat)
    (iw : tar.Writer) :
  stopsAtFailure (onbootLoop decode m pull i images iw).
Proof.
  revert i iw. induction images as [|image rest IH]; intros i iw; [constructor|].
  cbn [onbootLoop]. apply stops_bundle. intros iw1. apply IH.
Qed.

Lemma stops_servicesLoop (m : Moby) (pull : bool) (images : list MobyImage.t)
    (iw : tar.Writer) :
  stopsAtFailure (servicesLoop decode m pull images iw).
Proof.
  revert iw. induction images as [|image rest IH]; intros iw; [constructor|].
  cbn [servicesLoop]. apply stops_bundle. intros iw1. apply IH.
Qed.

Lemma stops_pullKernel (m : Moby) (pull : bool) : stopsAtFailure (pullKernel m pull).
Proof.
  unfold pullKernel.
  destruct (pull || enforceContentTrust (KernelConfig.Image (Kernel m)) (Trust m));
    [|constructor].
  apply stops_perform.
  - intros [err|]; simpl; [intros _; unfold fatal; eauto | discriminate].
  - intros [err|]; simpl; [discriminate | constructor].
Qed.

Lemma stops_addKernel (m : Moby) (pull : bool) (iw : tar.Writer) :
  stopsAtFailure (addKernel decode m pull iw).
Proof.
  unfold addKernel.
  destruct (negb (String.eqb (KernelConfig.Image (Kernel m)) "")); [|constructor].
  apply stops_perform.
  - intros [out|err]; simpl; [discriminate | intros _; unfold fatal; eauto].
  - intros [out|err]; simpl; [intros _ | discriminate].
    apply stops_lift. intros [[kernel ktar]|err]; [|constructor].
    apply stops_lift. intros iw1. constructor.
Qed.

Lemma stops_addFiles (m : Moby) (iw : tar.Writer) : stopsAtFailure (addFiles decode m iw).
Proof.
  unfold addFiles. apply stops_perform.
  - intros [buffer|err]; simpl; [discriminate | intros _; unfold fatal; eauto].
  - intros [buffer|err]; simpl; [intros _ | discriminate].
    apply stops_lift. intros iw1. destruct (tar.Close iw1); constructor.
Qed.

Lemma stops_buildInternal (m : Moby) (pull : bool) :
  stopsAtFailure (buildInternal decode m pull).
Proof.
  unfold buildInternal.
  apply stops_bind; [apply stops_pullKernel | intros _].
  apply stops_bind; [apply stops_addKernel | intros iw1].
  apply stops_bind; [apply stops_initLoop | intros iw2].
  apply stops_bind; [apply stops_onbootLoop | intros iw3].
  apply stops_bind; [apply stops_servicesLoop | intros iw4].
  apply stops_addFiles.
Qed.

End AbortFacts.

Section StepFacts.

Variable decode : string -> tar.Stream.
Variable h : handler.
Variable m : Moby.
Variable pull : bool.

Lemma run_bind_cong {A B : Type} (m1 m2 : M A) (f1 f2 : A -> M B) :
  run h m1 = run h m2 ->
  (forall a, run h (f1 a) = run h (f2 a)) ->
  run h (bind m1 f1) = run h (bind m2 f2).
Proof.
  intros Hm Hf. unfold bind. rewrite !run_bindProg, Hm.
  destruct (snd (run h m2)) as [a|msg]; [now rewrite Hf | reflexivity].
Qed.

Lemma run_bind_assoc {A B C : Type} (p : M A) (f : A -> M B) (g : B -> M C) :
  run h (bind (bind p f) g) = run h (bind p (fun a => bind (f a) g)).
Proof.
  unfold bind. rewrite !run_bindProg.
  destruct (run h p) as [t [a|msg]]; cbn [fst snd].
  - rewrite run_bindProg. cbn [fst snd]. now rewrite app_assoc.
  - simpl. now rewrite !app_nil_r.
Qed.

Lemma runSteps_app {C : Type} (ss1 ss2 : list (tar.Writer -> M tar.Writer))
    (iw : tar.Writer) (k : tar.Writer -> M C) :
  run h (iw' <- runSteps (ss1 ++ ss2) iw ;; k iw') =
  run h (iw1 <- runSteps ss1 iw ;; iw' <- runSteps ss2 iw1 ;; k iw').
Proof.
  revert iw. induction ss1 as [|s ss1 IH]; intros iw; [reflexivity|].
  cbn [app runSteps]. rewrite !run_bind_assoc.
  apply run_bind_cong; [reflexivity|]. intros iw1. apply IH.
Qed.

Lemma initLoop_steps {C : Type} (inits : list string) (iw : tar.Writer)
    (k : tar.Writer -> M C) :
  run h (iw' <- initLoop decode m pull inits iw ;; k iw') =
  run h (iw' <- runSteps (map (fun ii iw => initLoop decode m pull [ii] iw) inits) iw ;;
         k iw').
Proof.
  revert iw. induction inits as [|ii rest IH]; intros iw; [reflexivity|].
  cbn [map runSteps]. rewrite (run_bind_assoc (initLoop decode m pull [ii] iw)).
  cbn [initLoop]. rewrite !run_bind_assoc, !run_perform.
  destruct (h _ (ImageExtract ii "" (enforceContentTrust ii (Trust m)) pull))
    as [init|err]; [|reflexivity].
  destruct (initrdAppend decode iw (Raw init)) as [iw1|msg]; [|reflexivity].
  exact (f_equal (fun r => (Event (ImageExtract ii "" (enforceContentTrust ii (Trust m)) pull)
                                  (Ok init) :: fst r, snd r)) (IH iw1)).
Qed.

(** One bundle followed by [k1] is one bundle, then [k1]. *)
Lemma bundle_steps {C : Type} (path : string) (image : MobyImage.t) (iw : tar.Writer)
    (k1 : tar.Writer -> M tar.Writer) (k : tar.Writer -> M C) :
  run h (iw' <- (config <- perform (ConfigToOCI image) ;;
                 match config with
                 | Err err =>
                     fatal ("Failed to create config.json for "
                              ++ MobyImage.Image image ++ ": " ++ err)
                 | Ok config =>
                     out <- perform (ImageBundle path (MobyImage.Image image) config
                                       (enforceContentTrust (MobyImage.Image image) (Trust m))
                                       pull) ;;
                     match out with
                     | Err err =>
                         fatal ("Failed to extract root filesystem for "
                                  ++ MobyImage.Image image ++ ": " ++ err)
                     | Ok out =>
                         iw <- lift (initrdAppend decode iw (Raw out)) ;;
                         k1 iw
                     end
                 end) ;;
         k iw') =
  run h (iw1 <- (config <- perform (ConfigToOCI image) ;;
                 match config with
                 | Err err =>
                     fatal ("Failed to create config.json for "
                              ++ MobyImage.Image image ++ ": " ++ err)
                 | Ok config =>
                     out <- perform (ImageBundle path (MobyImage.Image image) config
                                       (enforceContentTrust (MobyImage.Image image) (Trust m))
                                       pull) ;;
                     match out with
                     | Err err =>
                         fatal ("Failed to extract root filesystem for "
                                  ++ MobyImage.Image image ++ ": " ++ err)
                     | Ok out =>
                         iw <- lift (initrdAppend decode iw (Raw out)) ;;
                         ret iw
                     end
                 end) ;;
         iw' <- k1 iw1 ;; k iw').
Proof.
  rewrite !run_bind_assoc, !run_perform.
  destruct (h _ (ConfigToOCI image)) as [config|err]; [|reflexivity].
  rewrite !run_bind_assoc, !run_perform.
  destruct (h _ (ImageBundle path (MobyImage.Image image) config
                   (enforceContentTrust (MobyImage.Image image) (Trust m)) pull))
    as [out|err]; [|reflexivity].
  destruct (initrdAppend decode iw (Raw out)) as [iw1|msg]; reflexivity.
Qed.

Lemma onbootLoop_steps {C : Type} (images : list MobyImage.t) (i : nat) (iw : tar.Writer)
    (k : tar.Writer -> M C) :
  run h (iw' <- onbootLoop decode m pull i images iw ;; k iw') =
  run h (iw' <- runSteps (map (fun p iw => onbootLoop decode m pull (fst p) [snd p] iw)
                              (indexedFrom i images)) iw ;;
         k iw').
Proof.
  revert i iw. induction images as [|image rest IH]; intros i iw; [reflexivity|].
  cbn [indexedFrom map runSteps fst snd].
  rewrite (run_bind_assoc (onbootLoop decode m pull i [image] iw)).
  cbn [onbootLoop]. rewrite bundle_steps.
  apply run_bind_cong; [reflexivity|]. intros iw1. apply IH.
Qed.

Lemma servicesLoop_steps {C : Type} (images : list MobyImage.t) (iw : tar.Writer)
    (k : tar.Writer -> M C) :
  run h (iw' <- servicesLoop decode m pull images iw ;; k iw') =
  run h (iw' <- runSteps (map (fun image iw => servicesLoop decode m pull [image] iw)
                              images) iw ;;
         k iw').
Proof.
  revert iw. induction images as [|image rest IH]; intros iw; [reflexivity|].
  cbn [map runSteps].
  rewrite (run_bind_assoc (servicesLoop decode m pull [image] iw)).
  cbn [servicesLoop]. rewrite bundle_steps.
  apply run_bind_cong; [reflexivity|]. intros iw1. apply IH.
Qed.

(** The build is its steps, then the files and the close. *)
Lemma build_steps :
  run h (buildInternal decode m pull) =
  run h (iw <- runSteps (steps decode m pull) tar.NewWriter ;; addFiles decode m iw).
Proof.
  unfold steps, buildInternal.
  rewrite runSteps_app. cbn [runSteps].
  rewrite !run_bind_assoc.
  apply run_bind_cong; [reflexivity|]. intros _.
  change (run h (iw <- addKernel decode m pull tar.NewWriter ;;
                 iw0 <- initLoop decode m pull (Init m) iw ;;
                 iw1 <- onbootLoop decode m pull 0 (Onboot m) iw0 ;;
                 iw2 <- servicesLoop decode m pull (Services m) iw1 ;;
                 addFiles decode m iw2) =
          run h (x <- (iw' <- addKernel decode m pull tar.NewWriter ;; ret iw') ;;
                 iw' <- runSteps
                   (map (fun ii iw => initLoop decode m pull [ii] iw) (Init m)
                    ++ map (fun p iw => onbootLoop decode m pull (fst p) [snd p] iw)
                         (indexedFrom 0 (Onboot m))
                    ++ map (fun image iw => servicesLoop decode m pull [image] iw)
                         (Services m))%list x ;;
                 addFiles decode m iw')).
  rewrite run_bind_assoc.
  apply run_bind_cong; [reflexivity|]. intros iw1.
  change (run h (iw0 <- initLoop decode m pull (Init m) iw1 ;;
                 iw2 <- onbootLoop decode m pull 0 (Onboot m) iw0 ;;
                 iw3 <- servicesLoop decode m pull (Services m) iw2 ;;
                 addFiles decode m iw3) =
          run h (iw' <- runSteps
                   (map (fun ii iw => initLoop decode m pull [ii] iw) (Init m)
                    ++ map (fun p iw => onbootLoop decode m pull (fst p) [snd p] iw)
                         (indexedFrom 0 (Onboot m))
                    ++ map (fun image iw => servicesLoop decode m pull [image] iw)
                         (Services m))%list iw1 ;;
                 addFiles decode m iw')).
  rewrite runSteps_app, initLoop_steps.
  apply run_bind_cong; [reflexivity|]. intros iw2.
  rewrite runSteps_app, onbootLoop_steps.
  apply run_bind_cong; [reflexivity|]. intros iw3.
  apply servicesLoop_steps.
Qed.

End StepFacts.

(** A run of steps that ends fatally: the first step that does. *)
Lemma runSteps_fatal_inv (h : handler) (ss : list (tar.Writer -> M tar.Writer))
    (iw : tar.Writer) (t : list event) (msg : string) :
  run h (runSteps ss iw) = (t, Fatal msg) ->
  exists before s after t1 iw1 t2,
    ss = (before ++ s :: after)%list /\
    run h (runSteps before iw) = (t1, Returns iw1) /\
    run h (s iw1) = (t2, Fatal msg) /\
    t = (t1 ++ t2)%list.
Proof.
  revert iw t. induction ss as [|s rest IH]; intros iw t; [discriminate|].
  cbn [runSteps]. destruct (run h (s iw)) as [t0 [iw0|m0]] eqn:Hs.
  - rewrite (run_bind_returns h _ _ _ _ Hs).
    destruct (run h (runSteps rest iw0)) as [t' o'] eqn:Hr. cbn [fst snd].
    intros [= <- ->].
    destruct (IH _ _ Hr) as (before & s' & after & t1 & iw1 & t2 & -> & Hb & Hs' & ->).
    exists (s :: before), s', after, (t0 ++ t1)%list, iw1, t2.
    split; [reflexivity|]. split; [|split; [exact Hs' | now rewrite app_assoc]].
    cbn [runSteps]. rewrite (run_bind_returns h _ _ _ _ Hs), Hb. reflexivity.
  - rewrite (run_bind_fatal h _ _ _ _ Hs). intros [= <- <-].
    exists [], s, rest, [], iw, t0. repeat split. exact Hs.
Qed.

(** C8: the first error ends the build.  The build is a sequence of
    steps: the pull of the kernel image, the kernel, one step per init
    image, per onboot container and per service, and at the end the files
    with the close of the archive.  A failed call is the last call and
    the process has ended.  When a step ends fatally, the build ends with
    the same fatal message and its calls are those made so far: no later
    step runs, nothing more is appended, the archive is never closed; and
    a build that ends fatally does so at its first step that does.  Every
    step is given exactly: it ends fatally when its call fails, when the
    kernel splitter ends fatally or returns an error, when an append (of
    the boot tarball, of the filesystem tar of the kernel, of an init
    fragment, of the bundle of an onboot container or of a service, of
    the files) ends fatally, and when the close of the archive fails;
    otherwise it returns the archive writer after its appends.  The build
    returns only when every step returned and no call failed, and what it
    returns is the archive that the close gave. *)
Theorem first_error_aborts (decode : string -> tar.Stream) (h : handler)
    (m : Moby) (pull : bool) :
  let image := KernelConfig.Image (Kernel m) in
  let trust := fun image => enforceContentTrust image (Trust m) in
  (forall before ev after,
     trace h (buildInternal decode m pull) = (before ++ ev :: after)%list ->
     failed ev = true ->
     after = [] /\ exists msg, outcomeOf h (buildInternal decode m pull) = Fatal msg) /\
  (forall before s after t1 iw t2 msg,
     steps decode m pull = (before ++ s :: after)%list ->
     run h (runSteps before tar.NewWriter) = (t1, Returns iw) ->
     run h (s iw) = (t2, Fatal msg) ->
     run h (buildInternal decode m pull) = ((t1 ++ t2)%list, Fatal msg)) /\
  (forall t1 iw t2 msg,
     run h (runSteps (steps decode m pull) tar.NewWriter) = (t1, Returns iw) ->
     run h (addFiles decode m iw) = (t2, Fatal msg) ->
     run h (buildInternal decode m pull) = ((t1 ++ t2)%list, Fatal msg)) /\
  (forall msg,
     outcomeOf h (buildInternal decode m pull) = Fatal msg ->
     (exists before s after t1 iw t2,
        steps decode m pull = (before ++ s :: after)%list /\
        run h (runSteps before tar.NewWriter) = (t1, Returns iw) /\
        run h (s iw) = (t2, Fatal msg) /\
        trace h (buildInternal decode m pull) = (t1 ++ t2)%list) \/
     (exists t1 iw t2,
        run h (runSteps (steps decode m pull) tar.NewWriter) = (t1, Returns iw) /\
        run h (addFiles decode m iw) = (t2, Fatal msg) /\
        trace h (buildInternal decode m pull) = (t1 ++ t2)%list)) /\
  (forall out,
     outcomeOf h (buildInternal decode m pull) = Returns out ->
     Forall (fun ev => failed ev = false) (trace h (buildInternal decode m pull)) /\
     exists t1 iw t2,
       run h (runSteps (steps decode m pull) tar.NewWriter) = (t1, Returns iw) /\
       run h (addFiles decode m iw) = (t2, Returns out) /\
       trace h (buildInternal decode m pull) = (t1 ++ t2)%list) /\
  (forall iw : tar.Writer,
     run h (_ <- pullKernel m pull ;; ret iw) =
     if pull || trust image
     then ([Event (dockerPull image (trust image)) (h _ (dockerPull image (trust image)))],
           match h _ (dockerPull image (trust image)) with
           | Some err => Fatal ("Could not pull image " ++ image ++ ": " ++ err)
           | None => Returns iw
           end)
     else ([], Returns iw)) /\
  (forall iw,
     run h (addKernel decode m pull iw) =
     if String.eqb image "" then ([], Returns iw)
     else
       ([Event (ImageExtract image "" (trust image) pull)
               (h _ (ImageExtract image "" (trust image) pull))],
        match h _ (ImageExtract image "" (trust image) pull) with
        | Err err => Fatal ("Failed to extract kernel image and tarball: " ++ err)
        | Ok out =>
            match untarKernel decode (Raw out) kernelName kernelAltName ktarName
                    (KernelConfig.Cmdline (Kernel m)) with
            | Fatal msg => Fatal msg
            | Returns (Err err) =>
                Fatal ("Could not extract kernel image and filesystem from tarball. "
                         ++ err)
            | Returns (Ok (kernel, ktar)) =>
                match initrdAppend decode iw kernel with
                | Fatal msg => Fatal msg
                | Returns iw1 => initrdAppend decode iw1 ktar
                end
            end
        end)) /\
  (forall ii iw,
     run h (initLoop decode m pull [ii] iw) =
     ([Event (ImageExtract ii "" (trust ii) pull) (h _ (ImageExtract ii "" (trust ii) pull))],
      match h _ (ImageExtract ii "" (trust ii) pull) with
      | Err err => Fatal ("Failed to build init tarball from " ++ ii ++ ": " ++ err)
      | Ok init => initrdAppend decode iw (Raw init)
      end)) /\
  (forall i image iw,
     run h (onbootLoop decode m pull i [image] iw) =
     match h _ (ConfigToOCI image) with
     | Err err =>
         ([Event (ConfigToOCI image) (Err err)],
          Fatal ("Failed to create config.json for " ++ MobyImage.Image image ++ ": " ++ err))
     | Ok config =>
         let bundle := ImageBundle (onbootPath i image) (MobyImage.Image image) config
                         (trust (MobyImage.Image image)) pull in
         ([Event (ConfigToOCI image) (Ok config); Event bundle (h _ bundle)],
          match h _ bundle with
          | Err err =>
              Fatal ("Failed to extract root filesystem for "
                       ++ MobyImage.Image image ++ ": " ++ err)
          | Ok out => initrdAppend decode iw (Raw out)
          end)
     end) /\
  (forall image iw,
     run h (servicesLoop decode m pull [image] iw) =
     match h _ (ConfigToOCI image) with
     | Err err =>
         ([Event (ConfigToOCI image) (Err err)],
          Fatal ("Failed to create config.json for " ++ MobyImage.Image image ++ ": " ++ err))
     | Ok config =>
         let bundle := ImageBundle (servicePath image) (MobyImage.Image image) config
                         (trust (MobyImage.Image image)) pull in
         ([Event (ConfigToOCI image) (Ok config); Event bundle (h _ bundle)],
          match h _ bundle with
          | Err err =>
              Fatal ("Failed to extract root filesystem for "
                       ++ MobyImage.Image image ++ ": " ++ err)
          | Ok out => initrdAppend decode iw (Raw out)
          end)
     end) /\
  (forall iw,
     run h (addFiles decode m iw) =
     ([Event (filesystem m) (h _ (filesystem m))],
      match h _ (filesystem m) with
      | Err err => Fatal ("failed to add filesystem parts: " ++ err)
      | Ok buffer =>
          match initrdAppend decode iw (Raw buffer) with
          | Fatal msg => Fatal msg
          | Returns iw' =>
              match tar.Close iw' with
              | Err err => Fatal ("initrd close error: " ++ err)
              | Ok es => Returns (Archive es)
              end
          end
      end)).
Proof.
  cbv zeta.
  assert (HA : forall before ev after,
     trace h (buildInternal decode m pull) = (before ++ ev :: after)%list ->
     failed ev = true ->
     after = [] /\ exists msg, outcomeOf h (buildInternal decode m pull) = Fatal msg).
  { intros before ev after. apply (stops_run h _ (stops_buildInternal decode m pull)). }
  assert (Hsplit : forall o,
     outcomeOf h (buildInternal decode m pull) = o ->
     (exists t1 iw t2,
        run h (runSteps (steps decode m pull) tar.NewWriter) = (t1, Returns iw) /\
        run h (addFiles decode m iw) = (t2, o) /\
        trace h (buildInternal decode m pull) = (t1 ++ t2)%list) \/
     (exists t1 msg,
        run h (runSteps (steps decode m pull) tar.NewWriter) = (t1, Fatal msg) /\
        o = Fatal msg /\ trace h (buildInternal decode m pull) = t1)).
  { intros o. unfold outcomeOf, trace. rewrite build_steps.
    destruct (run h (runSteps (steps decode m pull) tar.NewWriter)) as [t1 [iw|msg]] eqn:Hs.
    - rewrite (run_bind_returns h _ _ _ _ Hs). cbn [fst snd]. intros <-.
      left. exists t1, iw, (fst (run h (addFiles decode m iw))).
      split; [reflexivity|]. split; [|reflexivity].
      now destruct (run h (addFiles decode m iw)).
    - rewrite (run_bind_fatal h _ _ _ _ Hs). cbn [fst snd]. intros <-.
      right. exists t1, msg. auto. }
  repeat apply conj.
  - exact HA.
  - intros before s after t1 iw t2 msg Hsteps Hbefore Hs.
    rewrite build_steps, Hsteps, runSteps_app.
    rewrite (run_bind_returns h _ _ _ _ Hbefore). cbn [runSteps].
    rewrite (run_bind_fatal h _ _ _ _ (run_bind_fatal h _ _ _ _ Hs)). reflexivity.
  - intros t1 iw t2 msg Hsteps Hfiles.
    rewrite build_steps, (run_bind_returns h _ _ _ _ Hsteps), Hfiles. reflexivity.
  - intros msg Hout.
    destruct (Hsplit _ Hout) as [(t1 & iw & t2 & H1 & H2 & H3)
                                | (t1 & msg' & H1 & [= <-] & H3)].
    + right. exists t1, iw, t2. auto.
    + left. apply runSteps_fatal_inv in H1
        as (before & s & after & t0 & iw & t2 & E & Hb & Hs & ->).
      exists before, s, after, t0, iw, t2. auto.
  - intros out Hout. split.
    + apply Forall_forall. intros ev Hin.
      destruct (in_split _ _ Hin) as (before & after & Ht).
      destruct (failed ev) eqn:Hf; [|reflexivity].
      destruct (HA _ _ _ Ht Hf) as [_ [msg Hm]]. congruence.
    + destruct (Hsplit _ Hout) as [(t1 & iw & t2 & H1 & H2 & H3)
                                  | (t1 & msg' & _ & [=] & _)].
      exists t1, iw, t2. auto.
  - intros iw. unfold pullKernel.
    destruct (pull || enforceContentTrust _ _); [|reflexivity].
    rewrite run_bind_assoc, run_perform.
    now destruct (h _ (dockerPull _ _)).
  - intros iw. unfold addKernel.
    destruct (String.eqb (KernelConfig.Image (Kernel m)) ""); [reflexivity|].
    cbn [negb]. rewrite run_perform.
    destruct (h _ (ImageExtract _ _ _ _)) as [out|err]; [|reflexivity].
    rewrite run_lift.
    destruct (untarKernel decode (Raw out) kernelName kernelAltName ktarName
                (KernelConfig.Cmdline (Kernel m))) as [[[kernel ktar]|err]|msg];
      [|reflexivity|reflexivity].
    rewrite run_lift.
    destruct (initrdAppend decode iw kernel) as [iw1|msg]; [|reflexivity].
    cbn [fst snd]. unfold lift. cbn [run].
    now destruct (initrdAppend decode iw1 ktar).
  - intros ii iw. cbn [initLoop]. rewrite run_perform.
    destruct (h _ (ImageExtract _ _ _ _)) as [init|err]; [|reflexivity].
    rewrite run_lift. now destruct (initrdAppend decode iw (Raw init)).
  - intros i image iw. cbn [onbootLoop]. rewrite run_perform.
    destruct (h _ (ConfigToOCI image)) as [config|err]; [|reflexivity].
    rewrite run_perform.
    destruct (h _ (ImageBundle _ _ _ _ _)) as [out|err]; [|reflexivity].
    rewrite run_lift. now destruct (initrdAppend decode iw (Raw out)).
  - intros image iw. cbn [servicesLoop]. rewrite run_perform.
    destruct (h _ (ConfigToOCI image)) as [config|err]; [|reflexivity].
    rewrite run_perform.
    destruct (h _ (ImageBundle _ _ _ _ _)) as [out|err]; [|reflexivity].
    rewrite run_lift. now destruct (initrdAppend decode iw (Raw out)).
  - intros iw. unfold addFiles. rewrite run_perform.
    destruct (h _ (filesystem m)) as [buffer|err]; [|reflexivity].
    rewrite run_lift.
    destruct (initrdAppend decode iw (Raw buffer)) as [iw1|msg]; [|reflexivity].
    now destruct (tar.Close iw1).
Qed.

Lemma first_error_aborts_witness :
  outcomeOf (brokenBundle "linuxkit/dhcpcd:1") (buildInternal Demo.decode Demo.spec false)
  = Fatal "unexpected EOF" /\
  bundleCalls (trace (brokenBundle "linuxkit/dhcpcd:1")
                 (buildInternal Demo.decode Demo.spec false))
  = [("containers/onboot/000-sysctl", "linuxkit/sysctl:1");
     ("containers/onboot/001-dhcpcd", "linuxkit/dhcpcd:1")].
Proof.
  destruct (first_error_aborts Demo.decode (brokenBundle "linuxkit/dhcpcd:1")
              Demo.spec false) as (_ & H & _).
  pose proof (H (firstn 5 (steps Demo.decode Demo.spec false))
                (fun iw => onbootLoop Demo.decode Demo.spec false 1
                             [MobyImage.mk "dhcpcd" "linuxkit/dhcpcd:1"] iw)
                (skipn 6 (steps Demo.decode Demo.spec false))
                _ _ _ _ eq_refl eq_refl eq_refl) as E.
  unfold outcomeOf, trace. rewrite E. split; reflexivity.
Defined.

(* ================================================================= *)
(** * Further properties *)

(* ================================================================= *)
(** ** Sizes *)

Section SizeFacts.

Lemma length_append (a b : string) :
  String.length (a ++ b) = (String.length a + String.length b)%nat.
Proof. induction a as [|c a IH]; simpl; [reflexivity|]. now rewrite IH. Qed.

Lemma HasSuffix_app (s suffix : string) : HasSuffix (s ++ suffix) suffix = true.
Proof.
  unfold HasSuffix. rewrite length_append.
  replace (String.length s + String.length suffix - String.length suffix)%nat
    with (String.length s) by lia.
  rewrite drop_app, String.eqb_refl, andb_true_r. apply Nat.leb_le. lia.
Qed.

Lemma HasSuffix_last (s : string) (c d : ascii) :
  HasSuffix (s ++ String c "") (String d "") = Ascii.eqb c d.
Proof.
  unfold HasSuffix. rewrite length_append. simpl String.length.
  replace (String.length s + 1 - 1)%nat with (String.length s) by lia.
  rewrite drop_app.
  replace (1 <=? String.length s + 1)%nat with true
    by (symmetry; apply Nat.leb_le; lia).
  simpl. destruct (Ascii.eqb c d); reflexivity.
Qed.

Lemma take_all_but_last (s : string) (c : ascii) :
  take (String.length (s ++ String c "") - 1) (s ++ String c "") = s.
Proof.
  rewrite length_append. simpl String.length.
  replace (String.length s + 1 - 1)%nat with (String.length s) by lia.
  apply take_app.
Qed.

Lemma append_nonempty (s : string) (c : ascii) : String.eqb (s ++ String c "") "" = false.
Proof. destruct s; reflexivity. Qed.

Lemma uint_of_char_digit (c : ascii) (d : Decimal.uint) :
  uint_of_char c (Some d) <> None <-> isDigit c = true.
Proof.
  destruct c as [[|] [|] [|] [|] [|] [|] [|] [|]]; cbv; split; congruence.
Qed.

Lemma digit_no_sign (c : ascii) :
  isDigit c = true -> Ascii.eqb c "+" = false /\ Ascii.eqb c "-" = false.
Proof.
  destruct c as [[|] [|] [|] [|] [|] [|] [|] [|]]; cbv; intros; split;
    try reflexivity; discriminate.
Qed.

Lemma digit_value (c : ascii) : isDigit c = true -> (N_of_ascii c - 48 <= 9)%N.
Proof.
  unfold isDigit. intros H. apply andb_prop in H as [H1 H2].
  apply N.leb_le in H1, H2. lia.
Qed.

(** A digit character in front of digits: the value of the whole. *)
Lemma uint_of_char_value (c : ascii) (d' d : Decimal.uint) :
  uint_of_char c (Some d') = Some d ->
  isDigit c = true /\
  forall acc, valAcc d acc = valAcc d' (acc * 10 + (N_of_ascii c - 48))%N.
Proof.
  destruct c as [[|] [|] [|] [|] [|] [|] [|] [|]]; simpl; try discriminate;
    intros [= <-]; (split; [reflexivity|]); intros acc; cbn [valAcc];
    rewrite ?N.add_0_r; reflexivity.
Qed.

(** A string with a character that is no digit is no number. *)
Lemma uint_of_string_bad (pre post : string) (c : ascii) :
  isDigit c = false -> NilEmpty.uint_of_string (pre ++ String c post) = None.
Proof.
  intros Hc. induction pre as [|a pre IH]; simpl.
  - destruct (NilEmpty.uint_of_string post) as [d|]; [|reflexivity].
    destruct (uint_of_char c (Some d)) eqn:E; [|reflexivity].
    assert (H : uint_of_char c (Some d) <> None) by congruence.
    apply uint_of_char_digit in H. congruence.
  - now rewrite IH.
Qed.

Lemma valAcc_ge (d : Decimal.uint) (acc : N) : (acc <= valAcc d acc)%N.
Proof.
  revert acc. induction d as [|d IH|d IH|d IH|d IH|d IH|d IH|d IH|d IH|d IH|d IH];
    intros acc; cbn [valAcc]; [lia| | | | | | | | | |];
    match goal with |- (_ <= valAcc d ?x)%N => specialize (IH x) end; lia.
Qed.

Lemma valAcc_pos (d : Decimal.uint) (p : positive) :
  valAcc d (N.pos p) = N.pos (Pos.of_uint_acc d p).
Proof.
  revert p. induction d as [|d IH|d IH|d IH|d IH|d IH|d IH|d IH|d IH|d IH|d IH];
    intros p; cbn [valAcc Pos.of_uint_acc]; [reflexivity| | | | | | | | | |];
    rewrite <- IH; f_equal; lia.
Qed.

(** The value of digits is the number they write. *)
Lemma valAcc_of_uint (d : Decimal.uint) : valAcc d 0 = N.of_uint d.
Proof.
  unfold N.of_uint.
  induction d as [|d IH|d IH|d IH|d IH|d IH|d IH|d IH|d IH|d IH|d IH];
    cbn [valAcc Pos.of_uint]; [reflexivity | exact IH | | | | | | | | |];
    apply valAcc_pos.
Qed.

(** The loop of [ParseUint] on digits that fit in 64 bits. *)
Lemma parseDigits_value (s : string) (d : Decimal.uint) (acc : N) :
  NilEmpty.uint_of_string s = Some d ->
  (valAcc d acc <= strconv.maxUint64)%N ->
  strconv.parseDigits s acc = (valAcc d acc, None).
Proof.
  revert d acc. induction s as [|c rest IH]; intros d acc Hd Hle.
  - injection Hd as <-. reflexivity.
  - simpl in Hd. destruct (NilEmpty.uint_of_string rest) as [d'|]; [|discriminate].
    destruct (uint_of_char_value c d' d Hd) as [Hc Hv].
    rewrite Hv in Hle |- *. cbn [strconv.parseDigits]. rewrite Hc.
    pose proof (valAcc_ge d' (acc * 10 + (N_of_ascii c - 48))) as Hge.
    change (strconv.maxUint64 / 10 + 1)%N with 1844674407370955162%N.
    unfold strconv.maxUint64 in *.
    destruct (N.leb_spec 1844674407370955162 acc) as [H|_]; [lia|].
    destruct (N.ltb_spec 18446744073709551615 (acc * 10 + (N_of_ascii c - 48)))
      as [H|_]; [lia|].
    now apply IH.
Qed.

(** The loop of [ParseUint] on digits that overflow 64 bits: what comes
    after them is not looked at. *)
Lemma parseDigits_overflow (s post : string) (d : Decimal.uint) (acc : N) :
  NilEmpty.uint_of_string s = Some d ->
  (acc <= strconv.maxUint64)%N ->
  (strconv.maxUint64 < valAcc d acc)%N ->
  strconv.parseDigits (s ++ post) acc = (strconv.maxUint64, Some strconv.ErrRange).
Proof.
  revert d acc. induction s as [|c rest IH]; intros d acc Hd Hacc Hgt.
  - injection Hd as <-. cbn [valAcc] in Hgt. lia.
  - simpl in Hd. destruct (NilEmpty.uint_of_string rest) as [d'|]; [|discriminate].
    destruct (uint_of_char_value c d' d Hd) as [Hc Hv].
    rewrite Hv in Hgt. cbn [append strconv.parseDigits]. rewrite Hc.
    destruct (N.leb_spec (strconv.maxUint64 / 10 + 1) acc) as [_|_]; [reflexivity|].
    destruct (N.ltb_spec strconv.maxUint64 (acc * 10 + (N_of_ascii c - 48)))
      as [_|H]; [reflexivity|].
    now apply (IH d').
Qed.

(** The loop of [ParseUint] at a character that is no digit, reached
    before the digits can overflow. *)
Lemma parseDigits_bad (pre post : string) (c : ascii) (acc : N) (j : nat) :
  isDigit c = false ->
  (acc < 10 ^ N.of_nat j)%N -> (j + String.length pre <= 19)%nat ->
  strconv.parseDigits (pre ++ String c post) acc = (0%N, Some strconv.ErrSyntax).
Proof.
  intros Hc. revert acc j. induction pre as [|a pre IH]; intros acc j Hacc Hj.
  - cbn [append strconv.parseDigits]. now rewrite Hc.
  - cbn [append strconv.parseDigits]. destruct (isDigit a) eqn:Ha; [|reflexivity].
    pose proof (digit_value a Ha) as Hv. cbn [String.length] in Hj.
    assert (H18 : (10 ^ N.of_nat j <= 10 ^ 18)%N)
      by (apply N.pow_le_mono_r; lia).
    assert (HS : (10 ^ N.of_nat (S j) = 10 * 10 ^ N.of_nat j)%N)
      by (replace (N.of_nat (S j)) with (N.succ (N.of_nat j)) by lia;
          apply N.pow_succ_r').
    change (10 ^ 18)%N with 1000000000000000000%N in H18.
    change (strconv.maxUint64 / 10 + 1)%N with 1844674407370955162%N.
    unfold strconv.maxUint64.
    destruct (N.leb_spec 1844674407370955162 acc) as [H|_]; [lia|].
    destruct (N.ltb_spec 18446744073709551615 (acc * 10 + (N_of_ascii a - 48)))
      as [H|_]; [lia|].
    apply (IH _ (S j)); lia.
Qed.

Lemma first_is_digit (c : ascii) (rest : string) (d : Decimal.uint) :
  NilEmpty.uint_of_string (String c rest) = Some d -> isDigit c = true.
Proof.
  simpl. destruct (NilEmpty.uint_of_string rest) as [d'|]; [|discriminate].
  intros H. apply (uint_of_char_value c d' d H).
Qed.

Lemma Atoi_unsigned (s : string) (d : Decimal.uint) :
  NilEmpty.uint_of_string s = Some d -> s <> "" ->
  (Z.of_N (N.of_uint d) <= strconv.maxInt)%Z ->
  strconv.Atoi s = (Z.of_N (N.of_uint d), None).
Proof.
  intros Hd Hs Hle. destruct s as [|c rest]; [congruence|].
  destruct (digit_no_sign c (first_is_digit c rest d Hd)) as [Hp Hm].
  unfold strconv.Atoi, strconv.ParseInt.
  replace (String.eqb (String c rest) "") with false by reflexivity.
  rewrite Hp, Hm. cbn [fst snd]. unfold strconv.ParseUint.
  replace (String.eqb (String c rest) "") with false by reflexivity.
  unfold strconv.maxInt in Hle.
  rewrite (parseDigits_value _ d 0 Hd), valAcc_of_uint
    by (rewrite valAcc_of_uint; unfold strconv.maxUint64; lia).
  cbn [negb andb].
  destruct (N.leb_spec 9223372036854775808 (N.of_uint d)) as [H|_]; [lia|].
  reflexivity.
Qed.

Lemma Atoi_negative (s : string) (d : Decimal.uint) :
  NilEmpty.uint_of_string s = Some d -> s <> "" ->
  (Z.of_N (N.of_uint d) <= - strconv.minInt)%Z ->
  strconv.Atoi (String "-" s) = ((- Z.of_N (N.of_uint d))%Z, None).
Proof.
  intros Hd Hs Hle. unfold strconv.Atoi, strconv.ParseInt.
  replace (String.eqb (String "-" s) "") with false by reflexivity.
  cbn [Ascii.eqb Bool.eqb fst snd]. unfold strconv.ParseUint.
  apply String.eqb_neq in Hs. rewrite Hs.
  unfold strconv.minInt in Hle.
  rewrite (parseDigits_value _ d 0 Hd), valAcc_of_uint
    by (rewrite valAcc_of_uint; unfold strconv.maxUint64; lia).
  cbn [negb andb].
  destruct (N.ltb_spec 9223372036854775808 (N.of_uint d)) as [H|_]; [lia|].
  reflexivity.
Qed.

Lemma to_uint_nonnil (n : N) : N.to_uint n <> Decimal.Nil.
Proof.
  rewrite <- (DecimalN.Unsigned.of_to n) at 1.
  rewrite DecimalN.Unsigned.to_of. apply DecimalFacts.unorm_nonnil.
Qed.

Lemma FormatN_parse (n : N) :
  NilEmpty.uint_of_string (FormatN n) = Some (N.to_uint n) /\ FormatN n <> "".
Proof.
  unfold FormatN, NilZero.string_of_uint.
  pose proof (to_uint_nonnil n) as Hn.
  destruct (N.to_uint n) eqn:E; try congruence;
    (split; [rewrite <- E at 2; rewrite E; apply NilEmpty.usu | discriminate]).
Qed.

(** The digits of a number in the range of [int] are read back as it. *)
Lemma Atoi_FormatN (n : N) :
  (Z.of_N n <= strconv.maxInt)%Z -> strconv.Atoi (FormatN n) = (Z.of_N n, None).
Proof.
  intros Hn. destruct (FormatN_parse n) as [Hp Hne].
  rewrite (Atoi_unsigned _ _ Hp Hne); rewrite DecimalN.Unsigned.of_to; auto.
Qed.

Lemma Atoi_minus_FormatN (n : N) :
  (Z.of_N n <= - strconv.minInt)%Z ->
  strconv.Atoi (String "-" (FormatN n)) = ((- Z.of_N n)%Z, None).
Proof.
  intros Hn. destruct (FormatN_parse n) as [Hp Hne].
  rewrite (Atoi_negative _ _ Hp Hne); rewrite DecimalN.Unsigned.of_to; auto.
Qed.

(** A character that is no digit, reached before the digits overflow:
    a syntax error. *)
Lemma Atoi_bad (pre post : string) (c : ascii) :
  isDigit c = false ->
  (pre = "" -> Ascii.eqb c "+" = false /\ Ascii.eqb c "-" = false) ->
  (String.length pre <= 19)%nat ->
  strconv.Atoi (pre ++ String c post) =
  (0%Z, Some (strconv.mkNumError "Atoi" (pre ++ String c post) strconv.ErrSyntax)).
Proof.
  intros Hc Hsign Hlen.
  assert (Hbad : forall p, (String.length p <= 19)%nat ->
            strconv.ParseUint (p ++ String c post) = (0%N, Some strconv.ErrSyntax)).
  { intros p Hp. unfold strconv.ParseUint.
    replace (String.eqb (p ++ String c post) "") with false
      by (destruct p; reflexivity).
    apply (parseDigits_bad p post c 0 0 Hc); [reflexivity | exact Hp]. }
  unfold strconv.Atoi, strconv.ParseInt.
  replace (String.eqb (pre ++ String c post) "") with false
    by (destruct pre; reflexivity).
  destruct pre as [|a pre'].
  - destruct (Hsign eq_refl) as [Hp Hm]. cbn [append]. rewrite Hp, Hm.
    cbn [fst snd]. pose proof (Hbad "" Hlen) as Hb. cbn [append] in Hb.
    rewrite Hb. reflexivity.
  - cbn [append]. cbn [String.length] in Hlen.
    destruct (Ascii.eqb a "+"); [|destruct (Ascii.eqb a "-")]; cbn [fst snd].
    + rewrite (Hbad pre') by lia. reflexivity.
    + rewrite (Hbad pre') by lia. reflexivity.
    + assert (Hb : strconv.ParseUint (String a pre' ++ String c post)
                   = (0%N, Some strconv.ErrSyntax))
        by (apply Hbad; cbn [String.length]; lia).
      cbn [append] in Hb. rewrite Hb. reflexivity.
Qed.

(** Digits that overflow 64 bits: a range error, whatever follows. *)
Lemma Atoi_overflow (n : N) (tail : string) :
  (strconv.maxUint64 < n)%N ->
  strconv.Atoi (FormatN n ++ tail) =
  (strconv.maxInt,
   Some (strconv.mkNumError "Atoi" (FormatN n ++ tail) strconv.ErrRange)).
Proof.
  intros Hn. destruct (FormatN_parse n) as [Hp Hne].
  destruct (FormatN n) as [|c rest] eqn:E; [congruence|].
  destruct (digit_no_sign c (first_is_digit c rest _ Hp)) as [Hplus Hminus].
  unfold strconv.Atoi, strconv.ParseInt. cbn [append].
  replace (String.eqb (String c (rest ++ tail)) "") with false by reflexivity.
  rewrite Hplus, Hminus. cbn [fst snd]. unfold strconv.ParseUint.
  replace (String.eqb (String c (rest ++ tail)) "") with false by reflexivity.
  change (String c (rest ++ tail)) with (String c rest ++ tail).
  rewrite (parseDigits_overflow _ tail _ 0 Hp).
  - reflexivity.
  - unfold strconv.maxUint64. lia.
  - now rewrite valAcc_of_uint, DecimalN.Unsigned.of_to.
Qed.

End SizeFacts.

Section SizeResults.

Lemma getDiskSizeMB_M (s : string) : getDiskSizeMB (s ++ "M") = strconv.Atoi s.
Proof.
  unfold getDiskSizeMB. rewrite append_nonempty, HasSuffix_last.
  cbn [Ascii.eqb Bool.eqb]. rewrite HasSuffix_app. cbn [andb].
  now rewrite (take_all_but_last s "M").
Qed.

Lemma getDiskSizeMB_G (s : string) :
  getDiskSizeMB (s ++ "G") =
  match strconv.Atoi s with
  | (_, Some err) => (0%Z, Some err)
  | (i, None) => (wrapInt (i * 1024), None)
  end.
Proof.
  unfold getDiskSizeMB. rewrite append_nonempty, HasSuffix_app.
  now rewrite (take_all_but_last s "G").
Qed.

Lemma getDiskSizeMB_plain (s : string) (c : ascii) :
  Ascii.eqb c "G" = false -> Ascii.eqb c "M" = false ->
  getDiskSizeMB (s ++ String c "") = strconv.Atoi (s ++ String c "").
Proof.
  intros HG HM. unfold getDiskSizeMB.
  now rewrite append_nonempty, !HasSuffix_last, HG, HM.
Qed.

Lemma last_char (s : string) : s <> "" -> exists s' c, s = s' ++ String c "".
Proof.
  induction s as [|a s IH]; [congruence|]. intros _.
  destruct s as [|b s].
  - exists "", a. reflexivity.
  - destruct IH as (s' & c & E); [discriminate|]. exists (String a s'), c.
    simpl. now rewrite <- E.
Qed.

Lemma wrapInt_small (z : Z) :
  (strconv.minInt <= z <= strconv.maxInt)%Z -> wrapInt z = z.
Proof.
  unfold strconv.minInt, strconv.maxInt, wrapInt. intros H.
  rewrite Z.mod_small; lia.
Qed.

Lemma wrapInt_range (z : Z) : (strconv.minInt <= wrapInt z <= strconv.maxInt)%Z.
Proof.
  unfold strconv.minInt, strconv.maxInt, wrapInt.
  pose proof (Z.mod_pos_bound (z + 9223372036854775808) 18446744073709551616).
  lia.
Qed.

End SizeResults.

(** X1: the suffixes of a size.  The empty string is size 0.  A
    trailing M is dropped and the rest is read by [strconv.Atoi], with
    its value and its error.  A trailing G is dropped, the rest is read by
    [Atoi], an error gives 0 with that error, and a value is multiplied
    by 1024 in [int] arithmetic.  A string that ends in another character
    is read by [Atoi] as it is. *)
Theorem size_suffixes (s : string) :
  getDiskSizeMB "" = (0%Z, None) /\
  getDiskSizeMB (s ++ "M") = strconv.Atoi s /\
  (forall i, strconv.Atoi s = (i, None) ->
     getDiskSizeMB (s ++ "G") = (wrapInt (i * 1024), None)) /\
  (forall i err, strconv.Atoi s = (i, Some err) ->
     getDiskSizeMB (s ++ "G") = (0%Z, Some err)) /\
  (forall c, Ascii.eqb c "G" = false -> Ascii.eqb c "M" = false ->
     getDiskSizeMB (s ++ String c "") = strconv.Atoi (s ++ String c "")).
Proof.
  repeat apply conj.
  - reflexivity.
  - apply getDiskSizeMB_M.
  - intros i H. now rewrite getDiskSizeMB_G, H.
  - intros i err H. now rewrite getDiskSizeMB_G, H.
  - apply getDiskSizeMB_plain.
Qed.

Lemma size_suffixes_witness :
  getDiskSizeMB "2G" = (2048%Z, None) /\
  getDiskSizeMB "xG" = (0%Z, Some (strconv.mkNumError "Atoi" "x" strconv.ErrSyntax)).
Proof.
  destruct (size_suffixes "2") as (_ & _ & H & _).
  destruct (size_suffixes "x") as (_ & _ & _ & H' & _).
  split; [apply (H 2%Z eq_refl) | apply (H' 0%Z _ eq_refl)].
Defined.

(** X2: sizes written in decimal digits.  For every number n within
    [int], its digits alone and its digits followed by M give n, its
    digits followed by G give n * 1024 when that is within [int], and a
    minus sign before the digits gives the negative size without error. *)
Theorem size_of_digits (n : N) :
  (Z.of_N n <= strconv.maxInt)%Z ->
  getDiskSizeMB (FormatN n) = (Z.of_N n, None) /\
  getDiskSizeMB (FormatN n ++ "M") = (Z.of_N n, None) /\
  ((Z.of_N n * 1024 <= strconv.maxInt)%Z ->
   getDiskSizeMB (FormatN n ++ "G") = ((Z.of_N n * 1024)%Z, None)) /\
  getDiskSizeMB (String "-" (FormatN n) ++ "M") = ((- Z.of_N n)%Z, None).
Proof.
  intros Hn. repeat apply conj.
  - destruct (FormatN_parse n) as [Hp Hne].
    destruct (last_char _ Hne) as (s' & c & E).
    assert (Hc : isDigit c = true).
    { destruct (isDigit c) eqn:Hc; [reflexivity|].
      rewrite E, (uint_of_string_bad s' "" c Hc) in Hp. discriminate. }
    rewrite <- (Atoi_FormatN n Hn). rewrite E. apply getDiskSizeMB_plain.
    + destruct c as [[|] [|] [|] [|] [|] [|] [|] [|]]; try reflexivity; discriminate.
    + destruct c as [[|] [|] [|] [|] [|] [|] [|] [|]]; try reflexivity; discriminate.
  - rewrite getDiskSizeMB_M. now apply Atoi_FormatN.
  - intros Hk. rewrite getDiskSizeMB_G, (Atoi_FormatN n Hn).
    rewrite wrapInt_small; [reflexivity|]. unfold strconv.minInt. lia.
  - rewrite getDiskSizeMB_M. apply Atoi_minus_FormatN.
    unfold strconv.maxInt, strconv.minInt in *. lia.
Qed.

Lemma size_of_digits_witness :
  getDiskSizeMB "1024M" = (1024%Z, None) /\ getDiskSizeMB "512" = (512%Z, None).
Proof.
  assert (H1 : (Z.of_N 1024 <= strconv.maxInt)%Z) by (vm_compute; discriminate).
  assert (H2 : (Z.of_N 512 <= strconv.maxInt)%Z) by (vm_compute; discriminate).
  split.
  - exact (proj1 (proj2 (size_of_digits 1024 H1))).
  - exact (proj1 (size_of_digits 512 H2)).
Defined.

(** X3: no overflow check on the G suffix.  For every number n from 2^53
    up to the largest [int], the digits of n followed by G are accepted
    without error, and the size returned is the product n * 1024 wrapped
    around in 64 bits, smaller than the product. *)
Theorem size_G_wraps (n : N) :
  (9007199254740992 <= Z.of_N n <= strconv.maxInt)%Z ->
  getDiskSizeMB (FormatN n ++ "G") = (wrapInt (Z.of_N n * 1024), None) /\
  (wrapInt (Z.of_N n * 1024) < Z.of_N n * 1024)%Z.
Proof.
  intros [Hlo Hhi]. split.
  - now rewrite getDiskSizeMB_G, (Atoi_FormatN n Hhi).
  - pose proof (wrapInt_range (Z.of_N n * 1024)) as [_ H].
    unfold strconv.maxInt in H. lia.
Qed.

Lemma size_G_wraps_witness :
  getDiskSizeMB "9007199254740992G" = ((-9223372036854775808)%Z, None).
Proof.
  assert (H : (9007199254740992 <= Z.of_N 9007199254740992 <= strconv.maxInt)%Z)
    by (vm_compute; split; discriminate).
  exact (proj1 (size_G_wraps 9007199254740992 H)).
Defined.

(** X4: what is no number.  [Atoi] reads from left to right.  A
    character that is no decimal digit (a sign in first position apart)
    among the first twenty characters, so before the digits can overflow
    64 bits, is refused with a syntax error; so is the size made of the
    string and M or G, the size returned being 0.  Digits that write a
    number beyond 64 bits are refused with a range error and the largest
    [int], whatever follows them, be it no digit: the size made of them
    and M is the largest [int] with that error, and with G it is 0 with
    that error. *)
Theorem size_syntax_error :
  (forall (pre post : string) (c : ascii),
     isDigit c = false ->
     (pre = "" -> Ascii.eqb c "+" = false /\ Ascii.eqb c "-" = false) ->
     (String.length pre <= 19)%nat ->
     let t := pre ++ String c post in
     let err := Some (strconv.mkNumError "Atoi" t strconv.ErrSyntax) in
     strconv.Atoi t = (0%Z, err) /\
     getDiskSizeMB (t ++ "M") = (0%Z, err) /\
     getDiskSizeMB (t ++ "G") = (0%Z, err)) /\
  (forall (n : N) (tail : string),
     (strconv.maxUint64 < n)%N ->
     let t := FormatN n ++ tail in
     let err := Some (strconv.mkNumError "Atoi" t strconv.ErrRange) in
     strconv.Atoi t = (strconv.maxInt, err) /\
     getDiskSizeMB (t ++ "M") = (strconv.maxInt, err) /\
     getDiskSizeMB (t ++ "G") = (0%Z, err)).
Proof.
  split.
  - intros pre post c Hc Hsign Hlen t err.
    pose proof (Atoi_bad pre post c Hc Hsign Hlen) as HA. fold t in HA. fold err in HA.
    repeat apply conj.
    + exact HA.
    + now rewrite getDiskSizeMB_M.
    + now rewrite getDiskSizeMB_G, HA.
  - intros n tail Hn t err.
    pose proof (Atoi_overflow n tail Hn) as HA. fold t in HA. fold err in HA.
    repeat apply conj.
    + exact HA.
    + now rewrite getDiskSizeMB_M.
    + now rewrite getDiskSizeMB_G, HA.
Qed.

Lemma size_syntax_error_witness :
  getDiskSizeMB "1MM" = (0%Z, Some (strconv.mkNumError "Atoi" "1M" strconv.ErrSyntax)) /\
  getDiskSizeMB "99999999999999999999xM" =
  (9223372036854775807%Z,
   Some (strconv.mkNumError "Atoi" "99999999999999999999x" strconv.ErrRange)).
Proof.
  split.
  - refine (proj1 (proj2 (proj1 size_syntax_error "1" "" "M"%char eq_refl _ _))).
    + discriminate.
    + simpl. lia.
  - refine (proj1 (proj2 (proj2 size_syntax_error 99999999999999999999%N "x" _))).
    reflexivity.
Defined.

(* ================================================================= *)
(** ** Output lists *)

Section JoinFacts.

Variable c : ascii.
Let sep := String c "".

Lemma Join_cons (a : string) (rest : list string) :
  rest <> [] -> Join (a :: rest) sep = a ++ sep ++ Join rest sep.
Proof. destruct rest; [congruence | reflexivity]. Qed.

Lemma genSplit_not_nil (n : nat) (s : string) : genSplit n s sep <> [].
Proof.
  pose proof (genSplit_nonempty n s sep) as H.
  destruct (genSplit n s sep); [simpl in H; lia | discriminate].
Qed.

(** Joining the pieces gives the string back. *)
Lemma genSplit_Join (n : nat) (s : string) : Join (genSplit n s sep) sep = s.
Proof.
  revert s. induction n as [|n IH]; intros s; [reflexivity|].
  cbn [genSplit]. destruct (Index s sep) as [m|] eqn:Hm; [|reflexivity].
  rewrite Join_cons by apply genSplit_not_nil. rewrite IH.
  destruct (Index_char_Some c s m Hm) as [Hs _].
  unfold sep. simpl String.length. simpl append. now rewrite <- Hs.
Qed.

Lemma countChar_append (a b : string) :
  countChar c (a ++ b) = (countChar c a + countChar c b)%nat.
Proof. induction a as [|d a IH]; simpl; [reflexivity|]. rewrite IH. lia. Qed.

Lemma countChar_none (s : string) : occurs c s = false -> countChar c s = 0%nat.
Proof.
  induction s as [|d s IH]; simpl; [reflexivity|].
  intros H. apply orb_false_elim in H as [-> Hs]. now rewrite IH.
Qed.

Lemma Index_char_None_inv (s : string) :
  Index s (String c "") = None -> occurs c s = false.
Proof.
  induction s as [|d s IH]; [reflexivity|]. simpl.
  destruct (ascii_dec c d) as [->|Hne].
  - rewrite prefix_empty. discriminate.
  - destruct (Index s (String c "")); [discriminate|]. intros _.
    apply Ascii.eqb_neq in Hne. rewrite Hne. now apply IH.
Qed.

(** With enough fuel no piece holds the separator, and there is one
    piece more than there are separators. *)
Lemma genSplit_pieces (n : nat) (s : string) :
  (String.length s <= n)%nat ->
  Forall (fun p => occurs c p = false) (genSplit n s sep) /\
  List.length (genSplit n s sep) = S (countChar c s).
Proof.
  revert s. induction n as [|n IH]; intros s Hn.
  - destruct s; [|simpl in Hn; lia]. simpl. split; [repeat constructor | reflexivity].
  - cbn [genSplit]. destruct (Index s sep) as [m|] eqn:Hm.
    + destruct (Index_char_Some c s m Hm) as [Hs Hocc].
      pose proof (Index_char_length c s m Hm) as Hlen.
      destruct (IH (drop (m + String.length sep) s)) as [HF HL].
      { rewrite drop_length. unfold sep. simpl. lia. }
      split; [constructor; assumption|].
      cbn [List.length]. rewrite HL. f_equal.
      rewrite Hs at 2. rewrite countChar_append. cbn [countChar].
      rewrite Ascii.eqb_refl, (countChar_none _ Hocc). unfold sep. simpl String.length.
      lia.
    + pose proof (Index_char_None_inv s Hm) as Ho.
      split; [repeat constructor; exact Ho|]. simpl. now rewrite countChar_none.
Qed.

End JoinFacts.

Lemma fold_left_snoc {A : Type} (l o : list A) :
  fold_left (fun o a => (o ++ [a])%list) l o = (o ++ l)%list.
Proof.
  revert o. induction l as [|a l IH]; intros o; simpl; [now rewrite app_nil_r|].
  rewrite IH, <- app_assoc. reflexivity.
Qed.

(** X5: [Set] on an output list.  It never fails and never touches what
    the list held: it appends the pieces of the value between its commas,
    in order.  There is one piece more than there are commas (so the
    empty value appends one empty name), no piece holds a comma, and the
    pieces joined by commas are the value. *)
Theorem Set_appends_pieces (o : outputList) (value : string) :
  snd (outputList_Set o value) = None /\
  exists pieces,
    fst (outputList_Set o value) = (o ++ pieces)%list /\
    pieces = Split value "," /\
    Join pieces "," = value /\
    Forall (fun p => occurs "," p = false) pieces /\
    List.length pieces = S (countChar "," value).
Proof.
  split; [reflexivity|]. exists (Split value ","). unfold outputList_Set. cbn [fst].
  rewrite fold_left_snoc. unfold Split.
  destruct (genSplit_pieces "," (String.length value) value (Nat.le_refl _)) as [HF HL].
  repeat split; auto. apply genSplit_Join.
Qed.

(* ================================================================= *)
(** ** The trust policy as a whole *)

Section TrustFacts.

Lemma take_drop (m : nat) (s : string) : take m s ++ drop m s = s.
Proof.
  unfold take. revert s. induction m as [|m IH]; intros s.
  - destruct s; reflexivity.
  - destruct s as [|c s]; simpl; [reflexivity|]. now rewrite IH.
Qed.

Lemma prefix_split (sep s : string) :
  prefix sep s = true -> s = sep ++ drop (String.length sep) s.
Proof.
  intros H. apply prefix_correct in H.
  rewrite <- H at 1. symmetry. apply (take_drop (String.length sep) s).
Qed.

Lemma drop_drop (n m : nat) (s : string) : drop n (drop m s) = drop (m + n) s.
Proof.
  revert s. induction m as [|m IH]; intros s; [reflexivity|].
  destruct s as [|c s]; simpl; [now destruct n | apply IH].
Qed.

(** The first occurrence of a separator cuts the string in three. *)
Lemma Index_Some_split (sep s : string) (m : nat) :
  Index s sep = Some m ->
  s = take m s ++ sep ++ drop (m + String.length sep) s.
Proof.
  revert m. induction s as [|d s IH]; intros m.
  - cbn [Index]. destruct (prefix sep "") eqn:Hp; [|discriminate].
    intros [= <-]. now apply prefix_split in Hp.
  - cbn [Index]. destruct (prefix sep (String d s)) eqn:Hp.
    + intros [= <-]. now apply prefix_split in Hp.
    + destruct (Index s sep) as [k|]; [|discriminate]. intros [= <-].
      specialize (IH k eq_refl). unfold take in *. simpl. now rewrite <- IH.
Qed.

Lemma app_nonempty (a : string) (c : ascii) (b : string) : a ++ String c b <> "".
Proof. destruct a; discriminate. Qed.


Lemma append_cancel (a b c : string) : a ++ b = a ++ c -> b = c.
Proof. induction a as [|d a IH]; simpl; [auto|]. intros [= H]. auto. Qed.

(** Before a separator that starts with a character the text before it
    does not hold, the separator does not occur. *)
Lemma Index_first (c : ascii) (sep' pre rest : string) :
  occurs c pre = false ->
  Index (pre ++ String c sep' ++ rest) (String c sep') = Some (String.length pre).
Proof.
  intros Ho. induction pre as [|d pre IH].
  - cbn [append Index String.length].
    assert (Hp : prefix (String c sep') (String c (sep' ++ rest)) = true).
    { apply prefix_correct. cbn [String.length substring].
      f_equal. clear. induction sep' as [|e s IH]; simpl.
      - now destruct rest.
      - now rewrite IH. }
    cbn [append] in Hp |- *. now rewrite Hp.
  - simpl in Ho. apply orb_false_elim in Ho as [Hcd Hpre].
    apply Ascii.eqb_neq in Hcd. pose proof (IH Hpre) as IH'.
    cbn [append Index String.length prefix] in IH' |- *.
    destruct (ascii_dec c d) as [|_]; [congruence|]. now rewrite IH'.
Qed.

Lemma matchesWithoutDigest_sound (img full : string) :
  matchesWithoutDigest img full = true ->
  exists rest, full = img ++ "@sha256:" ++ rest.
Proof.
  unfold matchesWithoutDigest, Split. intros H.
  apply andb_true_iff in H as [Hlen Heq].
  apply Nat.leb_le in Hlen. apply String.eqb_eq in Heq.
  destruct (String.length full) as [|n]; [exfalso; simpl in Hlen; lia|].
  cbn [genSplit] in *.
  destruct (Index full "@sha256:") as [m|] eqn:Hm; [|exfalso; simpl in Hlen; lia].
  simpl in Heq. subst img. eexists. apply (Index_Some_split _ _ _ Hm).
Qed.

Lemma matchesWithoutDigest_complete (img rest : string) :
  occurs "@" img = false ->
  matchesWithoutDigest img (img ++ "@sha256:" ++ rest) = true.
Proof.
  intros Ho. unfold matchesWithoutDigest, Split.
  destruct (String.length (img ++ "@sha256:" ++ rest)) as [|n] eqn:Hl.
  - exfalso. rewrite length_append in Hl. simpl in Hl. lia.
  - cbn [genSplit].
    rewrite (Index_first "@" "sha256:" img rest Ho), take_app. simpl hd.
    rewrite String.eqb_refl, andb_true_r. apply Nat.leb_le. cbn [List.length].
    match goal with
    | |- context [genSplit ?a ?b ?c] => pose proof (genSplit_nonempty a b c)
    end. lia.
Qed.

Lemma imageLoop_spec (imgs : list string) (full : string) :
  imageLoop imgs full = true <->
  exists img, In img imgs /\
    (img = full \/ matchesWithoutTag img full = true
     \/ matchesWithoutDigest img full = true).
Proof.
  induction imgs as [|img rest IH]; simpl.
  - split; [discriminate | intros (? & [] & _)].
  - destruct (String.eqb img full) eqn:He.
    { apply String.eqb_eq in He. split; [|reflexivity]. intros _. exists img. auto. }
    destruct (matchesWithoutTag img full) eqn:Ht.
    { split; [|reflexivity]. intros _. exists img. auto. }
    destruct (matchesWithoutDigest img full) eqn:Hd.
    { split; [|reflexivity]. intros _. exists img. auto. }
    rewrite IH. apply String.eqb_neq in He. split.
    + intros (i & Hin & H). exists i. auto.
    + intros (i & [<-|Hin] & H); [|eauto].
      destruct H as [H|[H|H]]; congruence.
Qed.

End TrustFacts.

(** X6: the trust evaluator as a whole.  It returns true exactly when
    some image pattern is the reference itself, or is the text of the
    reference before its first ':', or passes the digest test, or else
    when the organization derived from the reference is one of the
    organizations of the policy. *)
Theorem trust_characterized (fullImageName : string) (config : TrustConfig.t) :
  enforceContentTrust fullImageName config = true <->
  (exists img, In img (TrustConfig.Image config) /\
     (img = fullImageName \/
      (exists rest, fullImageName = img ++ ":" ++ rest /\ occurs ":" img = false) \/
      matchesWithoutDigest img fullImageName = true)) \/
  (exists imgOrg, imgOrgOf (Split fullImageName "/") = Some imgOrg /\
     In imgOrg (TrustConfig.Org config)).
Proof.
  unfold enforceContentTrust.
  destruct (imageLoop (TrustConfig.Image config) fullImageName) eqn:Hi.
  - split; [intros _ | reflexivity]. left.
    apply imageLoop_spec in Hi as (img & Hin & H). exists img. split; [exact Hin|].
    destruct H as [H|[H|H]]; auto. right. left. now apply matchesWithoutTag_spec.
  - rewrite orgLoop_spec. split; [auto|]. intros [(img & Hin & H)|H]; [|exact H].
    assert (Ht : imageLoop (TrustConfig.Image config) fullImageName = true).
    { apply imageLoop_spec. exists img. split; [exact Hin|].
      destruct H as [H|[H|H]]; auto. right. left. now apply matchesWithoutTag_spec. }
    congruence.
Qed.

(** X7: the digest test.  A pattern that passes it is the text of the
    reference before a "@sha256:"; and for a pattern without '@', a
    reference that continues the pattern passes exactly when the
    continuation starts with "@sha256:" (a digest of another algorithm
    does not pass). *)
Theorem digest_step (img : string) :
  (forall full, matchesWithoutDigest img full = true ->
     exists rest, full = img ++ "@sha256:" ++ rest) /\
  (forall suffix, occurs "@" img = false ->
     matchesWithoutDigest img (img ++ suffix) = prefix "@sha256:" suffix).
Proof.
  split; [apply matchesWithoutDigest_sound|].
  intros suffix Ho. destruct (prefix "@sha256:" suffix) eqn:Hp.
  - apply prefix_split in Hp. rewrite Hp. now apply matchesWithoutDigest_complete.
  - destruct (matchesWithoutDigest img (img ++ suffix)) eqn:Hm; [|reflexivity].
    apply matchesWithoutDigest_sound in Hm as [rest Hm].
    apply append_cancel in Hm. subst suffix.
    assert (prefix "@sha256:" ("@sha256:" ++ rest) = true)
      by (apply prefix_correct; simpl; now destruct rest).
    congruence.
Qed.

Lemma digest_step_witness :
  matchesWithoutDigest "alpine" "alpine@sha256:abcd" = true /\
  matchesWithoutDigest "alpine" "alpine@sha512:abcd" = false.
Proof.
  destruct (digest_step "alpine") as [_ H].
  split.
  - exact (H "@sha256:abcd" eq_refl).
  - exact (H "@sha512:abcd" eq_refl).
Defined.

(** X8: the policy is read as two sets.  A policy that holds every image
    pattern and every organization of another one trusts every reference
    the other one trusts, so the order and the repetitions of the entries
    do not matter; and the empty policy trusts nothing. *)
Theorem trust_monotone (fullImageName : string) (config1 config2 : TrustConfig.t) :
  incl (TrustConfig.Image config1) (TrustConfig.Image config2) ->
  incl (TrustConfig.Org config1) (TrustConfig.Org config2) ->
  (enforceContentTrust fullImageName config1 = true ->
   enforceContentTrust fullImageName config2 = true) /\
  enforceContentTrust fullImageName (TrustConfig.mk [] []) = false.
Proof.
  intros Hi Ho. split; [|reflexivity].
  unfold enforceContentTrust.
  destruct (imageLoop (TrustConfig.Image config1) fullImageName) eqn:H1.
  - intros _. apply imageLoop_spec in H1 as (img & Hin & H).
    assert (H2 : imageLoop (TrustConfig.Image config2) fullImageName = true)
      by (apply imageLoop_spec; exists img; auto).
    now rewrite H2.
  - intros H. destruct (imageLoop (TrustConfig.Image config2) fullImageName);
      [reflexivity|].
    apply orgLoop_spec in H as (o & Hs & Hin). apply orgLoop_spec. eauto.
Qed.

Lemma trust_monotone_witness :
  enforceContentTrust "linuxkit/kernel:4.9.x"
    (TrustConfig.mk ["alpine"] ["library"; "linuxkit"; "library"]) = true.
Proof.
  refine (proj1 (trust_monotone "linuxkit/kernel:4.9.x"
            (TrustConfig.mk [] ["linuxkit"])
            (TrustConfig.mk ["alpine"] ["library"; "linuxkit"; "library"]) _ _) eq_refl).
  - intros x [].
  - intros x [<-|[]]. simpl. auto.
Defined.

Lemma trust_characterized_witness :
  enforceContentTrust "alpine@sha256:abcd" (TrustConfig.mk ["nginx"; "alpine"] []) = true.
Proof.
  apply (proj2 (trust_characterized "alpine@sha256:abcd"
                  (TrustConfig.mk ["nginx"; "alpine"] []))).
  left. exists "alpine". split; [simpl; auto|]. right. right. reflexivity.
Defined.

(* ================================================================= *)
(** ** Appending, further *)

Section AppendMore.

Variable decode : string -> tar.Stream.

(** Appending entries whose headers announce their contents. *)
Lemma appendLoop_consistent (es : list tar.Entry) (rest : tar.Stream) (iw : tar.Writer) :
  (tar.nb iw <= 0)%Z -> Forall consistent es ->
  exists iw1,
    appendLoop iw (prepend es rest) = appendLoop iw1 rest /\
    tar.entries iw1 = (tar.entries iw ++ es)%list /\ (tar.nb iw1 <= 0)%Z.
Proof.
  revert iw. induction es as [|[hdr content] es IH]; intros iw Hnb HF.
  - exists iw. simpl. now rewrite app_nil_r.
  - inversion HF as [|e l Hc HF']; subst.
    destruct (write_consistent iw hdr content Hnb Hc) as (tw1 & tw2 & H1 & H2 & E & N).
    destruct (IH tw2) as (iw1 & Hl & He & Hn); [lia | exact HF' |].
    exists iw1. cbn [prepend appendLoop]. rewrite H1, H2. split; [exact Hl|].
    split; [|exact Hn]. rewrite He, E, <- app_assoc. reflexivity.
Qed.

End AppendMore.

(** X9: appending a well-formed fragment.  When the buffer reads without
    error as entries whose headers announce the sizes of their contents,
    and the archive writer is not in the middle of an entry, the append
    returns, the archive holds what it held followed by exactly these
    entries, and it can be closed (or appended to) afterwards. *)
Theorem append_clean_fragment (decode : string -> tar.Stream) (iw : tar.Writer)
    (r : Buffer) (es : list tar.Entry) :
  NewReader decode r = tar.streamOf es ->
  Forall consistent es ->
  (tar.nb iw <= 0)%Z ->
  exists iw',
    initrdAppend decode iw r = Returns iw' /\
    tar.entries iw' = (tar.entries iw ++ es)%list /\
    (tar.nb iw' <= 0)%Z /\
    tar.Close iw' = Ok (tar.entries iw ++ es)%list.
Proof.
  intros Hr HF Hnb. unfold initrdAppend. rewrite Hr, streamOf_prepend.
  destruct (appendLoop_consistent es tar.EOF iw Hnb HF) as (iw1 & Hl & He & Hn).
  exists iw1. rewrite Hl. simpl. repeat split; auto.
  unfold tar.Close. destruct (Z.ltb_spec 0 (tar.nb iw1)); [lia|]. now rewrite He.
Qed.

Lemma append_clean_fragment_witness :
  exists iw',
    initrdAppend Demo.decode tar.NewWriter (Raw "<modules>") = Returns iw' /\
    tar.Close iw' = Ok [Demo.dir "lib"; Demo.file "lib/modules.dep" 420 "dep"].
Proof.
  destruct (append_clean_fragment Demo.decode tar.NewWriter (Raw "<modules>")
              [Demo.dir "lib"; Demo.file "lib/modules.dep" 420 "dep"] eq_refl)
    as (iw' & H & _ & _ & Hc).
  - repeat constructor.
  - simpl. lia.
  - exists iw'. split; [exact H | exact Hc].
Defined.

(** X10: appends compose.  When a buffer reads as the entries of a first
    buffer followed by what a second buffer reads as, appending it is
    appending the first and then, if that returned, the second; a fatal
    end of the first append is the end. *)
Theorem append_composes (decode : string -> tar.Stream) (iw : tar.Writer)
    (r r1 r2 : Buffer) (es1 : list tar.Entry) :
  NewReader decode r1 = tar.streamOf es1 ->
  NewReader decode r = prepend es1 (NewReader decode r2) ->
  initrdAppend decode iw r =
  match initrdAppend decode iw r1 with
  | Returns iw1 => initrdAppend decode iw1 r2
  | Fatal msg => Fatal msg
  end.
Proof.
  unfold initrdAppend. intros -> ->. generalize (NewReader decode r2) as rest.
  revert iw. induction es1 as [|[hdr content] es1 IH]; intros iw rest; [reflexivity|].
  cbn [prepend tar.streamOf appendLoop].
  destruct (tar.WriteHeader iw hdr) as [iw1|err]; [|reflexivity].
  destruct (tar.Copy iw1 content None) as [iw2|err]; [|reflexivity].
  apply IH.
Qed.

Lemma append_composes_witness :
  initrdAppend Demo.decode tar.NewWriter
    (Archive [Demo.file "init" 493 "#!"; Demo.file "usr/bin/runc" 493 "ELF"]) =
  match initrdAppend Demo.decode tar.NewWriter (Raw "<init>") with
  | Returns iw1 => initrdAppend Demo.decode iw1 (Raw "<runc>")
  | Fatal msg => Fatal msg
  end.
Proof.
  apply (append_composes Demo.decode tar.NewWriter
           (Archive [Demo.file "init" 493 "#!"; Demo.file "usr/bin/runc" 493 "ELF"])
           (Raw "<init>") (Raw "<runc>") [Demo.file "init" 493 "#!"]); reflexivity.
Defined.




(* ================================================================= *)
(** ** The kernel splitter, further *)

Section SplitterMore.

Variables kn kan ktn cmdline : string.

(** The value of [ktar] is that of the last filesystem-tar entry. *)
Lemma ktarAfter_filter (es : list tar.Entry) (t0 : option Buffer) (d : tar.Entry) :
  ktarAfterEntries ktn es t0 =
  match filter (isKtarEntry ktn) es with
  | [] => t0
  | l => Some (Raw (snd (last l d)))
  end.
Proof.
  revert t0. induction es as [|e es IH]; intros t0; [reflexivity|].
  cbn [ktarAfterEntries filter]. rewrite IH.
  destruct (isKtarEntry ktn e); [|reflexivity].
  destruct (filter (isKtarEntry ktn) es) as [|e' l]; reflexivity.
Qed.

Lemma loop_ktar (tr : tar.Stream) (kernel0 ktar0 : option Buffer) (found : bool)
    (kernel ktar : Buffer) :
  ktn <> kn -> ktn <> kan ->
  untarLoop kn kan ktn cmdline tr kernel0 ktar0 found = Returns (Ok (kernel, ktar)) ->
  ktarAfterEntries ktn (tar.entriesOf tr) ktar0 = Some ktar.
Proof.
  intros Hn1 Hn2. revert kernel0 ktar0 found.
  induction tr as [|err|hdr content readErr rest IH]; intros kernel0 ktar0 found; simpl.
  - destruct kernel0; [|discriminate]. destruct ktar0; [|discriminate].
    now intros [= _ <-].
  - discriminate.
  - unfold isKtarEntry at 1. cbn [fst snd].
    destruct (String.eqb (tar.Name hdr) kn || String.eqb (tar.Name hdr) kan) eqn:Hk.
    + assert (Ht : String.eqb (tar.Name hdr) ktn = false).
      { apply (kernel_is_no_ktar kn kan ktn (hdr, content) Hn1 Hn2 Hk). }
      rewrite Ht. destruct found; [discriminate|].
      destruct (bootTarball hdr content readErr cmdline); [|discriminate]. apply IH.
    + destruct (String.eqb (tar.Name hdr) ktn).
      * destruct readErr; [discriminate|]. apply IH.
      * apply IH.
Qed.

Lemma bootTarball_read_error (hdr : tar.Header) (content : string) (err : error) :
  (exists e, bootTarball hdr content (Some err) cmdline = Err e) /\
  ((Z.of_nat (String.length content) <= tar.Size hdr)%Z ->
   bootTarball hdr content (Some err) cmdline = Err err).
Proof.
  assert (HB : bootTarball hdr content (Some err) cmdline =
               Err (if String.eqb content "" then err
                    else if (tar.Size hdr <? Z.of_nat (String.length content))%Z
                         then tar.ErrWriteTooLong else err)).
  { unfold bootTarball.
    destruct (write_consistent tar.NewWriter (tar.mkHeader "boot" 448 0 tar.TypeDir) "")
      as (tw1 & tw1' & H1 & H1' & E1 & N1); [simpl; lia | reflexivity |].
    rewrite H1. rewrite copy_nothing in H1'. injection H1' as <-.
    assert (H2 : forall h, tar.WriteHeader tw1 h =
                  Ok (tar.mkWriter (tar.entries tw1 ++ [(h, "")])%list (tar.Size h)))
      by (intros h; unfold tar.WriteHeader; now rewrite N1).
    rewrite H2. unfold tar.Copy at 1, tar.Write. cbn [tar.nb tar.Size].
    destruct (String.eqb content ""); [reflexivity|].
    now destruct (tar.Size hdr <? Z.of_nat (String.length content))%Z. }
  rewrite HB. split; [eexists; reflexivity|]. intros Hlen.
  destruct (String.eqb content ""); [reflexivity|].
  destruct (Z.ltb_spec (tar.Size hdr) (Z.of_nat (String.length content))) as [H|H];
    [lia | reflexivity].
Qed.

End SplitterMore.

(** X12: the last filesystem tar wins.  When the kernel splitter succeeds
    (the name of the filesystem tar being none of the kernel names), the
    stream held at least one entry of that name, and the filesystem tar
    returned is the content, verbatim, of the last of them. *)
Theorem last_ktar_wins (decode : string -> tar.Stream) (buf : Buffer)
    (kn kan ktn cmdline : string) (kernel ktar : Buffer) (d : tar.Entry) :
  ktn <> kn -> ktn <> kan ->
  untarKernel decode buf kn kan ktn cmdline = Returns (Ok (kernel, ktar)) ->
  let tars := filter (isKtarEntry ktn) (tar.entriesOf (NewReader decode buf)) in
  tars <> [] /\ ktar = Raw (snd (last tars d)).
Proof.
  intros Hn1 Hn2 H tars. unfold untarKernel in H.
  apply (loop_ktar kn kan ktn cmdline _ _ _ _ _ _ Hn1 Hn2) in H.
  rewrite (ktarAfter_filter ktn _ None d) in H. fold tars in H.
  destruct tars as [|e l]; [discriminate|].
  split; [discriminate|]. congruence.
Qed.

Lemma last_ktar_wins_witness :
  exists kernel ktar,
    untarKernel Demo.decode
      (Archive [Demo.file "kernel.tar" 420 "old"; Demo.file "kernel" 420 "X";
                Demo.file "kernel.tar" 420 "new"])
      kernelName kernelAltName ktarName "" = Returns (Ok (kernel, ktar)) /\
    ktar = Raw "new".
Proof.
  assert (Hn1 : ktarName <> kernelName) by discriminate.
  assert (Hn2 : ktarName <> kernelAltName) by discriminate.
  eexists; eexists. split; [reflexivity|].
  exact (proj2 (last_ktar_wins Demo.decode
                  (Archive [Demo.file "kernel.tar" 420 "old"; Demo.file "kernel" 420 "X";
                            Demo.file "kernel.tar" 420 "new"])
                  kernelName kernelAltName ktarName ""
                  _ _ (Demo.dir "") Hn1 Hn2 eq_refl)).
Defined.

(** X13: read errors in the kernel splitter.  Let the stream first
    deliver, without error, entries of which at most one is a kernel
    entry, one whose content has the size its header announces (so that
    its boot tarball was made).  Then an error of [Next] ends the process
    ([log.Fatalln]).  An error while the content of the first kernel entry
    is read does not: the splitter returns an error, and it is that very
    error when the content delivered before it is no longer than the
    header announces (a content cut short, in particular).  An error
    while the content of a filesystem-tar entry is read is returned as the
    error of the splitter, too. *)
Theorem splitter_read_errors (decode : string -> tar.Stream) (buf : Buffer)
    (kn kan ktn cmdline : string) (es : list tar.Entry) (err : error) :
  Forall consistent (filter (isKernelEntry kn kan) es) ->
  (List.length (filter (isKernelEntry kn kan) es) <= 1)%nat ->
  (NewReader decode buf = prepend es (tar.NextError err) ->
   untarKernel decode buf kn kan ktn cmdline = Fatal err) /\
  (forall hdr content rest,
     NewReader decode buf = prepend es (tar.Next hdr content (Some err) rest) ->
     isKernelEntry kn kan (hdr, content) = true ->
     List.length (filter (isKernelEntry kn kan) es) = 0%nat ->
     (exists e, untarKernel decode buf kn kan ktn cmdline = Returns (Err e)) /\
     ((Z.of_nat (String.length content) <= tar.Size hdr)%Z ->
      untarKernel decode buf kn kan ktn cmdline = Returns (Err err))) /\
  (forall hdr content rest,
     NewReader decode buf = prepend es (tar.Next hdr content (Some err) rest) ->
     isKernelEntry kn kan (hdr, content) = false -> tar.Name hdr = ktn ->
     untarKernel decode buf kn kan ktn cmdline = Returns (Err err)).
Proof.
  intros Hcons Hle.
  assert (Hloop : forall rest,
    exists kernel ktar found,
      untarLoop kn kan ktn cmdline (prepend es rest) None None false =
      untarLoop kn kan ktn cmdline rest kernel ktar found /\
      (List.length (filter (isKernelEntry kn kan) es) = 0%nat -> found = false)).
  { intros rest.
    destruct (kernel_cases kn kan es)
      as [[H0 C0] | [(l1 & k & l2 & E & H1 & Hk & H2 & C1)
                    | (l1 & k & l2 & k2 & l3 & E & H1 & Hk & H2 & Hk2 & C2)]].
    - eexists None, _, false. split; [apply loop_no_kernel; exact H0 | auto].
    - assert (Hc : consistent k).
      { rewrite E, filter_app in Hcons. apply Forall_app in Hcons as [_ Hcons].
        cbn [filter] in Hcons. rewrite Hk in Hcons. now inversion Hcons. }
      eexists _, _, true. split; [|intros; lia].
      rewrite E. apply loop_one_kernel; assumption.
    - lia. }
  unfold untarKernel. repeat apply conj.
  - intros ->. destruct (Hloop (tar.NextError err)) as (k & t & f & -> & _). reflexivity.
  - intros hdr content rest -> Hk H0.
    destruct (Hloop (tar.Next hdr content (Some err) rest)) as (k & t & f & -> & Hf).
    rewrite (Hf H0).
    unfold isKernelEntry in Hk. cbn [fst] in Hk. cbn [untarLoop]. rewrite Hk.
    destruct (bootTarball_read_error cmdline hdr content err) as [[e He] Hshort].
    split.
    + exists e. now rewrite He.
    + intros Hlen. now rewrite (Hshort Hlen).
  - intros hdr content rest -> Hk <-.
    destruct (Hloop (tar.Next hdr content (Some err) rest)) as (k & t & f & -> & _).
    unfold isKernelEntry in Hk. cbn [fst] in Hk. cbn [untarLoop].
    now rewrite Hk, String.eqb_refl.
Qed.

Lemma splitter_read_errors_witness :
  untarKernel Demo.decode (Raw "<broken>") kernelName kernelAltName ktarName ""
  = Fatal "unexpected EOF" /\
  untarKernel cutDecode (Raw "kernel") kernelName kernelAltName ktarName ""
  = Returns (Err "unexpected EOF").
Proof.
  split.
  - refine (proj1 (splitter_read_errors Demo.decode (Raw "<broken>")
                     kernelName kernelAltName ktarName "" [] "unexpected EOF" _ _) eq_refl).
    + constructor.
    + simpl. lia.
  - refine (proj2 (proj1 (proj2 (splitter_read_errors cutDecode (Raw "kernel")
                     kernelName kernelAltName ktarName "" [] "unexpected EOF" _ _))
                     (tar.mkHeader "kernel" 420 5 tar.TypeReg) "X" tar.EOF
                     eq_refl eq_refl eq_refl) _).
    + constructor.
    + simpl. lia.
    + simpl. lia.
Defined.

(* ================================================================= *)
(** ** The calls of a build *)

Section PlanFacts.

Variable decode : string -> tar.Stream.
Variable h : handler.
Variable m : Moby.
Variable pull : bool.

Lemma follows_ret {A : Type} (a : A) : follows h (ret a) [].
Proof. split; [exists []; reflexivity | reflexivity]. Qed.

Lemma follows_fatal {A : Type} (msg : string) (P : list callLabel) :
  follows h (@fatal A msg) P.
Proof. split; [exists P; reflexivity | discriminate]. Qed.

Lemma follows_bind {A B : Type} (p : M A) (f : A -> M B) (P1 P2 : list callLabel) :
  follows h p P1 -> (forall a, follows h (f a) P2) ->
  follows h (bind p f) (P1 ++ P2)%list.
Proof.
  intros [[r1 Hr1] He1] Hf. unfold follows, bind. rewrite run_bindProg.
  cbn [fst snd]. unfold labels in *. rewrite map_app.
  destruct (snd (run h p)) as [a|msg] eqn:Hs.
  - destruct (Hf a) as [[r2 Hr2] He2]. rewrite (He1 a eq_refl). split.
    + exists r2. unfold labels in Hr2. rewrite Hr2 at 1. now rewrite app_assoc.
    + intros b Hb. f_equal. exact (He2 b Hb).
  - simpl. rewrite app_nil_r. split; [|discriminate].
    exists (r1 ++ P2)%list. rewrite Hr1 at 1. now rewrite app_assoc.
Qed.

Lemma follows_perform {X B : Type} (c : call X) (f : X -> M B) (P : list callLabel) :
  follows h (f (h _ c)) P ->
  follows h (bind (perform c) f) (labelOf (Event c (h _ c)) :: P).
Proof.
  intros [[r Hr] He]. unfold follows. rewrite run_perform. cbn [fst snd labels map].
  split.
  - exists r. unfold labels in Hr. now rewrite Hr at 1.
  - intros b Hb. f_equal. exact (He b Hb).
Qed.

Lemma follows_lift {A B : Type} (o : outcome A) (f : A -> M B) (P : list callLabel) :
  (forall a, follows h (f a) P) -> follows h (bind (lift o) f) P.
Proof.
  intros Hf. destruct o as [a|msg]; [apply Hf|].
  unfold follows. rewrite run_lift. split; [exists P; reflexivity | discriminate].
Qed.

Lemma follows_initLoop (inits : list string) (iw : tar.Writer) :
  follows h (initLoop decode m pull inits iw)
    (map (fun ii => LExtract ii "" (enforceContentTrust ii (Trust m)) pull) inits).
Proof.
  revert iw. induction inits as [|ii rest IH]; intros iw; [apply follows_ret|].
  cbn [initLoop map].
  apply (follows_perform (ImageExtract ii "" (enforceContentTrust ii (Trust m)) pull)).
  destruct (h _ (ImageExtract ii "" (enforceContentTrust ii (Trust m)) pull)) as [init|err].
  - apply follows_lift. exact IH.
  - apply follows_fatal.
Qed.

Lemma follows_bundle (path : string) (image : MobyImage.t) (iw : tar.Writer)
    (k : tar.Writer -> M tar.Writer) (P : list callLabel) :
  (forall iw1, follows h (k iw1) P) ->
  follows h (
    config <- perform (ConfigToOCI image) ;;
    match config with
    | Err err =>
        fatal ("Failed to create config.json for " ++ MobyImage.Image image ++ ": " ++ err)
    | Ok config =>
        out <- perform (ImageBundle path (MobyImage.Image image) config
                          (enforceContentTrust (MobyImage.Image image) (Trust m)) pull) ;;
        match out with
        | Err err =>
            fatal ("Failed to extract root filesystem for "
                     ++ MobyImage.Image image ++ ": " ++ err)
        | Ok out =>
            iw <- lift (initrdAppend decode iw (Raw out)) ;;
            k iw
        end
    end) (bundlePlan h m pull path image ++ P)%list.
Proof.
  intros Hk. unfold bundlePlan, configOf. cbn [app].
  apply (follows_perform (ConfigToOCI image)).
  destruct (h _ (ConfigToOCI image)) as [config|err]; [|apply follows_fatal].
  apply (follows_perform (ImageBundle path (MobyImage.Image image) config
           (enforceContentTrust (MobyImage.Image image) (Trust m)) pull)).
  destruct (h _ (ImageBundle path (MobyImage.Image image) config
                   (enforceContentTrust (MobyImage.Image image) (Trust m)) pull))
    as [out|err]; [|apply follows_fatal].
  apply follows_lift. exact Hk.
Qed.

Lemma follows_onbootLoop (images : list MobyImage.t) (i : nat) (iw : tar.Writer) :
  follows h (onbootLoop decode m pull i images iw)
    (flat_map (fun p => bundlePlan h m pull (onbootPath (fst p) (snd p)) (snd p))
       (indexedFrom i images)).
Proof.
  revert i iw. induction images as [|image rest IH]; intros i iw; [apply follows_ret|].
  cbn [onbootLoop indexedFrom flat_map fst snd]. apply follows_bundle.
  intros iw1. apply IH.
Qed.

Lemma follows_servicesLoop (images : list MobyImage.t) (iw : tar.Writer) :
  follows h (servicesLoop decode m pull images iw)
    (flat_map (fun image => bundlePlan h m pull (servicePath image) image) images).
Proof.
  revert iw. induction images as [|image rest IH]; intros iw; [apply follows_ret|].
  cbn [servicesLoop flat_map]. apply follows_bundle. intros iw1. apply IH.
Qed.

Lemma follows_pullKernel : follows h (pullKernel m pull) (pullPlan m pull).
Proof.
  unfold pullKernel, pullPlan.
  destruct (pull || enforceContentTrust (KernelConfig.Image (Kernel m)) (Trust m));
    [|apply follows_ret].
  apply (follows_perform (dockerPull (KernelConfig.Image (Kernel m))
           (enforceContentTrust (KernelConfig.Image (Kernel m)) (Trust m))) _ []).
  destruct (h _ (dockerPull _ _)); [apply follows_fatal | apply follows_ret].
Qed.

Lemma follows_addKernel (iw : tar.Writer) :
  follows h (addKernel decode m pull iw) (kernelPlan m pull).
Proof.
  unfold addKernel, kernelPlan.
  destruct (negb (String.eqb (KernelConfig.Image (Kernel m)) "")); [|apply follows_ret].
  apply (follows_perform (ImageExtract (KernelConfig.Image (Kernel m)) ""
           (enforceContentTrust (KernelConfig.Image (Kernel m)) (Trust m)) pull) _ []).
  destruct (h _ (ImageExtract _ _ _ _)) as [out|err]; [|apply follows_fatal].
  apply follows_lift. intros [[kernel ktar]|err]; [|apply follows_fatal].
  apply follows_lift. intros iw1. unfold follows, lift. simpl.
  split; [exists []; reflexivity | reflexivity].
Qed.

Lemma follows_addFiles (iw : tar.Writer) :
  follows h (addFiles decode m iw) [LFiles m].
Proof.
  unfold addFiles. apply (follows_perform (filesystem m) _ []).
  destruct (h _ (filesystem m)) as [buffer|err]; [|apply follows_fatal].
  apply follows_lift. intros iw1.
  destruct (tar.Close iw1); [apply follows_ret | apply follows_fatal].
Qed.

(** The part of the build after the pull of the kernel image. *)
Lemma follows_afterPull :
  follows h (iw <- addKernel decode m pull tar.NewWriter ;;
             iw <- initLoop decode m pull (Init m) iw ;;
             iw <- onbootLoop decode m pull 0 (Onboot m) iw ;;
             iw <- servicesLoop decode m pull (Services m) iw ;;
             addFiles decode m iw)
    (kernelPlan m pull
     ++ map (fun ii => LExtract ii "" (enforceContentTrust ii (Trust m)) pull) (Init m)
     ++ flat_map (fun p => bundlePlan h m pull (onbootPath (fst p) (snd p)) (snd p))
          (indexedFrom 0 (Onboot m))
     ++ flat_map (fun image => bundlePlan h m pull (servicePath image) image) (Services m)
     ++ [LFiles m])%list.
Proof.
  apply follows_bind; [apply follows_addKernel | intros iw1].
  apply follows_bind; [apply follows_initLoop | intros iw2].
  apply follows_bind; [apply follows_onbootLoop | intros iw3].
  apply follows_bind; [apply follows_servicesLoop | intros iw4].
  apply follows_addFiles.
Qed.

Lemma follows_buildInternal : follows h (buildInternal decode m pull) (plan h m pull).
Proof.
  unfold buildInternal, plan.
  apply follows_bind; [apply follows_pullKernel | intros _]. apply follows_afterPull.
Qed.

End PlanFacts.

Section PlanShape.

Variable h : handler.
Variable m : Moby.
Variable pull : bool.

Lemma length_bundles {A : Type} (f : A -> string) (g : A -> MobyImage.t) (l : list A) :
  List.length (flat_map (fun a => bundlePlan h m pull (f a) (g a)) l) = 2 * List.length l.
Proof. induction l as [|a l IH]; simpl in *; [reflexivity | rewrite IH; lia]. Qed.

Lemma length_plan : List.length (plan h m pull) = callCount m pull.
Proof.
  unfold plan, callCount, pullPlan, kernelPlan.
  rewrite !length_app, length_map.
  rewrite (length_bundles (fun p => onbootPath (fst p) (snd p)) snd).
  rewrite (length_bundles servicePath (fun image => image)).
  rewrite length_indexedFrom.
  destruct (pull || enforceContentTrust _ _), (String.eqb _ ""); simpl; lia.
Qed.

Lemma Forall_bundles {A : Type} (Q : callLabel -> Prop) (f : A -> string)
    (g : A -> MobyImage.t) (l : list A) :
  (forall path image, Forall Q (bundlePlan h m pull path image)) ->
  Forall Q (flat_map (fun a => bundlePlan h m pull (f a) (g a)) l).
Proof. intros HQ. apply Forall_flat_map, Forall_forall. intros a _. apply HQ. Qed.

(** The calls after the pull of the kernel image. *)
Lemma Forall_afterPull (Q : callLabel -> Prop) :
  (forall image, Q (LExtract image "" (enforceContentTrust image (Trust m)) pull)) ->
  (forall path image, Forall Q (bundlePlan h m pull path image)) ->
  Q (LFiles m) ->
  Forall Q
    (kernelPlan m pull
     ++ map (fun ii => LExtract ii "" (enforceContentTrust ii (Trust m)) pull) (Init m)
     ++ flat_map (fun p => bundlePlan h m pull (onbootPath (fst p) (snd p)) (snd p))
          (indexedFrom 0 (Onboot m))
     ++ flat_map (fun image => bundlePlan h m pull (servicePath image) image) (Services m)
     ++ [LFiles m])%list.
Proof.
  intros Hx Hb Hf. repeat (apply Forall_app; split).
  - unfold kernelPlan. destruct (negb _); repeat constructor. apply Hx.
  - apply Forall_map, Forall_forall. intros ii _. apply Hx.
  - apply (Forall_bundles Q (fun p => onbootPath (fst p) (snd p)) snd), Hb.
  - apply (Forall_bundles Q servicePath (fun image => image)), Hb.
  - repeat constructor. exact Hf.
Qed.

Lemma Forall_plan (Q : callLabel -> Prop) :
  Q (LPull (KernelConfig.Image (Kernel m))
       (enforceContentTrust (KernelConfig.Image (Kernel m)) (Trust m))) ->
  (forall image, Q (LExtract image "" (enforceContentTrust image (Trust m)) pull)) ->
  (forall path image, Forall Q (bundlePlan h m pull path image)) ->
  Q (LFiles m) ->
  Forall Q (plan h m pull).
Proof.
  intros Hp Hx Hb Hf. unfold plan. apply Forall_app. split.
  - unfold pullPlan. destruct (pull || _); repeat constructor. exact Hp.
  - now apply Forall_afterPull.
Qed.

Lemma Forall_follows {A : Type} (p : M A) (P : list callLabel) (Q : callLabel -> Prop) :
  follows h p P -> Forall Q P -> Forall Q (labels (fst (run h p))).
Proof.
  intros [[rest Hr] _] HQ. rewrite Hr in HQ. now apply Forall_app in HQ as [HQ _].
Qed.

Lemma pulls_labels (t : list event) : pulls t = pullLabels (labels t).
Proof.
  unfold pulls, pullLabels, labels. induction t as [|[X c x] t IH]; [reflexivity|].
  cbn [flat_map map]. rewrite IH. now destruct c.
Qed.

Lemma pullLabels_none (P : list callLabel) :
  Forall (fun l => match l with LPull _ _ => False | _ => True end) P ->
  pullLabels P = [].
Proof.
  induction 1 as [|l P Hl _ IH]; [reflexivity|].
  unfold pullLabels in *. cbn [flat_map]. rewrite IH. now destruct l.
Qed.

Lemma trust_disabled (image : string) :
  enforceContentTrust image (TrustConfig.mk [] []) = false.
Proof. reflexivity. Qed.

Lemma pullLabels_app (P1 P2 : list callLabel) :
  pullLabels (P1 ++ P2)%list = (pullLabels P1 ++ pullLabels P2)%list.
Proof. apply flat_map_app. Qed.

Lemma pulls_pullKernel :
  labels (fst (run h (pullKernel m pull))) = pullPlan m pull.
Proof.
  unfold pullKernel, pullPlan.
  destruct (pull || enforceContentTrust _ _); [|reflexivity].
  rewrite run_perform. now destruct (h _ (dockerPull _ _)).
Qed.

(** The calls of a build: the pull of the kernel image, then calls that
    are no pulls. *)
Lemma labels_buildInternal (decode : string -> tar.Stream) :
  exists later,
    labels (trace h (buildInternal decode m pull)) = (pullPlan m pull ++ later)%list /\
    Forall (fun l => match l with LPull _ _ => False | _ => True end) later.
Proof.
  unfold trace, buildInternal, bind at 1. rewrite run_bindProg. cbn [fst].
  unfold labels at 1. rewrite map_app. fold (labels (fst (run h (pullKernel m pull)))).
  rewrite pulls_pullKernel. eexists. split; [reflexivity|].
  destruct (snd (run h (pullKernel m pull))); [|constructor].
  apply (Forall_follows _ _ _ (follows_afterPull decode h m pull)).
  apply Forall_afterPull; simpl; auto.
  intros path image. unfold bundlePlan. repeat constructor.
Qed.

(** The only pull of a build is the one of the kernel image. *)
Lemma pulls_buildInternal (decode : string -> tar.Stream) :
  pulls (trace h (buildInternal decode m pull)) = pullLabels (pullPlan m pull).
Proof.
  destruct (labels_buildInternal decode) as (later & E & HF).
  rewrite pulls_labels, E, pullLabels_app, (pullLabels_none later HF).
  apply app_nil_r.
Qed.

End PlanShape.

(* ================================================================= *)
(** ** The bundles of a build *)

Section IndexFacts.

Lemma acc_bound (d : Decimal.uint) (n : nat) :
  (Nat.of_uint_acc d n < (n + 1) * 10 ^ DecimalNat.Unsigned.usize d)%nat.
Proof.
  revert n. induction d as [|d IH|d IH|d IH|d IH|d IH|d IH|d IH|d IH|d IH|d IH];
    intros n; cbn [Nat.of_uint_acc DecimalNat.Unsigned.usize];
    [rewrite Nat.pow_0_r; lia| | | | | | | | | |];
    rewrite Nat.tail_mul_spec, Nat.pow_succ_r';
    match goal with |- (Nat.of_uint_acc d ?x < _)%nat => specialize (IH x) end;
    nia.
Qed.

Lemma length_digits (d : Decimal.uint) :
  String.length (NilEmpty.string_of_uint d) = DecimalNat.Unsigned.usize d.
Proof. induction d; simpl; congruence. Qed.

Lemma length_digits_zero (d : Decimal.uint) :
  (DecimalNat.Unsigned.usize d <= String.length (NilZero.string_of_uint d))%nat.
Proof.
  unfold NilZero.string_of_uint. destruct d; try (rewrite length_digits; lia).
  simpl. lia.
Qed.

(** From 1000 on a position has more than three digits. *)
Lemma digits_of_large (i : nat) :
  (1000 <= i)%nat -> (3 < String.length (NilZero.string_of_uint (Nat.to_uint i)))%nat.
Proof.
  intros Hi.
  pose proof (length_digits_zero (Nat.to_uint i)) as Hl.
  pose proof (acc_bound (Nat.to_uint i) 0) as Hb.
  change (Nat.of_uint_acc (Nat.to_uint i) 0) with (Nat.of_uint (Nat.to_uint i)) in Hb.
  rewrite DecimalNat.Unsigned.of_to in Hb.
  destruct (Nat.le_gt_cases (DecimalNat.Unsigned.usize (Nat.to_uint i)) 3) as [H3|H3];
    [|lia].
  exfalso.
  assert (Hp : (10 ^ DecimalNat.Unsigned.usize (Nat.to_uint i) <= 10 ^ 3)%nat)
    by (apply Nat.pow_le_mono_r; lia).
  change (10 ^ 3)%nat with 1000%nat in Hp. lia.
Qed.

(** [%03d] of a position is its padded index. *)
Lemma Sprintf03d_padded (i : nat) : Sprintf03d i = paddedIndex i.
Proof.
  unfold paddedIndex. destruct (Nat.ltb_spec i 1000) as [H|H].
  - now apply Sprintf03d_digits.
  - unfold Sprintf03d, Itoa.
    pose proof (digits_of_large i H) as Hl.
    replace (3 - String.length (NilZero.string_of_uint (Nat.to_uint i)))%nat with 0%nat
      by lia.
    reflexivity.
Qed.

End IndexFacts.

Section BundleFacts.

Variable decode : string -> tar.Stream.
Variable h : handler.
Variable m : Moby.
Variable pull : bool.

Lemma bundleCalls_labels (t : list event) : bundleCalls t = labelBundles (labels t).
Proof.
  unfold bundleCalls, labelBundles, labels. induction t as [|[X c x] t IH]; [reflexivity|].
  cbn [flat_map map]. rewrite IH. now destruct c.
Qed.

Lemma labelBundles_app (P1 P2 : list callLabel) :
  labelBundles (P1 ++ P2)%list = (labelBundles P1 ++ labelBundles P2)%list.
Proof. apply flat_map_app. Qed.

Lemma labelBundles_extracts (inits : list string) :
  labelBundles (map (fun ii => LExtract ii "" (enforceContentTrust ii (Trust m)) pull) inits)
  = [].
Proof. induction inits as [|ii rest IH]; [reflexivity | exact IH]. Qed.

Lemma labelBundles_bundles {A : Type} (f : A -> string) (g : A -> MobyImage.t)
    (l : list A) :
  labelBundles (flat_map (fun a => bundlePlan h m pull (f a) (g a)) l)
  = map (fun a => (f a, MobyImage.Image (g a))) l.
Proof.
  induction l as [|a l IH]; [reflexivity|].
  cbn [flat_map map]. rewrite labelBundles_app, IH. reflexivity.
Qed.

(** The bundles of the plan of a build are those of its configuration. *)
Lemma labelBundles_plan : labelBundles (plan h m pull) = specBundles m.
Proof.
  unfold plan, specBundles. rewrite !labelBundles_app.
  assert (H1 : labelBundles (pullPlan m pull) = [])
    by (unfold pullPlan; now destruct (pull || _)).
  assert (H2 : labelBundles (kernelPlan m pull) = [])
    by (unfold kernelPlan; now destruct (negb _)).
  rewrite H1, H2, labelBundles_extracts.
  rewrite (labelBundles_bundles (fun p => onbootPath (fst p) (snd p)) snd).
  rewrite (labelBundles_bundles servicePath (fun image => image)).
  cbn [app labelBundles flat_map]. rewrite app_nil_r. f_equal.
  apply map_ext. intros [i image]. unfold onbootPath. cbn [fst snd].
  now rewrite Sprintf03d_padded.
Qed.

Lemma specBundles_onboot (i : nat) (image : MobyImage.t) :
  nth_error (Onboot m) i = Some image ->
  nth_error (specBundles m) i =
  Some ("containers/onboot/" ++ paddedIndex i ++ "-" ++ MobyImage.Name image,
        MobyImage.Image image).
Proof.
  intros H. unfold specBundles.
  rewrite nth_error_app1
    by (rewrite length_map, length_indexedFrom; apply nth_error_Some; congruence).
  rewrite nth_error_map, (nth_error_indexedFrom _ 0 _ _ H). reflexivity.
Qed.

Lemma bundleCalls_build :
  (exists rest,
     specBundles m =
     (bundleCalls (trace h (buildInternal decode m pull)) ++ rest)%list) /\
  (forall out, outcomeOf h (buildInternal decode m pull) = Returns out ->
     bundleCalls (trace h (buildInternal decode m pull)) = specBundles m).
Proof.
  destruct (follows_buildInternal decode h m pull) as [[rest Hpre] Hall].
  rewrite bundleCalls_labels, <- labelBundles_plan. split.
  - exists (labelBundles rest). unfold trace. rewrite Hpre at 1.
    apply labelBundles_app.
  - intros out Hout. unfold trace. now rewrite (Hall out Hout).
Qed.

End BundleFacts.

(** C6, as the code has it: the bundles by position.  The [ImageBundle]
    calls of a run are, in order and each with the image of its entry, a
    beginning of this list, and the whole list when the build returns:
    for the onboot entry at position i (from 0) the path
    "containers/onboot/", the index of i, a hyphen and the name of the
    entry, and after these for every service "containers/services/" and
    its name.  The index depends on the position only and is padded with
    zeros to three digits: it is "000" for the first entry and three
    decimal digits for every position below 1000; from position 1000 on it
    is the decimal writing of the position, which has more than three
    digits. *)
Theorem bundle_paths_by_position (decode : string -> tar.Stream) (h : handler)
    (m : Moby) (pull : bool) :
  (exists rest,
     specBundles m =
     (bundleCalls (trace h (buildInternal decode m pull)) ++ rest)%list) /\
  (forall out, outcomeOf h (buildInternal decode m pull) = Returns out ->
     bundleCalls (trace h (buildInternal decode m pull)) = specBundles m) /\
  (forall i image, nth_error (Onboot m) i = Some image -> (i < 1000)%nat ->
     nth_error (specBundles m) i =
     Some ("containers/onboot/"
             ++ String (digit (i / 100))
                  (String (digit (i / 10 mod 10)) (String (digit (i mod 10)) ""))
             ++ "-" ++ MobyImage.Name image,
           MobyImage.Image image)) /\
  (forall i image, nth_error (Onboot m) i = Some image -> (1000 <= i)%nat ->
     nth_error (specBundles m) i =
     Some ("containers/onboot/" ++ NilZero.string_of_uint (Nat.to_uint i)
             ++ "-" ++ MobyImage.Name image,
           MobyImage.Image image) /\
     (3 < String.length (NilZero.string_of_uint (Nat.to_uint i)))%nat) /\
  (forall j image, nth_error (Services m) j = Some image ->
     nth_error (specBundles m) (List.length (Onboot m) + j) =
     Some ("containers/services/" ++ MobyImage.Name image, MobyImage.Image image)) /\
  (forall image rest, Onboot m = image :: rest ->
     nth_error (specBundles m) 0 =
     Some ("containers/onboot/000-" ++ MobyImage.Name image, MobyImage.Image image)).
Proof.
  pose proof (specBundles_onboot m) as Hon.
  destruct (bundleCalls_build decode h m pull) as [Hpre Hall].
  repeat apply conj.
  - exact Hpre.
  - exact Hall.
  - intros i image H Hi. rewrite (Hon i image H). unfold paddedIndex.
    apply Nat.ltb_lt in Hi. now rewrite Hi.
  - intros i image H Hi. split; [|now apply digits_of_large].
    rewrite (Hon i image H). unfold paddedIndex.
    apply Nat.ltb_ge in Hi. now rewrite Hi.
  - intros j image H. unfold specBundles.
    rewrite nth_error_app2 by (rewrite length_map, length_indexedFrom; lia).
    rewrite length_map, length_indexedFrom.
    replace (List.length (Onboot m) + j - List.length (Onboot m))%nat with j by lia.
    rewrite nth_error_map, H. reflexivity.
  - intros image rest H. apply (Hon 0%nat image). now rewrite H.
Qed.

Lemma bundle_paths_by_position_witness :
  bundleCalls (trace Demo.answers (buildInternal Demo.decode Demo.spec false))
  = [("containers/onboot/000-sysctl", "linuxkit/sysctl:1");
     ("containers/onboot/001-dhcpcd", "linuxkit/dhcpcd:1");
     ("containers/onboot/002-rngd", "linuxkit/rngd:1");
     ("containers/services/sshd", "linuxkit/sshd:1")]
  /\ nth_error (specBundles Demo.spec) 1 =
     Some ("containers/onboot/001-dhcpcd", "linuxkit/dhcpcd:1").
Proof.
  destruct (bundle_paths_by_position Demo.decode Demo.answers Demo.spec false)
    as (_ & H & D & _).
  split.
  - rewrite (H _ eq_refl). reflexivity.
  - apply (D 1%nat (MobyImage.mk "dhcpcd" "linuxkit/dhcpcd:1") eq_refl). lia.
Defined.

(** X14: the calls of a build.  The calls a build makes to the other
    files of the program are, in order: the pull of the kernel image (when
    the pull flag is set or the trust policy covers the image), the
    extraction of the kernel image (when it is named), one extraction per
    init image, for each onboot container and then for each service the
    making of its configuration followed by one bundle call that is handed
    exactly the configuration just made, and the files call.  A build that
    ends fatally has made a beginning of this list; a build that returns
    has made all of it, so the number of its calls is known from the
    configuration alone. *)
Theorem build_call_plan (decode : string -> tar.Stream) (h : handler) (m : Moby)
    (pull : bool) :
  (exists rest,
     plan h m pull = (labels (trace h (buildInternal decode m pull)) ++ rest)%list) /\
  (forall out,
     outcomeOf h (buildInternal decode m pull) = Returns out ->
     labels (trace h (buildInternal decode m pull)) = plan h m pull /\
     List.length (trace h (buildInternal decode m pull)) = callCount m pull).
Proof.
  destruct (follows_buildInternal decode h m pull) as [Hpre Hall].
  split; [exact Hpre|]. intros out Hout. pose proof (Hall out Hout) as E.
  split; [exact E|]. rewrite <- (length_plan h), <- E. unfold labels.
  now rewrite length_map.
Qed.

Lemma build_call_plan_witness :
  labels (trace Demo.answers (buildInternal Demo.decode Demo.spec false)) =
  plan Demo.answers Demo.spec false /\
  List.length (trace Demo.answers (buildInternal Demo.decode Demo.spec false)) = 13.
Proof.
  destruct (build_call_plan Demo.decode Demo.answers Demo.spec false) as [_ H].
  eapply H. reflexivity.
Defined.

(** X15: the flags of the calls.  Whatever the answers, and however the
    build ends, every call it makes passes the pull flag of the build
    unchanged and, as its trust flag, the verdict of the trust policy on
    the very image of that call; image extractions always pass the empty
    prefix, [dockerPull] is only ever called on the kernel image, and the
    files call gets the configuration of the build. *)
Theorem calls_follow_policy (decode : string -> tar.Stream) (h : handler) (m : Moby)
    (pull : bool) :
  Forall (flagsFollowPolicy m pull) (labels (trace h (buildInternal decode m pull))).
Proof.
  apply (Forall_follows h _ (plan h m pull)); [apply follows_buildInternal|].
  apply Forall_plan; simpl; auto.
  intros path image. unfold bundlePlan. repeat constructor.
Qed.

(** X16: a build with content trust disabled.  After [build] has emptied
    the trust policy, no call of the build asks for trust, and the kernel
    image is pulled exactly when the pull flag is set. *)
Theorem disabled_trust_asks_no_trust (decode : string -> tar.Stream) (h : handler)
    (m : Moby) (pull : bool) :
  let t := trace h (buildInternal decode (disableTrust m) pull) in
  Forall (fun l => trustFlag l <> Some true) (labels t) /\
  pulls t = if pull then [KernelConfig.Image (Kernel m)] else [].
Proof.
  cbv zeta. split.
  - apply (Forall_follows h _ (plan h (disableTrust m) pull));
      [apply follows_buildInternal|].
    apply Forall_plan; simpl; try discriminate; auto.
    intros path image. unfold bundlePlan. repeat constructor; discriminate.
  - rewrite pulls_buildInternal. unfold pullPlan. cbn [disableTrust Kernel Trust].
    rewrite trust_disabled, orb_false_r. now destruct pull.
Qed.

(** X17: what a build pulls.  [dockerPull] is called at most once in a
    build, on the kernel image and as the first call of all, exactly when
    the pull flag is set or the trust policy covers the kernel image; init
    images, onboot containers and services are never pulled by a call of
    [dockerPull], whatever the pull flag. *)
Theorem pull_once_and_first (decode : string -> tar.Stream) (h : handler) (m : Moby)
    (pull : bool) :
  let image := KernelConfig.Image (Kernel m) in
  let t := trace h (buildInternal decode m pull) in
  pulls t = (if pull || enforceContentTrust image (Trust m) then [image] else []) /\
  pulls (tl t) = [].
Proof.
  cbv zeta. split.
  - rewrite pulls_buildInternal. unfold pullPlan.
    now destruct (pull || enforceContentTrust _ _).
  - destruct (labels_buildInternal h m pull decode) as (later & E & HF).
    rewrite pulls_labels. apply pullLabels_none.
    assert (Ht : Forall (fun l => match l with LPull _ _ => False | _ => True end)
                   (tl (pullPlan m pull ++ later)%list)).
    { unfold pullPlan. destruct (pull || enforceContentTrust _ _); [exact HF|].
      cbn [app]. destruct HF; [constructor | assumption]. }
    rewrite <- E in Ht.
    now destruct (trace h (buildInternal decode m pull)).
Qed.

(* ================================================================= *)
(** ** Builds that return *)

Section SuccessFacts.

Variable decode : string -> tar.Stream.
Variable h : handler.
Variable m : Moby.
Variable pull : bool.

Lemma snd_bind {A B : Type} (p : M A) (f : A -> M B) (a : A) :
  snd (run h p) = Returns a -> snd (run h (bind p f)) = snd (run h (f a)).
Proof.
  destruct (run h p) as [t o] eqn:Hp. simpl. intros ->.
  now rewrite (run_bind_returns h p f t a Hp).
Qed.

Lemma snd_perform {X B : Type} (c : call X) (f : X -> M B) :
  snd (run h (bind (perform c) f)) = snd (run h (f (h _ c))).
Proof. now rewrite run_perform. Qed.

Lemma snd_lift {A B : Type} (f : A -> M B) (a : A) :
  snd (run h (bind (lift (Returns a)) f)) = snd (run h (f a)).
Proof. now rewrite run_lift. Qed.

(** The append of a good fragment. *)
Lemma append_good (iw : tar.Writer) (b : string) :
  goodFragment decode (Ok b) -> (tar.nb iw <= 0)%Z ->
  exists iw',
    initrdAppend decode iw (Raw b) = Returns iw' /\
    tar.entries iw' = (tar.entries iw ++ fragmentEntries decode (Ok b))%list /\
    (tar.nb iw' <= 0)%Z.
Proof.
  intros (b' & es & [= <-] & Hd & HF) Hnb. unfold initrdAppend. cbn [NewReader].
  cbn [fragmentEntries]. rewrite Hd, entriesOf_streamOf, streamOf_prepend.
  destruct (appendLoop_consistent es tar.EOF iw Hnb HF) as (iw1 & Hl & He & Hn).
  exists iw1. rewrite Hl. simpl. auto.
Qed.

Lemma good_ok (r : result string) :
  goodFragment decode r -> exists b, r = Ok b.
Proof. intros (b & es & -> & _). eauto. Qed.

Lemma initLoop_good (inits : list string) (iw : tar.Writer) :
  (tar.nb iw <= 0)%Z ->
  Forall (goodFragment decode) (map (initFragment h m pull) inits) ->
  exists iw',
    snd (run h (initLoop decode m pull inits iw)) = Returns iw' /\
    tar.entries iw' =
      (tar.entries iw
       ++ flat_map (fragmentEntries decode) (map (initFragment h m pull) inits))%list /\
    (tar.nb iw' <= 0)%Z.
Proof.
  revert iw. induction inits as [|ii rest IH]; intros iw Hnb HF.
  - exists iw. simpl. now rewrite app_nil_r.
  - cbn [map] in HF. inversion HF as [|r l Hg HF']; subst.
    cbn [initLoop map flat_map]. rewrite snd_perform.
    destruct (good_ok _ Hg) as [b Hb]. rewrite Hb in Hg |- *.
    unfold initFragment in Hb. rewrite Hb.
    destruct (append_good iw b Hg Hnb) as (iw1 & Ha & He & Hn).
    rewrite Ha, snd_lift.
    destruct (IH iw1 Hn HF') as (iw' & Hr & He' & Hn').
    exists iw'. split; [exact Hr|]. split; [|exact Hn'].
    rewrite He', He, <- app_assoc. reflexivity.
Qed.

Lemma bundle_good (path : string) (image : MobyImage.t) (iw : tar.Writer)
    (k : tar.Writer -> M tar.Writer) :
  (tar.nb iw <= 0)%Z ->
  goodFragment decode (bundleFragment h m pull path image) ->
  exists iw1,
    snd (run h (
      config <- perform (ConfigToOCI image) ;;
      match config with
      | Err err =>
          fatal ("Failed to create config.json for " ++ MobyImage.Image image ++ ": " ++ err)
      | Ok config =>
          out <- perform (ImageBundle path (MobyImage.Image image) config
                            (enforceContentTrust (MobyImage.Image image) (Trust m)) pull) ;;
          match out with
          | Err err =>
              fatal ("Failed to extract root filesystem for "
                       ++ MobyImage.Image image ++ ": " ++ err)
          | Ok out =>
              iw <- lift (initrdAppend decode iw (Raw out)) ;;
              k iw
          end
      end)) = snd (run h (k iw1)) /\
    tar.entries iw1 =
      (tar.entries iw
       ++ fragmentEntries decode (bundleFragment h m pull path image))%list /\
    (tar.nb iw1 <= 0)%Z.
Proof.
  intros Hnb Hg. rewrite snd_perform. unfold bundleFragment in *.
  destruct (h _ (ConfigToOCI image)) as [config|err];
    [|destruct (good_ok _ Hg); discriminate].
  rewrite snd_perform.
  destruct (good_ok _ Hg) as [b Hb]. rewrite Hb in Hg |- *.
  destruct (append_good iw b Hg Hnb) as (iw1 & Ha & He & Hn).
  rewrite Ha, snd_lift. exists iw1. auto.
Qed.

Lemma onbootLoop_good (images : list MobyImage.t) (i : nat) (iw : tar.Writer) :
  (tar.nb iw <= 0)%Z ->
  let frags := map (fun p => bundleFragment h m pull (onbootPath (fst p) (snd p)) (snd p))
                   (indexedFrom i images) in
  Forall (goodFragment decode) frags ->
  exists iw',
    snd (run h (onbootLoop decode m pull i images iw)) = Returns iw' /\
    tar.entries iw' = (tar.entries iw ++ flat_map (fragmentEntries decode) frags)%list /\
    (tar.nb iw' <= 0)%Z.
Proof.
  cbv zeta. revert i iw. induction images as [|image rest IH]; intros i iw Hnb HF.
  - exists iw. simpl. now rewrite app_nil_r.
  - cbn [indexedFrom map fst snd] in HF. inversion HF as [|r l Hg HF']; subst.
    cbn [onbootLoop indexedFrom map flat_map fst snd].
    destruct (bundle_good (onbootPath i image) image iw
                (onbootLoop decode m pull (S i) rest) Hnb Hg) as (iw1 & Hr & He & Hn).
    rewrite Hr. destruct (IH (S i) iw1 Hn HF') as (iw' & Hr' & He' & Hn').
    exists iw'. split; [exact Hr'|]. split; [|exact Hn'].
    rewrite He', He, <- app_assoc. reflexivity.
Qed.

Lemma servicesLoop_good (images : list MobyImage.t) (iw : tar.Writer) :
  (tar.nb iw <= 0)%Z ->
  let frags := map (fun image => bundleFragment h m pull (servicePath image) image) images in
  Forall (goodFragment decode) frags ->
  exists iw',
    snd (run h (servicesLoop decode m pull images iw)) = Returns iw' /\
    tar.entries iw' = (tar.entries iw ++ flat_map (fragmentEntries decode) frags)%list /\
    (tar.nb iw' <= 0)%Z.
Proof.
  cbv zeta. revert iw. induction images as [|image rest IH]; intros iw Hnb HF.
  - exists iw. simpl. now rewrite app_nil_r.
  - cbn [map] in HF. inversion HF as [|r l Hg HF']; subst.
    cbn [servicesLoop map flat_map].
    destruct (bundle_good (servicePath image) image iw
                (servicesLoop decode m pull rest) Hnb Hg) as (iw1 & Hr & He & Hn).
    rewrite Hr. destruct (IH iw1 Hn HF') as (iw' & Hr' & He' & Hn').
    exists iw'. split; [exact Hr'|]. split; [|exact Hn'].
    rewrite He', He, <- app_assoc. reflexivity.
Qed.

Lemma addFiles_good (iw : tar.Writer) :
  (tar.nb iw <= 0)%Z ->
  goodFragment decode (h _ (filesystem m)) ->
  snd (run h (addFiles decode m iw)) =
  Returns (Archive (tar.entries iw ++ fragmentEntries decode (h _ (filesystem m)))%list).
Proof.
  intros Hnb Hg. unfold addFiles. rewrite snd_perform.
  destruct (good_ok _ Hg) as [b Hb]. rewrite Hb in Hg |- *.
  destruct (append_good iw b Hg Hnb) as (iw1 & Ha & He & Hn).
  rewrite Ha, snd_lift. unfold tar.Close.
  destruct (Z.ltb_spec 0 (tar.nb iw1)); [lia|]. simpl. now rewrite He.
Qed.

Lemma pullKernel_good :
  (pull || enforceContentTrust (KernelConfig.Image (Kernel m)) (Trust m) = true ->
   h _ (dockerPull (KernelConfig.Image (Kernel m))
          (enforceContentTrust (KernelConfig.Image (Kernel m)) (Trust m))) = None) ->
  snd (run h (pullKernel m pull)) = Returns tt.
Proof.
  unfold pullKernel.
  destruct (pull || enforceContentTrust _ _); [|reflexivity].
  intros H. rewrite snd_perform, (H eq_refl). reflexivity.
Qed.

(** The build from the init images on. *)
Lemma later_good (iw : tar.Writer) :
  (tar.nb iw <= 0)%Z ->
  Forall (goodFragment decode) (laterFragments h m pull) ->
  snd (run h (iw <- initLoop decode m pull (Init m) iw ;;
              iw <- onbootLoop decode m pull 0 (Onboot m) iw ;;
              iw <- servicesLoop decode m pull (Services m) iw ;;
              addFiles decode m iw)) =
  Returns (Archive (tar.entries iw
                    ++ flat_map (fragmentEntries decode) (laterFragments h m pull))%list).
Proof.
  intros Hnb HF. unfold laterFragments in *.
  apply Forall_app in HF as [F1 HF]. apply Forall_app in HF as [F2 HF].
  apply Forall_app in HF as [F3 F4]. inversion F4 as [|r l Hg _]; subst.
  destruct (initLoop_good (Init m) iw Hnb F1) as (iw1 & R1 & E1 & N1).
  rewrite (snd_bind _ _ iw1 R1).
  destruct (onbootLoop_good (Onboot m) 0 iw1 N1 F2) as (iw2 & R2 & E2 & N2).
  rewrite (snd_bind _ _ iw2 R2).
  destruct (servicesLoop_good (Services m) iw2 N2 F3) as (iw3 & R3 & E3 & N3).
  rewrite (snd_bind _ _ iw3 R3).
  rewrite (addFiles_good iw3 N3 Hg), E3, E2, E1.
  rewrite !flat_map_app. cbn [flat_map]. rewrite app_nil_r, <- !app_assoc. reflexivity.
Qed.

End SuccessFacts.

Section KernelSuccess.

Variable decode : string -> tar.Stream.
Variables kn kan ktn cmdline : string.

Lemma ktarAfter_app (l1 l2 : list tar.Entry) (t0 : option Buffer) :
  ktarAfterEntries ktn (l1 ++ l2)%list t0 =
  ktarAfterEntries ktn l2 (ktarAfterEntries ktn l1 t0).
Proof.
  revert t0. induction l1 as [|e l1 IH]; intros t0; [reflexivity|]. simpl. apply IH.
Qed.

(** The only kernel entry of a list splits it. *)
Lemma one_kernel_split (es : list tar.Entry) (k : tar.Entry) :
  filter (isKernelEntry kn kan) es = [k] ->
  exists l1 l2, es = (l1 ++ k :: l2)%list
    /\ existsb (isKernelEntry kn kan) l1 = false
    /\ isKernelEntry kn kan k = true
    /\ existsb (isKernelEntry kn kan) l2 = false.
Proof.
  intros Hf.
  destruct (kernel_cases kn kan es)
    as [[_ C0] | [(l1 & k' & l2 & E & H1 & Hk & H2 & _)
                 | (l1 & k' & l2 & k2 & l3 & _ & _ & _ & _ & _ & C2)]].
  - rewrite Hf in C0. discriminate.
  - exists l1, l2. rewrite E in Hf. rewrite filter_app in Hf. cbn [filter] in Hf.
    rewrite Hk, !filter_none in Hf by assumption. injection Hf as ->. auto.
  - rewrite Hf in C2. simpl in C2. lia.
Qed.

(** The result of the splitter on a stream with one kernel entry and a
    filesystem tar. *)
Lemma untarKernel_good (buf : Buffer) (es earlier : list tar.Entry) (k : tar.Entry)
    (thdr : tar.Header) (ktarBytes : string) :
  ktn <> kn -> ktn <> kan ->
  NewReader decode buf = tar.streamOf es ->
  filter (isKernelEntry kn kan) es = [k] -> consistent k ->
  filter (isKtarEntry ktn) es = (earlier ++ [(thdr, ktarBytes)])%list ->
  untarKernel decode buf kn kan ktn cmdline =
  Returns (Ok (Archive (bootEntries (fst k) (snd k) cmdline), Raw ktarBytes)).
Proof.
  intros Hn1 Hn2 Hr Hk Hc Ht. unfold untarKernel. rewrite Hr, streamOf_prepend.
  destruct (one_kernel_split es k Hk) as (l1 & l2 & E & H1 & Hik & H2).
  assert (Hsome : ktarAfterEntries ktn es None = Some (Raw ktarBytes)).
  { rewrite (ktarAfter_filter ktn es None (thdr, ktarBytes)), Ht.
    destruct (earlier ++ [(thdr, ktarBytes)])%list as [|e l] eqn:E0.
    - now destruct earlier.
    - rewrite <- E0, last_last. reflexivity. }
  rewrite E in Hsome |- *. rewrite ktarAfter_app in Hsome. cbn [ktarAfterEntries] in Hsome.
  rewrite (kernel_is_no_ktar kn kan ktn k Hn1 Hn2 Hik) in Hsome.
  rewrite (loop_one_kernel kn kan ktn cmdline l1 l2 k tar.EOF H1 Hik Hc H2), Hsome.
  reflexivity.
Qed.

Lemma bootEntries_consistent (hdr : tar.Header) (content : string) :
  consistent (hdr, content) -> Forall consistent (bootEntries hdr content cmdline).
Proof. intros Hc. unfold bootEntries. repeat constructor. exact Hc. Qed.

End KernelSuccess.

Section BuildSuccess.

Variable decode : string -> tar.Stream.
Variable h : handler.
Variable m : Moby.
Variable pull : bool.

Lemma addKernel_good (iw : tar.Writer) (kernelBytes : string)
    (es earlier : list tar.Entry) (k : tar.Entry) (thdr : tar.Header) (ktarBytes : string) :
  KernelConfig.Image (Kernel m) <> "" ->
  h _ (ImageExtract (KernelConfig.Image (Kernel m)) ""
         (enforceContentTrust (KernelConfig.Image (Kernel m)) (Trust m)) pull)
  = Ok kernelBytes ->
  decode kernelBytes = tar.streamOf es ->
  filter (isKernelEntry kernelName kernelAltName) es = [k] -> consistent k ->
  filter (isKtarEntry ktarName) es = (earlier ++ [(thdr, ktarBytes)])%list ->
  goodFragment decode (Ok ktarBytes) ->
  (tar.nb iw <= 0)%Z ->
  exists iw',
    snd (run h (addKernel decode m pull iw)) = Returns iw' /\
    tar.entries iw' =
      (tar.entries iw ++ bootEntries (fst k) (snd k) (KernelConfig.Cmdline (Kernel m))
       ++ fragmentEntries decode (Ok ktarBytes))%list /\
    (tar.nb iw' <= 0)%Z.
Proof.
  intros Hne Hx Hd Hk Hc Ht Hg Hnb. unfold addKernel.
  apply String.eqb_neq in Hne. rewrite Hne. cbn [negb].
  rewrite snd_perform, Hx.
  rewrite (untarKernel_good decode kernelName kernelAltName ktarName
             (KernelConfig.Cmdline (Kernel m)) (Raw kernelBytes) es earlier k thdr ktarBytes);
    try assumption; try discriminate.
  rewrite snd_lift.
  destruct (appendLoop_consistent
              (bootEntries (fst k) (snd k) (KernelConfig.Cmdline (Kernel m))) tar.EOF iw Hnb)
    as (iw1 & Hl & He & Hn).
  { apply bootEntries_consistent. now destruct k. }
  unfold initrdAppend at 1. cbn [NewReader]. rewrite streamOf_prepend, Hl.
  cbn [appendLoop]. rewrite snd_lift.
  destruct (append_good decode iw1 ktarBytes Hg Hn) as (iw2 & Ha & He2 & Hn2).
  rewrite Ha. exists iw2. split; [reflexivity|]. split; [|exact Hn2].
  rewrite He2, He, <- app_assoc. reflexivity.
Qed.

End BuildSuccess.

(** A build without kernel image whose fragments are all good returns. *)
Lemma returns_without_kernel (decode : string -> tar.Stream) (h : handler)
    (m : Moby) (pull : bool) :
  KernelConfig.Image (Kernel m) = "" ->
  (pull || enforceContentTrust (KernelConfig.Image (Kernel m)) (Trust m) = true ->
   h _ (dockerPull (KernelConfig.Image (Kernel m))
          (enforceContentTrust (KernelConfig.Image (Kernel m)) (Trust m))) = None) ->
  Forall (goodFragment decode) (laterFragments h m pull) ->
  outcomeOf h (buildInternal decode m pull) =
  Returns (Archive (flat_map (fragmentEntries decode) (laterFragments h m pull))).
Proof.
  intros Himg Hpull HF. unfold outcomeOf, buildInternal.
  rewrite (snd_bind h _ _ tt (pullKernel_good h m pull Hpull)).
  assert (Hk : snd (run h (addKernel decode m pull tar.NewWriter)) = Returns tar.NewWriter).
  { unfold addKernel. now rewrite Himg. }
  rewrite (snd_bind h _ _ _ Hk).
  rewrite (later_good decode h m pull tar.NewWriter); [reflexivity | simpl; lia | exact HF].
Qed.

(** The bundles of the example are good fragments. *)
Lemma demo_bundle_good (path : string) :
  goodFragment Demo.decode (Ok ("bundle " ++ path)).
Proof.
  exists ("bundle " ++ path),
         [Demo.dir path; Demo.file (path ++ "/config.json") 420 "{}"].
  split; [reflexivity|]. split; [|repeat constructor].
  unfold Demo.decode. cbn. now rewrite prefix_empty.
Qed.

(** C6 as stated fails: the claim gives every onboot entry a 3-digit
    index, but [%03d] pads and never cuts.  In a build with 1001 onboot
    containers, which returns, the bundle of the entry at position 1000 is
    made at "containers/onboot/1000-x": its index has four digits, and the
    path is "containers/onboot/", three characters, a hyphen and the name
    for no three characters. *)
Lemma onboot_index_four_digits_counterexample :
  nth_error (Onboot manyOnboot) 1000 = Some (MobyImage.mk "x" "img") /\
  (exists out,
     outcomeOf Demo.answers (buildInternal Demo.decode manyOnboot false) = Returns out) /\
  nth_error (bundleCalls (trace Demo.answers (buildInternal Demo.decode manyOnboot false)))
    1000 = Some ("containers/onboot/1000-x", "img") /\
  onbootPath 1000 (MobyImage.mk "x" "img") = "containers/onboot/1000-x" /\
  ~ (exists a b c : ascii,
       onbootPath 1000 (MobyImage.mk "x" "img") =
       "containers/onboot/" ++ String a (String b (String c "-x"))).
Proof.
  assert (Hnth : nth_error (Onboot manyOnboot) 1000 = Some (MobyImage.mk "x" "img"))
    by reflexivity.
  assert (Hpath : onbootPath 1000 (MobyImage.mk "x" "img") = "containers/onboot/1000-x")
    by reflexivity.
  assert (Hrun : exists out,
            outcomeOf Demo.answers (buildInternal Demo.decode manyOnboot false)
            = Returns out).
  { eexists. apply returns_without_kernel; [reflexivity | discriminate |].
    unfold laterFragments. repeat (apply Forall_app; split).
    - constructor.
    - apply Forall_map, Forall_forall. intros p _. apply demo_bundle_good.
    - constructor.
    - repeat constructor.
      exists "<overlay>", [Demo.file "etc/hostname" 420 "moby"].
      split; [reflexivity|]. split; [reflexivity | repeat constructor]. }
  split; [exact Hnth|]. split; [exact Hrun|]. split; [|split].
  - destruct Hrun as [out Hout].
    rewrite (proj2 (bundleCalls_build Demo.decode Demo.answers manyOnboot false) out Hout).
    rewrite (specBundles_onboot manyOnboot 1000 _ Hnth). reflexivity.
  - exact Hpath.
  - rewrite Hpath. intros (a & b & c & H). cbn [append] in H. discriminate.
Qed.

(** X18: the archive of a build without kernel image.  When the
    configuration names no kernel image and the build returns, every
    fragment (init images, onboot containers, services, files) arrived and
    was read to its end without error, and the archive holds exactly their
    entries, in this order, and nothing before them: no boot directory, no
    kernel, no command line. *)
Theorem archive_without_kernel (decode : string -> tar.Stream) (h : handler) (m : Moby)
    (pull : bool) (out : Buffer) :
  KernelConfig.Image (Kernel m) = "" ->
  outcomeOf h (buildInternal decode m pull) = Returns out ->
  Forall (wholeFragment decode) (laterFragments h m pull) /\
  out = Archive (flat_map (fragmentEntries decode) (laterFragments h m pull)).
Proof.
  intros Himg. unfold outcomeOf.
  destruct (run h (buildInternal decode m pull)) as [t o] eqn:Hr. simpl. intros ->.
  unfold buildInternal in Hr.
  apply run_bind_inv in Hr as (t0 & u & t0' & _ & Hr & _).
  apply run_bind_inv in Hr as (t1 & iw1 & t1' & Hkernel & Hr & _).
  apply run_bind_inv in Hr as (t2 & iw2 & t2' & Hinit & Hr & _).
  apply run_bind_inv in Hr as (t3 & iw3 & t3' & Honboot & Hr & _).
  apply run_bind_inv in Hr as (t4 & iw4 & t4' & Hservices & Hfiles & _).
  unfold addKernel in Hkernel. rewrite Himg in Hkernel. simpl in Hkernel.
  injection Hkernel as _ <-.
  apply initLoop_ok in Hinit as [F2 E2].
  apply onbootLoop_ok in Honboot as (F3 & E3 & _).
  apply servicesLoop_ok in Hservices as (F4 & E4 & _).
  apply addFiles_ok in Hfiles as (F5 & -> & _).
  unfold laterFragments. split.
  - repeat (apply Forall_app; split); auto.
  - rewrite E4, E3, E2. simpl tar.entries. rewrite !flat_map_app. cbn [flat_map app].
    rewrite app_nil_r, <- !app_assoc. reflexivity.
Qed.

Lemma archive_without_kernel_witness :
  outcomeOf Demo.answers (buildInternal Demo.decode Demo.noKernel false) =
  Returns (Archive [Demo.file "etc/hostname" 420 "moby"]).
Proof.
  destruct (archive_without_kernel Demo.decode Demo.answers Demo.noKernel false
              (Archive [Demo.file "etc/hostname" 420 "moby"]) eq_refl eq_refl) as [_ E].
  rewrite E. reflexivity.
Defined.

(** X19: a build that returns.  When the pull of the kernel image, if it
    is made, succeeds, the kernel image arrives and reads without error as
    entries of which exactly one has a kernel name (its header announcing
    the size of its content) and at least one is named kernel.tar, the
    content of the last of these is a good fragment, and every later
    fragment (init images, onboot containers, services, files) is a good
    fragment, then the build returns, and the archive is the boot tarball
    of the kernel entry, the entries of that filesystem tar, and the
    entries of the later fragments. *)
Theorem build_returns (decode : string -> tar.Stream) (h : handler) (m : Moby)
    (pull : bool) (kernelBytes : string) (es earlier : list tar.Entry) (k : tar.Entry)
    (thdr : tar.Header) (ktarBytes : string) :
  let image := KernelConfig.Image (Kernel m) in
  let trust := enforceContentTrust image (Trust m) in
  image <> "" ->
  (pull || trust = true -> h _ (dockerPull image trust) = None) ->
  h _ (ImageExtract image "" trust pull) = Ok kernelBytes ->
  decode kernelBytes = tar.streamOf es ->
  filter (isKernelEntry kernelName kernelAltName) es = [k] -> consistent k ->
  filter (isKtarEntry ktarName) es = (earlier ++ [(thdr, ktarBytes)])%list ->
  goodFragment decode (Ok ktarBytes) ->
  Forall (goodFragment decode) (laterFragments h m pull) ->
  outcomeOf h (buildInternal decode m pull) =
  Returns (Archive
    (bootEntries (fst k) (snd k) (KernelConfig.Cmdline (Kernel m))
     ++ fragmentEntries decode (Ok ktarBytes)
     ++ flat_map (fragmentEntries decode) (laterFragments h m pull))%list).
Proof.
  cbv zeta. intros Hne Hpull Hx Hd Hk Hc Ht Hg HF. unfold outcomeOf, buildInternal.
  rewrite (snd_bind h _ _ tt (pullKernel_good h m pull Hpull)).
  destruct (addKernel_good decode h m pull tar.NewWriter kernelBytes es earlier k thdr
              ktarBytes Hne Hx Hd Hk Hc Ht Hg) as (iw1 & R1 & E1 & N1); [simpl; lia|].
  rewrite (snd_bind h _ _ iw1 R1).
  rewrite (later_good decode h m pull iw1 N1 HF), E1. simpl tar.entries.
  cbn [app]. rewrite <- !app_assoc. reflexivity.
Qed.

Lemma build_returns_witness :
  outcomeOf Demo.answers (buildInternal Demo.decode Demo.spec false) =
  Returns (Archive
    (bootEntries (fst (Demo.file "kernel" 420 "X")) "X" "console=ttyS0"
     ++ [Demo.dir "lib"; Demo.file "lib/modules.dep" 420 "dep"]
     ++ flat_map (fragmentEntries Demo.decode)
          (laterFragments Demo.answers Demo.spec false))%list).
Proof.
  refine (build_returns Demo.decode Demo.answers Demo.spec false "<kernel image>"
            [Demo.dir "etc"; Demo.file "kernel" 420 "X";
             Demo.file "kernel.tar" 420 "<modules>"]
            [] (Demo.file "kernel" 420 "X") (fst (Demo.file "kernel.tar" 420 "<modules>"))
            "<modules>" _ (fun _ => eq_refl) eq_refl eq_refl eq_refl eq_refl eq_refl _ _).
  - discriminate.
  - eexists; eexists. split; [reflexivity|]. split; [reflexivity|]. repeat constructor.
  - unfold laterFragments. simpl.
    repeat (apply Forall_cons;
            [eexists; eexists; split; [reflexivity|]; split; [reflexivity|];
             repeat constructor|]).
    apply Forall_nil.
Defined.

(** X20: a build without kernel image that returns.  When the
    configuration names no kernel image, the pull of the empty reference,
    if it is made, succeeds, and every fragment is a good fragment, the
    build returns the archive of the entries of the fragments. *)
Theorem build_returns_without_kernel (decode : string -> tar.Stream) (h : handler)
    (m : Moby) (pull : bool) :
  KernelConfig.Image (Kernel m) = "" ->
  (pull || enforceContentTrust "" (Trust m) = true ->
   h _ (dockerPull "" (enforceContentTrust "" (Trust m))) = None) ->
  Forall (goodFragment decode) (laterFragments h m pull) ->
  outcomeOf h (buildInternal decode m pull) =
  Returns (Archive (flat_map (fragmentEntries decode) (laterFragments h m pull))).
Proof.
  intros Himg Hpull HF. unfold outcomeOf, buildInternal.
  rewrite <- Himg in Hpull.
  rewrite (snd_bind h _ _ tt (pullKernel_good h m pull Hpull)).
  assert (Hk : snd (run h (addKernel decode m pull tar.NewWriter)) = Returns tar.NewWriter).
  { unfold addKernel. now rewrite Himg. }
  rewrite (snd_bind h _ _ _ Hk).
  rewrite (later_good decode h m pull tar.NewWriter); [reflexivity | simpl; lia | exact HF].
Qed.

Lemma build_returns_without_kernel_witness :
  outcomeOf Demo.answers (buildInternal Demo.decode Demo.noKernel true) =
  Returns (Archive [Demo.file "etc/hostname" 420 "moby"]).
Proof.
  refine (build_returns_without_kernel Demo.decode Demo.answers Demo.noKernel true
            eq_refl (fun _ => eq_refl) _).
  unfold laterFragments. simpl.
  apply Forall_cons; [|apply Forall_nil].
  eexists; eexists. split; [reflexivity|]. split; [reflexivity|]. repeat constructor.
Defined.

(* ================================================================= *)
(** ** The build command *)

Section PathFacts2.















End PathFacts2.



Section CommandFacts.

Variable decode : string -> tar.Stream.
Variable filepath_Join : string -> string -> string.
Variable w : World.

Lemma dockerEvents_app (t1 t2 : list action) :
  dockerEvents (t1 ++ t2)%list = (dockerEvents t1 ++ dockerEvents t2)%list.
Proof. apply flat_map_app. Qed.

Lemma dockerEvents_Docker (t : list event) : dockerEvents (map Docker t) = t.
Proof.
  unfold dockerEvents. induction t as [|ev t IH]; simpl; [reflexivity|]. now rewrite IH.
Qed.

(** The name that [readConfig] gives. *)
Lemma readConfig_ok (f : BuildFlags) (conf config : string) :
  readAnswer w conf = Ok config ->
  readConfig w (buildName f) conf = ([readAction w conf], inl (config, outputName f conf)).
Proof.
  unfold readAnswer, readConfig, readAction, outputName.
  destruct (String.eqb conf "-"); intros ->; simpl;
    now destruct (String.eqb (buildName f) "").
Qed.

Lemma readConfig_err (name conf : string) (err : error) :
  readAnswer w conf = Err err ->
  exists msg, readConfig w name conf = ([readAction w conf], inr (LogFatal msg)).
Proof.
  unfold readAnswer, readConfig, readAction.
  destruct (String.eqb conf "-"); intros ->; simpl; eauto.
Qed.

Lemma cmdBind_do {A B : Type} (a : action) (x : A) (k : A -> Cmd B) :
  cmdBind (cmdDo a x) k = (a :: fst (k x), snd (k x)).
Proof. unfold cmdBind, cmdDo. now destruct (k x). Qed.

Lemma cmdBind_ok {A B : Type} (m : Cmd A) (t : list action) (a : A) (k : A -> Cmd B) :
  m = (t, inl a) -> cmdBind m k = ((t ++ fst (k a))%list, snd (k a)).
Proof. intros ->. unfold cmdBind. now destruct (k a). Qed.

Lemma cmdBind_stop {A B : Type} (m : Cmd A) (t : list action) (s : status)
    (k : A -> Cmd B) :
  m = (t, inr s) -> cmdBind m k = (t, inr s).
Proof. now intros ->. Qed.

Lemma runBuildInternal_eq (m : Moby) (pull : bool) :
  runBuildInternal decode w m pull =
  (map Docker (trace (docker w) (buildInternal decode m pull)),
   match outcomeOf (docker w) (buildInternal decode m pull) with
   | Returns image => inl image
   | Fatal msg => inr (LogFatal msg)
   end).
Proof.
  unfold runBuildInternal, trace, outcomeOf.
  now destruct (run (docker w) (buildInternal decode m pull)).
Qed.

(** The command from the parse of the configuration on. *)
Lemma buildConfig_eq (f : BuildFlags) (conf : string) (size : Z) (config : string) :
  buildConfig decode filepath_Join w f (selectedOutputs (buildOut f)) size config
    (outputName f conf) =
  match NewConfig w config with
  | Err err => ([NewConfigOf config (Err err)], inr (LogFatal ("Invalid config: " ++ err)))
  | Ok m =>
      let p := buildInternal decode (configured f m) (buildPull f) in
      match outcomeOf (docker w) p with
      | Fatal msg =>
          (NewConfigOf config (Ok m) :: map Docker (trace (docker w) p), inr (LogFatal msg))
      | Returns image =>
          let base := filepath_Join (buildDir f) (outputName f conf) in
          let answer := outputs w base image (selectedOutputs (buildOut f)) size
                          (buildHyperkit f) in
          ((NewConfigOf config (Ok m) :: map Docker (trace (docker w) p)
            ++ [Outputs base image (selectedOutputs (buildOut f)) size
                  (buildHyperkit f) answer])%list,
           match answer with
           | Some err => inr (LogFatal ("Error writing outputs: " ++ err))
           | None => inl tt
           end)
      end
  end.
Proof.
  unfold buildConfig. rewrite cmdBind_do.
  destruct (NewConfig w config) as [m|err]; [|reflexivity].
  fold (configured f m). rewrite runBuildInternal_eq.
  destruct (outcomeOf (docker w) (buildInternal decode (configured f m) (buildPull f)))
    as [image|msg]; [|reflexivity].
  erewrite cmdBind_ok by reflexivity. rewrite cmdBind_do. cbn [fst snd].
  destruct (outputs w _ image _ size _); reflexivity.
Qed.

(** The calls of the build inside the command. *)
Lemma dockerEvents_build (f : BuildFlags) :
  dockerEvents (fst (build decode filepath_Join w f)) = []
  \/ exists m,
       dockerEvents (fst (build decode filepath_Join w f)) =
       trace (docker w) (buildInternal decode (configured f m) (buildPull f)).
Proof.
  unfold build, buildCmd. cbn [fst].
  destruct (remArgs f) as [|conf rest]; [now left|].
  rewrite cmdBind_do.
  destruct (validateOutputs w (selectedOutputs (buildOut f))) as [err|]; [now left|].
  destruct (getDiskSizeMB (buildSize f)) as [size [err|]]; [now left|].
  cbn [fst].
  destruct (readAnswer w conf) as [config|err] eqn:Hr.
  - rewrite (cmdBind_ok _ _ _ _ (readConfig_ok f conf config Hr)). cbn [fst snd].
    rewrite (buildConfig_eq f conf size config).
    destruct (NewConfig w config) as [m|err].
    + right. exists m. cbv zeta.
      assert (Hread : dockerEvents [readAction w conf] = []).
      { unfold readAction. now destruct (String.eqb conf "-"). }
      destruct (outcomeOf (docker w) (buildInternal decode (configured f m) (buildPull f)));
        cbn [fst]; change (?a :: (?l ++ ?r))%list with ([a] ++ l ++ r)%list;
        rewrite ?dockerEvents_app, Hread; cbn [app dockerEvents flat_map];
        fold (dockerEvents (map Docker
               (trace (docker w) (buildInternal decode (configured f m) (buildPull f)))));
        rewrite ?dockerEvents_app, dockerEvents_Docker; cbn; now rewrite ?app_nil_r.
    + left. unfold readAction. now destruct (String.eqb conf "-").
  - destruct (readConfig_err (buildName f) conf err Hr) as [msg Hm].
    rewrite (cmdBind_stop _ _ _ _ Hm). left. cbn [fst].
    unfold readAction. now destruct (String.eqb conf "-").
Qed.

End CommandFacts.

Lemma no_trust_asked (decode : string -> tar.Stream) (h : handler) (m : Moby)
    (pull : bool) :
  Forall (fun l => trustFlag l <> Some true)
    (labels (trace h (buildInternal decode (disableTrust m) pull))).
Proof.
  apply (Forall_follows h _ (plan h (disableTrust m) pull));
    [apply follows_buildInternal|].
  apply Forall_plan; simpl; try discriminate; auto.
  intros path image. unfold bundlePlan. repeat constructor; discriminate.
Qed.

(** X22: checks come before work.  When the command has no argument, or
    an output type is refused, or the size does not parse, the command
    ends with exit status 1 or with the fatal message about the size,
    and it has read no configuration, made no call of the build and
    written no output. *)
Theorem checks_before_work (decode : string -> tar.Stream)
    (filepath_Join : string -> string -> string) (w : World) (f : BuildFlags) :
  remArgs f = []
  \/ validateOutputs w (selectedOutputs (buildOut f)) <> None
  \/ snd (getDiskSizeMB (buildSize f)) <> None ->
  Forall (fun a => works a = false) (fst (build decode filepath_Join w f)) /\
  (snd (build decode filepath_Join w f) = Exit 1
   \/ exists err,
        snd (getDiskSizeMB (buildSize f)) = Some err /\
        snd (build decode filepath_Join w f)
        = LogFatalSize "Unable to parse disk size: " err).
Proof.
  intros H. unfold build, buildCmd.
  destruct (remArgs f) as [|conf rest].
  { simpl. split; [repeat constructor | now left]. }
  rewrite cmdBind_do.
  destruct (validateOutputs w (selectedOutputs (buildOut f))) as [err|].
  { simpl. split; [repeat constructor | now left]. }
  destruct (getDiskSizeMB (buildSize f)) as [size [err|]].
  { simpl. split; [repeat constructor | right; eauto]. }
  exfalso. destruct H as [H|[H|H]]; [discriminate | now apply H | now apply H].
Qed.

Lemma checks_before_work_witness :
  build Demo.decode append
    (mkWorld (fun _ => None) (Err "closed") (fun _ => Err "missing")
       (fun _ => Err "empty") (fun _ _ _ _ _ => None) Demo.answers)
    (mkBuildFlags "" "" "1.5G" false false false [] ["linuxkit.yml"])
  = ([ValidateOutputs ["kernel+initrd"] None],
     LogFatalSize "Unable to parse disk size: "
       (strconv.mkNumError "Atoi" "1.5" strconv.ErrSyntax)).
Proof.
  destruct (checks_before_work Demo.decode append
              (mkWorld (fun _ => None) (Err "closed") (fun _ => Err "missing")
                 (fun _ => Err "empty") (fun _ _ _ _ _ => None) Demo.answers)
              (mkBuildFlags "" "" "1.5G" false false false [] ["linuxkit.yml"]))
    as [_ [H|(err & _ & H)]].
  - right. right. discriminate.
  - discriminate H.
  - reflexivity.
Defined.

(** X23: a command that goes well.  When there is an argument, the
    output types are accepted, the size parses, the configuration is read
    and parsed, the build of it (with the trust policy emptied under
    [-disable-content-trust]) returns an image, and the outputs are
    written, then the command finishes, and what it did is, in order: the
    validation of the outputs, one read (of standard input for the
    argument [-], else of the configuration file), one parse, the calls
    of the build, and one call of [outputs], which gets the joined
    directory and name, the image built, the selected outputs
    (kernel+initrd when none is given), the size in MB and the hyperkit
    flag. *)
Theorem command_goes_well (decode : string -> tar.Stream)
    (filepath_Join : string -> string -> string) (w : World) (f : BuildFlags)
    (conf : string) (size : Z) (config : string) (m : Moby) (image : Buffer) :
  goesWell decode filepath_Join w f conf size config m image ->
  build decode filepath_Join w f =
  (actionsWhenWell decode filepath_Join w f conf size config m image, Finished).
Proof.
  intros (Hc & Hv & Hs & Hr & Hn & Hb & Ho). unfold build, buildCmd, actionsWhenWell.
  destruct (remArgs f) as [|c rest]; [discriminate|]. injection Hc as ->.
  rewrite cmdBind_do, Hv, Hs.
  rewrite (cmdBind_ok _ _ _ _ (readConfig_ok w f conf config Hr)).
  cbn [fst snd]. rewrite (buildConfig_eq decode filepath_Join w f conf size config).
  rewrite Hn. cbv zeta. rewrite Hb, Ho. reflexivity.
Qed.

(** X24: a command that finished.  A command ends without exit status or
    fatal message only when every step went well: it had an argument, the
    output types were accepted, the size parsed, the configuration was
    read and parsed, the build returned an image and the outputs were
    written without error. *)
Theorem finished_went_well (decode : string -> tar.Stream)
    (filepath_Join : string -> string -> string) (w : World) (f : BuildFlags) :
  snd (build decode filepath_Join w f) = Finished ->
  exists conf size config m image,
    goesWell decode filepath_Join w f conf size config m image.
Proof.
  unfold build, buildCmd, goesWell.
  destruct (remArgs f) as [|conf rest]; [discriminate|].
  rewrite cmdBind_do.
  destruct (validateOutputs w (selectedOutputs (buildOut f))) as [err|]; [discriminate|].
  destruct (getDiskSizeMB (buildSize f)) as [size [err|]]; [discriminate|].
  cbn [fst snd].
  destruct (readAnswer w conf) as [config|err] eqn:Hr.
  - rewrite (cmdBind_ok _ _ _ _ (readConfig_ok w f conf config Hr)).
    cbn [fst snd]. rewrite (buildConfig_eq decode filepath_Join w f conf size config).
    destruct (NewConfig w config) as [m|err] eqn:Hn; [|discriminate].
    cbv zeta.
    destruct (outcomeOf (docker w) (buildInternal decode (configured f m) (buildPull f)))
      as [image|msg] eqn:Hb; [|discriminate].
    destruct (outputs w _ image _ size _) as [err|] eqn:Ho; [discriminate|].
    intros _. exists conf, size, config, m, image. repeat split; assumption.
  - destruct (readConfig_err w (buildName f) conf err Hr) as [msg Hm].
    rewrite (cmdBind_stop _ _ _ _ Hm). discriminate.
Qed.

Lemma command_goes_well_witness :
  snd (build Demo.decode demoJoin demoWorld (defaultFlags ["linuxkit"])) = Finished.
Proof.
  erewrite (command_goes_well Demo.decode demoJoin demoWorld (defaultFlags ["linuxkit"])
              "linuxkit" 1024 "<yaml>" Demo.spec (Archive _)).
  - reflexivity.
  - repeat split; reflexivity.
Defined.

Lemma finished_went_well_witness :
  exists conf size config m image,
    goesWell Demo.decode demoJoin demoWorld (defaultFlags ["-"]) conf size config m image.
Proof.
  apply (finished_went_well Demo.decode demoJoin demoWorld (defaultFlags ["-"])).
  reflexivity.
Defined.

(** X25: content trust disabled on the command line.  Under
    [-disable-content-trust] no call that the build makes for the command
    asks for trust, whatever the trust section of the configuration
    says. *)
Theorem command_disables_trust (decode : string -> tar.Stream)
    (filepath_Join : string -> string -> string) (w : World) (f : BuildFlags) :
  buildDisableTrust f = true ->
  Forall (fun l => trustFlag l <> Some true)
    (labels (dockerEvents (fst (build decode filepath_Join w f)))).
Proof.
  intros Hflag.
  destruct (dockerEvents_build decode filepath_Join w f) as [->|[m ->]]; [constructor|].
  unfold configured. rewrite Hflag. apply no_trust_asked.
Qed.

Lemma command_disables_trust_witness :
  Forall (fun l => trustFlag l <> Some true)
    (labels (dockerEvents (fst (build Demo.decode demoJoin demoWorld
       (mkBuildFlags "" "" "1024M" true true false [] ["linuxkit.yml"]))))).
Proof.
  apply (command_disables_trust Demo.decode demoJoin demoWorld
           (mkBuildFlags "" "" "1024M" true true false [] ["linuxkit.yml"]) eq_refl).
Defined.
